(** * KBUS: the Python message wrapper of [kbus.py] and the bus it talks to

    [kbus.py] holds the user-space side of KBUS: the [Message] class, which
    builds and checks the binary frame of a message, thin wrappers around the
    ioctls of the kernel module, and the tests that drive the module through
    [/dev/kbus0].

    The [Message] class is embedded here function by function.  The kernel
    module itself is not part of [kbus.py]; the bus it implements is modelled
    further down, and the tests of [kbus.py] are run against that model. *)

From Stdlib Require Import ZArith List Lia ZifyBool Bool Ascii String.
From Stdlib Require DecimalString DecimalN.
From stdpp Require Import base option list sorting lexico gmap strings.
Import ListNotations.

Local Open Scope Z_scope.

(** ** Python values, exceptions and the error monad *)

Module Py.

(** The reasons [kbus.py] (or the [array] module or the interpreter below
    it) gives for a [ValueError]. *)
Inductive value_error : Type :=
| TupleArity (n : nat)            (* "Tuple arg to Message() must have 6 values, not %d" *)
| NoSense                         (* "Argument %s does not seem to make sense" *)
| ItemSize                        (* array: "string length not a multiple of item size" *)
| NameTooShort (name_len_bytes : Z) (* "Message name is %d long, minimum is 3" *)
| Unpack (values : nat)           (* "need more than %d values to unpack", "too many values to unpack" *)
| IntLiteral (s : string)         (* "invalid literal for int() with base 10: %s" *)
| GotReplier (rep : string)       (* "Got replier '%c' when expecting 'R' or 'L'" *)
| GotAll (all : string).          (* "Got all '%c' when expecting 'T' or 'F'" *)

Inductive exn : Type :=
| ValueError (why : value_error)
| AssertionError
| IndexError
| OverflowError
| TypeError.

Inductive result (A : Type) : Type :=
| Ok (a : A)
| Raise (e : exn).
Arguments Ok {A} a.
Arguments Raise {A} e.

Definition bind {A B} (m : result A) (k : A -> result B) : result B :=
  match m with
  | Ok a => k a
  | Raise e => Raise e
  end.

(** [assert c] *)
Definition assert (c : bool) : result unit :=
  if c then Ok tt else Raise AssertionError.

(** The values that reach [Message]: [None], integers, byte strings and
    [array.array('L', ...)] instances. *)
Inductive atom : Type :=
| ANone
| AInt (z : Z)
| AStr (s : string)
| AArr (a : list Z).

(** An [array('L')] item is an unsigned 32-bit word, held in 4 bytes with the
    least significant byte first: the doctest of [Message] shows the name
    "$.Fred" as the items 1917201956 and 25701. *)
Definition is_word (z : Z) : Prop := 0 <= z < 2 ^ 32.
Definition is_wordb (z : Z) : bool := (0 <=? z) && (z <? 2 ^ 32).

(** Storing a Python value as an item of an [array('L')]. *)
Definition item (v : atom) : result Z :=
  match v with
  | AInt z => if is_wordb z then Ok z else Raise OverflowError
  | _ => Raise TypeError
  end.

(** [msg.append(v)] *)
Definition append (msg : list Z) (v : atom) : result (list Z) :=
  bind (item v) (fun z => Ok (msg ++ [z])).

(** [len(v)] *)
Definition len (v : atom) : result nat :=
  match v with
  | AStr s => Ok (String.length s)
  | AArr a => Ok (List.length a)
  | _ => Raise TypeError
  end.

(** Truth value of [v], as in [if v:]. *)
Definition truthy (v : atom) : bool :=
  match v with
  | ANone => false
  | AInt z => negb (z =? 0)
  | AStr s => negb (String.length s =? 0)%nat
  | AArr a => negb (List.length a =? 0)%nat
  end.

Definition ord (c : ascii) : Z := Z.of_N (N_of_ascii c).
Definition chr (z : Z) : ascii := ascii_of_N (Z.to_N z).

(** Four bytes of a string as one little-endian item. *)
Definition word_of_bytes (b0 b1 b2 b3 : ascii) : Z :=
  ord b0 + 256 * ord b1 + 65536 * ord b2 + 16777216 * ord b3.

Definition bytes_of_word (w : Z) : list ascii :=
  [chr (w mod 256); chr (w / 256 mod 256);
   chr (w / 65536 mod 256); chr (w / 16777216 mod 256)].

(** [array.fromstring]: the items held by a string of whole items. *)
Fixpoint fromstring (s : list ascii) : list Z :=
  match s with
  | b0 :: b1 :: b2 :: b3 :: rest => word_of_bytes b0 b1 b2 b3 :: fromstring rest
  | _ => []
  end.

(** [array.tostring] *)
Definition tostring (a : list Z) : string :=
  string_of_list_ascii (flat_map bytes_of_word a).

(** [array.array('L', v)] *)
Definition array_L (v : atom) : result (list Z) :=
  match v with
  | AStr s =>
      if (String.length s mod 4 =? 0)%nat
      then Ok (fromstring (list_ascii_of_string s))
      else Raise (ValueError ItemSize)
  | AArr a => Ok a
  | _ => Raise TypeError
  end.

(** [a[i]], with Python's negative indices. *)
Definition getitem (a : list Z) (i : Z) : result Z :=
  let n := Z.of_nat (List.length a) in
  let j := if i <? 0 then i + n else i in
  if (0 <=? j) && (j <? n)
  then match a !! Z.to_nat j with
       | Some x => Ok x
       | None => Raise IndexError
       end
  else Raise IndexError.

(** [a[i:j]] *)
Definition clamp (i n : Z) : Z :=
  if i <? 0 then Z.max 0 (i + n) else Z.min i n.

Definition slice {A} (a : list A) (i j : Z) : list A :=
  let n := Z.of_nat (List.length a) in
  let lo := clamp i n in
  let hi := clamp j n in
  firstn (Z.to_nat (hi - lo)) (skipn (Z.to_nat lo) a).

(** [s[:n]] on a string *)
Definition str_upto (s : string) (n : Z) : string :=
  string_of_list_ascii (slice (list_ascii_of_string s) 0 n).

End Py.

Import Py.

#[global] Instance result_bind : MBind result := fun A B k m => Py.bind m k.
#[global] Instance result_ret : MRet result := @Py.Ok.

(** ** class Message *)

Module Message.

Definition START_GUARD : Z := 0x7375626B.
Definition END_GUARD : Z := 0x6B627573.

(** A [Message] object: its [array] of 32-bit words and its [length]. *)
Record t : Type := mk { array : list Z; length : nat }.

(** What [Message(arg, ...)] may be given as [arg]. *)
Inductive arg : Type :=
| OfMessage (m : t)
| OfSeq (l : list atom)       (* a tuple or a list *)
| OfAtom (v : atom).

(** The loop [while len(name)%4: name += '\0'].  A string grows by one NUL
    per turn, so three turns are enough; an array cannot be extended by a
    string. *)
Fixpoint pad_loop (turns : nat) (name : atom) : result atom :=
  match name with
  | AStr s =>
      if (String.length s mod 4 =? 0)%nat then Ok name
      else match turns with
           | O => Ok name
           | S n => pad_loop n (AStr (s ++ String zero EmptyString))
           end
  | AArr a =>
      if (List.length a mod 4 =? 0)%nat then Ok name else Raise TypeError
  | _ => Raise TypeError
  end.

Definition _from_data (name data to from_ flags : atom) : result (list Z) :=
  msg ← append [] (AInt START_GUARD);
  msg ← append msg (AInt 0);
  msg ← append msg to;
  msg ← append msg from_;
  msg ← append msg flags;
  n ← len name;
  msg ← append msg (AInt (Z.of_nat n));
  name ← pad_loop 3 name;
  data ← match data with
         | ANone => Ok ANone
         | AArr a => Ok (AArr a)
         | _ => a ← array_L data; Ok (AArr a)
         end;
  msg ← (if truthy data
         then n ← len data; append msg (AInt (Z.of_nat n))
         else append msg (AInt 0));
  name_array ← array_L name;
  let msg := msg ++ name_array in
  msg ← (if truthy data
         then a ← array_L data; Ok (msg ++ a)
         else Ok msg);
  append msg (AInt END_GUARD).

Definition _check (array : list Z) : result unit :=
  x ← getitem array 0;
  assert (x =? START_GUARD);;
  x ← getitem array (-1);
  assert (x =? END_GUARD);;
  name_len_bytes ← getitem array 5;
  let name_len := (name_len_bytes + 3) / 4 in
  data_len ← getitem array 6;
  (if name_len_bytes <? 3
   then Raise (ValueError (NameTooShort name_len_bytes))
   else Ok tt);;
  assert (0 <=? data_len);;
  assert (8 + name_len + data_len =? Z.of_nat (List.length array)).

Definition __init__ (a : arg) (data to from_ flags : atom) : result t :=
  array ← match a with
           | OfMessage m => array_L (AArr (array m))
           | OfSeq l =>
               if negb (List.length l =? 6)%nat
               then Raise (ValueError (TupleArity (List.length l)))
               else (* arg[-2], arg[-1], arg[1], arg[2], arg[3] *)
                 _from_data (nth 4 l ANone) (nth 5 l ANone)
                            (nth 1 l ANone) (nth 2 l ANone) (nth 3 l ANone)
           | OfAtom v =>
               match v with
               | AStr s =>
                   if String.prefix "$." s
                   then _from_data v data to from_ flags
                   else if truthy v then array_L v
                   else Raise (ValueError NoSense)
               | _ =>
                   if truthy v then array_L v
                   else Raise (ValueError NoSense)
               end
           end;
  _check array;;
  Ok (mk array (List.length array)).

Definition extract (self : t) : result (Z * Z * Z * Z * string * list Z) :=
  x ← getitem (array self) 0;
  assert (x =? START_GUARD);;
  x ← getitem (array self) (-1);
  assert (x =? END_GUARD);;
  let msg := array self in
  id ← getitem msg 1;
  to ← getitem msg 2;
  from_ ← getitem msg 3;
  flags ← getitem msg 4;
  name_len ← getitem msg 5;
  data_len ← getitem msg 6;
  let name_array_len := (name_len + 3) / 4 in
  let name_array := slice msg 7 (7 + name_array_len) in
  let name := tostring name_array in
  let name := str_upto name name_len in
  let data_offset := 7 + name_array_len in
  let data_array := slice msg data_offset (data_offset + data_len) in
  Ok (id, to, from_, flags, name, data_array).

(** [parts1 == parts2] on the two lists of parts. *)
Definition parts_eqb (p q : Z * Z * Z * Z * string * list Z) : bool :=
  let '(id1, to1, from1, flags1, name1, data1) := p in
  let '(id2, to2, from2, flags2, name2, data2) := q in
  (id1 =? id2) && (to1 =? to2) && (from1 =? from2) && (flags1 =? flags2)
  && String.eqb name1 name2 && bool_decide (data1 = data2).

Definition equivalent (self other : t) : result bool :=
  if negb (length self =? length other)%nat then Ok false
  else
    parts1 ← extract self;
    parts2 ← extract other;
    let '(_, to1, _, flags1, name1, data1) := parts1 in
    let '(id2, _, from2, _, _, _) := parts2 in
    let parts1 := (id2, to1, from2, flags1, name1, data1) in
    Ok (parts_eqb parts1 parts2).

(** [self.array == other.array] *)
Definition __eq__ (self other : t) : bool :=
  bool_decide (array self = array other).

(** The bytes [to_file] writes: [self.array.tofile(f)]. *)
Definition to_bytes (self : t) : string := tostring (array self).

End Message.

(** ** The bus behind [/dev/kbus0] *)

Module Kbus.

(** An endpoint is known by the id that [bound_as] returns for it. *)
Definition endpoint : Type := N.

(** The errno values the tests of [kbus.py] look for. *)
Inductive errno : Type := EINVAL | EADDRINUSE | EADDRNOTAVAIL | EBADF.

#[global] Instance errno_eq_dec : EqDecision errno.
Proof. solve_decision. Defined.

(** Modelled from the spec: the table of Bindings is kept by the kernel
    module, not by [kbus.py].  A Binding is one line of
    [/proc/kbus/bindings]: who is bound, as replier or as listener, wanting
    all messages or not, and to which name. *)
Record Binding : Type := mkBinding {
  bound_to : endpoint;
  is_replier : bool;
  is_guaranteed : bool;
  name : string
}.

#[global] Instance Binding_eq_dec : EqDecision Binding.
Proof. solve_decision. Defined.

(** Modelled from the spec: the kernel module (binding table, router and
    endpoint queues) is not part of [kbus.py], which only holds its ioctl
    wrappers and its tests.  The Bus owns the binding table (in insertion
    order), the counter of message ids (the last id given out) and one
    queue of encoded frames per attached endpoint. *)
Record Bus : Type := mkBus {
  bindings : list Binding;
  last_msg_id : Z;
  last_endpoint : endpoint;
  queues : gmap endpoint (list (list Z))
}.

(** Modelled from the spec: the Bus as the module is loaded, with no
    Binding, no endpoint and no id given out. *)
Definition initial : Bus := mkBus [] 0 0%N ∅.

(** What a call on the device ends in: a value, an [IOError] carrying the
    errno of the module, or another Python exception. *)
Inductive failure : Type :=
| IOError (e : errno)
| PyError (e : exn).

Inductive outcome (A : Type) : Type :=
| Done (a : A)
| Failed (f : failure).
Arguments Done {A} a.
Arguments Failed {A} f.

(** Calls thread the Bus through; a failed call hands back the Bus it
    leaves behind. *)
Definition io (A : Type) : Type := Bus -> outcome A * Bus.

#[global] Instance io_ret : MRet io := fun A a b => (Done a, b).
#[global] Instance io_bind : MBind io := fun A B k m b =>
  match m b with
  | (Done a, b') => k a b'
  | (Failed f, b') => (Failed f, b')
  end.

Definition fail {A} (f : failure) : io A := fun b => (Failed f, b).

(** A step of plain Python inside a sequence of calls. *)
Definition py {A} (r : result A) : io A :=
  match r with
  | Ok a => mret a
  | Raise e => fail (PyError e)
  end.

(** The messages waiting for an endpoint. *)
Definition pending (b : Bus) (e : endpoint) : list (list Z) :=
  default [] (queues b !! e).

(** *** Attaching and detaching *)

(** Modelled from the spec: attach ([open] of the device) is not in
    [kbus.py]; the Bus assigns the endpoint its id and an empty queue. *)
Definition attach : io endpoint := fun b =>
  let e := (last_endpoint b + 1)%N in
  (Done e, mkBus (bindings b) (last_msg_id b) e (<[e := []]> (queues b))).

(** Modelled from the spec: detach ([close]) is not in [kbus.py]; all
    Bindings of the endpoint go and its queue is discarded. *)
Definition detach (e : endpoint) : io unit := fun b =>
  (Done tt,
   mkBus (filter (fun x => bound_to x ≠ e) (bindings b))
         (last_msg_id b) (last_endpoint b) (delete e (queues b))).

(** Modelled from the spec: the KBUS_IOC_BOUNDAS handler is not in
    [kbus.py]; it returns the id of the endpoint. *)
Definition bound_as (e : endpoint) : io endpoint := mret e.

(** *** BindingTable *)

(** Modelled from the spec: whether a replier Binding to exactly the name
    [n] is in the table. *)
Definition has_replier (n : string) (t : list Binding) : bool :=
  bool_decide (Exists (fun x => is_replier x = true ∧ name x = n) t).

(** Modelled from the spec: the KBUS_IOC_BIND handler is not in [kbus.py].
    An empty name is refused, a second replier for a name is refused, any
    other Binding takes a new slot at the end of the table. *)
Definition bind (e : endpoint) (n : string) (replier guaranteed : bool) : io unit :=
  fun b =>
    if bool_decide (n = "") then (Failed (IOError EINVAL), b)
    else if replier && has_replier n (bindings b)
    then (Failed (IOError EADDRINUSE), b)
    else (Done tt,
          mkBus (bindings b ++ [mkBinding e replier guaranteed n])
                (last_msg_id b) (last_endpoint b) (queues b)).

(** Remove the first element equal to [x]. *)
Fixpoint remove_first (x : Binding) (t : list Binding) : list Binding :=
  match t with
  | [] => []
  | y :: t' => if decide (y = x) then t' else y :: remove_first x t'
  end.

(** Modelled from the spec: the KBUS_IOC_UNBIND handler is not in
    [kbus.py].  The first Binding equal in all four fields is removed; with
    none there the call fails. *)
Definition unbind (e : endpoint) (n : string) (replier guaranteed : bool) : io unit :=
  fun b =>
    let x := mkBinding e replier guaranteed n in
    if bool_decide (x ∈ bindings b)
    then (Done tt,
          mkBus (remove_first x (bindings b))
                (last_msg_id b) (last_endpoint b) (queues b))
    else (Failed (IOError EINVAL), b).

(** Modelled from the spec: the KBUS_IOC_REPLIER handler is not in
    [kbus.py]. *)
Definition find_replier (n : string) (t : list Binding) : option endpoint :=
  bound_to <$> head (filter (fun x => is_replier x = true ∧ name x = n) t).

(** [find_listener(f, name)] of [kbus.py], on that handler. *)
Definition find_listener (n : string) : io (option endpoint) := fun b =>
  (Done (find_replier n (bindings b)), b).

(** Modelled from the spec: the lookup of the router, which is not in
    [kbus.py].  A message name matches the Bindings to exactly that name. *)
Definition matching (n : string) (t : list Binding) : list Binding :=
  filter (fun x => name x = n) t.

(** Modelled from the spec: the endpoints with a Binding to the name. *)
Definition match_listeners (n : string) (t : list Binding) : gset endpoint :=
  list_to_set (bound_to <$> matching n t).

(** Modelled from the spec: the lines of [/proc/kbus/bindings], which
    [read_bindings] of [kbus.py] parses. *)
Definition list_bindings (b : Bus) : list (endpoint * bool * bool * string) :=
  (fun x => (bound_to x, is_replier x, is_guaranteed x, name x)) <$> bindings b.

(** The names that have a replier, one entry per replier Binding. *)
Definition repliers (t : list Binding) : list string :=
  name <$> filter (fun x => is_replier x = true) t.

(** What holds of the table of every Bus: no Binding is to the empty name,
    and no name has two repliers. *)
Definition table_ok (t : list Binding) : Prop :=
  Forall (fun x => name x ≠ "") t ∧ NoDup (repliers t).

(** *** EndpointQueue *)

(** Modelled from the spec: the queue of an endpoint is not in [kbus.py];
    a message is appended at its tail. *)
Definition push (e : endpoint) (m : list Z) (q : gmap endpoint (list (list Z)))
  : gmap endpoint (list (list Z)) :=
  <[e := default [] (q !! e) ++ [m]]> q.

(** Modelled from the spec: the KBUS_IOC_NEXTLEN handler is not in
    [kbus.py].  The byte length of the head message, 0 with none. *)
Definition next_len (e : endpoint) : io Z := fun b =>
  (Done (match pending b e with
         | [] => 0
         | m :: _ => 4 * Z.of_nat (List.length m)
         end), b).

(** Modelled from the spec: the [read] handler is not in [kbus.py].  An
    empty queue gives no bytes; otherwise the head message is handed over
    only to a request of exactly its length. *)
Definition read (e : endpoint) (n : Z) : io string := fun b =>
  match pending b e with
  | [] => (Done "", b)
  | m :: rest =>
      if n =? 4 * Z.of_nat (List.length m)
      then (Done (tostring m),
            mkBus (bindings b) (last_msg_id b) (last_endpoint b)
                  (<[e := rest]> (queues b)))
      else (Failed (IOError EINVAL), b)
  end.

(** *** Router *)

(** Modelled from the spec: the words of a frame are 32 bits wide (section
    6), the id and from fields among them; what the router writes there is
    kept within a word. *)
Definition word (z : Z) : Z := z mod 2 ^ 32.

(** Modelled from the spec: the router, which is not in [kbus.py], fills in
    the id and from fields of the frame it queues. *)
Definition stamp (frame : list Z) (id : Z) (from_ : endpoint) : list Z :=
  <[1%nat := word id]> (<[3%nat := word (Z.of_N from_)]> frame).


(** The name a frame is addressed to, as [extract] reads it. *)
Definition name_of (frame : list Z) : result string :=
  parts ← Message.extract (Message.mk frame (List.length frame));
  Ok (parts.1.2).

(** How many of the Bindings [l] belong to the endpoint [e]. *)
Definition bound (e : endpoint) (l : list Binding) : nat :=
  List.length (filter (fun x => bound_to x = e) l).

(** Modelled from the spec: the copies the router makes of a frame, after
    the Bindings [before], for the Bindings [dests].  Section 4.3 has one
    id for a route, which every destination endpoint sees (section 5: "same
    id visible everywhere"): the id that follows [last], the last id given
    out.  test_read_write_2files departs from one copy for an endpoint: it
    writes once to a name that its first file is bound to three times and
    reads from that file "messages N, N+1, N+2".  So each Binding gets a
    copy, in table order, in the queue of its endpoint; the first copy of
    an endpoint carries the id of the route, and each further Binding of
    that endpoint the id after. *)
Fixpoint copies (sender : endpoint) (frame : list Z) (last : Z)
    (before dests : list Binding) : list (endpoint * list Z) :=
  match dests with
  | [] => []
  | x :: dests' =>
      (bound_to x,
       stamp frame (last + 1 + Z.of_nat (bound (bound_to x) before)) sender)
        :: copies sender frame last (before ++ [x]) dests'
  end.

(** Modelled from the spec: the counter moves by the ids that a write to
    [dests] takes, as many as the most Bindings of one endpoint among them
    (test_read_write_2files: after N, N+1, N+2 the next write "writes
    message N+3"). *)
Definition rounds (dests : list Binding) : nat :=
  max_list_with (fun x => bound (bound_to x) dests) dests.

(** Modelled from the spec: the delivery of the router, which is not in
    [kbus.py]; the copies are queued and the counter is moved to the last
    id taken. *)
Definition deliver (sender : endpoint) (frame : list Z) (dests : list Binding)
    (b : Bus) : Bus :=
  mkBus (bindings b) (word (last_msg_id b + Z.of_nat (rounds dests)))
        (last_endpoint b)
        (fold_left (fun q c => push c.1 c.2 q)
                   (copies sender frame (last_msg_id b) [] dests) (queues b)).

(** Modelled from the spec: the [write] handler is not in [kbus.py].  The
    frame is checked as [Message] checks it, its name is looked up, and
    with no Binding to that name the write fails without touching the Bus;
    otherwise the frame is delivered to the Bindings to its name. *)
Definition write (sender : endpoint) (frame : list Z) : io unit := fun b =>
  match Message._check frame, name_of frame with
  | Raise e, _ | _, Raise e => (Failed (PyError e), b)
  | Ok _, Ok n =>
      match matching n (bindings b) with
      | [] => (Failed (IOError EADDRNOTAVAIL), b)
      | dests => (Done tt, deliver sender frame dests b)
      end
  end.

(** Modelled from the spec: the router as section 4.3 words it, one id per
    write and one copy per destination endpoint.  Kept for comparison with
    [write]; the tests of [kbus.py] tell the two apart. *)
Definition write_shared_id (sender : endpoint) (frame : list Z) : io unit := fun b =>
  match Message._check frame, name_of frame with
  | Raise e, _ | _, Raise e => (Failed (PyError e), b)
  | Ok _, Ok n =>
      match elements (match_listeners n (bindings b)) with
      | [] => (Failed (IOError EADDRNOTAVAIL), b)
      | dests =>
          let id := word (last_msg_id b + 1) in
          (Done tt,
           mkBus (bindings b) id (last_endpoint b)
                 (fold_left (fun q e => push e (stamp frame id sender) q)
                            dests (queues b)))
      end
  end.



(** Modelled from the spec: the KBUS_IOC_RESET handler is not in
    [kbus.py]; every Binding goes and every queue is emptied. *)
Definition reset : io unit := fun b =>
  (Done tt, mkBus [] (last_msg_id b) (last_endpoint b) ((fun _ => []) <$> queues b)).

(** *** The states a Bus can be in *)

Inductive request : Type :=
| Attach
| Detach (e : endpoint)
| Bind (e : endpoint) (n : string) (replier guaranteed : bool)
| Unbind (e : endpoint) (n : string) (replier guaranteed : bool)
| Write (e : endpoint) (frame : list Z)
| Read (e : endpoint) (n : Z)
| Reset.

Definition perform (r : request) (b : Bus) : Bus :=
  match r with
  | Attach => (attach b).2
  | Detach e => (detach e b).2
  | Bind e n r g => (bind e n r g b).2
  | Unbind e n r g => (unbind e n r g b).2
  | Write e frame => (write e frame b).2
  | Read e n => (read e n b).2
  | Reset => (reset b).2
  end.

Inductive reachable : Bus -> Prop :=
| reachable_initial : reachable initial
| reachable_perform r b : reachable b -> reachable (perform r b).

(** [n] times the same call, stopping at the first failure. *)
Fixpoint times (n : nat) (call : io unit) : io unit :=
  match n with
  | O => mret tt
  | S n' => call;; times n' call
  end.

End Kbus.

(** ** class TestKernelModule

    The tests of [kbus.py], as sequences of calls on the Bus.  They are
    written over the [write] handler, so that they can be run against either
    reading of the router.  The bookkeeping of [TestKernelModule.bindings]
    (used by [_check_bindings] only) is left out of the wrappers [bind] and
    [unbind]. *)

Module TestKernelModule.
Import Kbus.

(** [try: body finally: fin] *)
Definition try_finally {A} (body : io A) (fin : io unit) : io A := fun b =>
  match body b with
  | (Done a, b') =>
      match fin b' with
      | (Done _, b'') => (Done a, b'')
      | (Failed f, b'') => (Failed f, b'')
      end
  | (Failed f, b') =>
      match fin b' with
      | (Done _, b'') => (Failed f, b'')
      | (Failed f', b'') => (Failed f', b'')
      end
  end.

(** [check_IOError(expected_errno, fn, *stuff)] *)
Definition check_IOError {A} (expected_errno : errno) (fn : io A) : io unit := fun b =>
  match fn b with
  | (Done _, b') => (Failed (PyError AssertionError), b')
  | (Failed (IOError actual_errno), b') =>
      if decide (actual_errno = expected_errno) then (Done tt, b')
      else (Failed (PyError AssertionError), b')
  | (Failed (PyError _), b') => (Failed (PyError AssertionError), b')
  end.

(** [Message(name, data)] with the other arguments at their defaults. *)
Definition Message (name : string) (data : atom) : io Message.t :=
  py (Message.__init__ (Message.OfAtom (AStr name)) data (AInt 0) (AInt 0) (AInt 0)).

(** [Message(data)] on the bytes read from the device. *)
Definition Message_of_bytes (data : string) : io Message.t :=
  py (Message.__init__ (Message.OfAtom (AStr data)) ANone (AInt 0) (AInt 0) (AInt 0)).

Definition byte_length (m : Message.t) : Z := Z.of_nat (Message.length m) * 4.

Definition id_read (m : Message.t) : io Z :=
  parts ← py (Message.extract m); mret (parts.1.1.1.1.1).

Section against.
Variable write : endpoint -> list Z -> io unit.

(** [msg.to_file(f)] *)
Definition to_file (m : Message.t) (f : endpoint) : io unit :=
  write f (Message.array m).

Definition _check_read (f : endpoint) (expected : option Message.t) : io unit :=
  match expected with
  | Some expected =>
      data ← read f (byte_length expected);
      new_message ← Message_of_bytes data;
      same ← py (Message.equivalent expected new_message);
      py (assert same)
  | None =>
      data ← read f 1;
      py (assert (String.eqb data ""))
  end.

Definition test_readwrite_kbus0 : io unit :=
  f ← attach;
  try_finally
    (bind f "$.B" true false;;
     bind f "$.C" true false;;
     _check_read f None;;
     msg1 ← Message "$.B" (AStr "data");
     to_file msg1 f;;
     _check_read f (Some msg1);;
     msg2 ← Message "$.C" (AStr "fred");
     to_file msg2 f;;
     _check_read f (Some msg2);;
     msg3 ← Message "$.D" (AStr "fred");
     check_IOError EADDRNOTAVAIL (to_file msg3 f))
    (detach f).

Definition test_two_opens_kbus0 : io unit :=
  f1 ← attach;
  try_finally
    (f2 ← attach;
     try_finally
       (bind f1 "$.B" false false;;
        bind f1 "$.C" false false;;
        bind f2 "$.B" false false;;
        bind f2 "$.C" false false;;
        _check_read f1 None;;
        _check_read f2 None;;
        msg1 ← Message "$.B" (AStr "data");
        to_file msg1 f1;;
        _check_read f2 (Some msg1);;
        _check_read f1 (Some msg1);;
        msg2 ← Message "$.C" (AStr "data");
        to_file msg2 f2;;
        _check_read f1 (Some msg2);;
        _check_read f2 (Some msg2))
       (detach f2))
    (detach f1).

Definition test_many_bind_3 : io unit :=
  f ← attach;
  try_finally
    (bind f "$.Fred" true false;;
     bind f "$.Fred" false false;;
     bind f "$.Fred" false false;;
     unbind f "$.Fred" true false;;
     unbind f "$.Fred" false false;;
     unbind f "$.Fred" false false;;
     check_IOError EINVAL (unbind f "$.Fred" true false);;
     check_IOError EINVAL (unbind f "$.Fred" false false);;
     check_IOError EINVAL (unbind f "$.JimBob" false false))
    (detach f).

Definition test_bind_more : io unit :=
  f1 ← attach;
  try_finally
    (f2 ← attach;
     try_finally
       (bind f1 "$.Fred" true false;;
        unbind f1 "$.Fred" true false;;
        bind f1 "$.Fred" false false;;
        unbind f1 "$.Fred" false false;;
        bind f1 "$.Fred" false false;;
        bind f1 "$.Fred" false false;;
        bind f1 "$.Fred" false false;;
        bind f1 "$.Fred" true false;;
        check_IOError EADDRINUSE (bind f1 "$.Fred" true false);;
        bind f1 "$.Jim.Bob" false false;;
        bind f2 "$.Jim.Bob" false false;;
        bind f1 "$.Jim.Bob" true false;;
        check_IOError EADDRINUSE (bind f2 "$.Jim.Bob" true false);;
        bind f1 "$.Jim.Bob" false true;;
        bind f1 "$.Fred" false true)
       (detach f2))
    (detach f1).

Definition test_rw_single_file : io unit :=
  f ← attach;
  try_finally
    (let name1 := "$.Fred.Jim" in
     data1 ← py (array_L (AStr "datadata"));
     let name2 := "$.Fred.Bob.William" in
     data2 ← py (array_L (AStr "This is surely some data"));
     bind f name1 true false;;
     bind f "$.William" true false;;
     msg1 ← Message name1 (AArr data1);
     to_file msg1 f;;
     msg2 ← Message name2 (AArr data2);
     check_IOError EADDRNOTAVAIL (to_file msg2 f);;
     data ← read f (byte_length msg1);
     msg1r ← Message_of_bytes data;
     data ← read f (byte_length msg2);
     py (assert (String.length data =? 0)%nat);;
     same ← py (Message.equivalent msg1 msg1r);
     py (assert same);;
     data ← read f 1;
     py (assert (String.eqb data "")))
    (detach f).

Definition test_read_write_2files : io unit :=
  f1 ← attach;
  try_finally
    (f2 ← attach;
     try_finally
       (bind f1 "$.Fred" true false;;
        bind f1 "$.Fred" false false;;
        bind f1 "$.Fred" false false;;
        bind f2 "$.Jim" true false;;
        (* Writing to $.Fred on f1 - writes messages N, N+1, N+2 *)
        msgF ← Message "$.Fred" (AStr "data");
        to_file msgF f1;;
        (* No one is listening for $.William *)
        msgW ← Message "$.William" ANone;
        check_IOError EADDRNOTAVAIL (to_file msgW f1);;
        check_IOError EADDRNOTAVAIL (to_file msgW f2);;
        (* Writing to $.Jim on f1 - writes message N+3 *)
        msgJ ← Message "$.Jim" (AStr "moredata");
        to_file msgJ f1;;
        (* Reading f1 - message N *)
        l ← next_len f1; py (assert (l =? byte_length msgF));;
        l ← next_len f1; py (assert (l =? byte_length msgF));;
        data ← read f1 (byte_length msgF);
        data ← Message_of_bytes data;
        n0 ← id_read data;
        (* Reading f2 - should be message N+3 *)
        l ← next_len f2; py (assert (l =? byte_length msgJ));;
        data ← read f2 (byte_length msgJ);
        data ← Message_of_bytes data;
        n3 ← id_read data;
        py (assert (n3 =? n0 + 3));;
        (* Reading f1 - should be message N+1 *)
        l ← next_len f1; py (assert (l =? byte_length msgF));;
        data ← read f1 (byte_length msgF);
        data ← Message_of_bytes data;
        n1 ← id_read data;
        py (assert (n1 =? n0 + 1));;
        (* Reading f1 - should be message N+2 *)
        l ← next_len f1; py (assert (l =? byte_length msgF));;
        data ← read f1 (byte_length msgF);
        data ← Message_of_bytes data;
        n2 ← id_read data;
        py (assert (n2 =? n0 + 2));;
        (* No more messages on f1 *)
        l ← next_len f1; py (assert (l =? 0));;
        data ← read f1 1; py (assert (String.eqb data ""));;
        (* No more messages on f2 *)
        l ← next_len f2; py (assert (l =? 0));;
        data ← read f1 2; py (assert (String.eqb data "")))
       (detach f2))
    (detach f1).

End against.

End TestKernelModule.


(** ** The ioctl commands of the module *)

Module Ioctl.

Definition _IOC_NRBITS : Z := 8.
Definition _IOC_TYPEBITS : Z := 8.
Definition _IOC_SIZEBITS : Z := 14.
Definition _IOC_DIRBITS : Z := 2.

Definition _IOC_NRSHIFT : Z := 0.
Definition _IOC_TYPESHIFT : Z := _IOC_NRSHIFT + _IOC_NRBITS.
Definition _IOC_SIZESHIFT : Z := _IOC_TYPESHIFT + _IOC_TYPEBITS.
Definition _IOC_DIRSHIFT : Z := _IOC_SIZESHIFT + _IOC_SIZEBITS.

Definition _IOC_NONE : Z := 0.
Definition _IOC_WRITE : Z := 1.
Definition _IOC_READ : Z := 2.

(** [t] is a string of one character, of which [ord] is taken. *)
Definition _IOC (d : Z) (t : ascii) (nr size : Z) : Z :=
  Z.lor (Z.lor (Z.lor (Z.shiftl d _IOC_DIRSHIFT) (Z.shiftl (ord t) _IOC_TYPESHIFT))
               (Z.shiftl nr _IOC_NRSHIFT))
        (Z.shiftl size _IOC_SIZESHIFT).

Definition _IO (t : ascii) (nr : Z) : Z := _IOC _IOC_NONE t nr 0.
Definition _IOW (t : ascii) (nr size : Z) : Z := _IOC _IOC_WRITE t nr size.
Definition _IOR (t : ascii) (nr size : Z) : Z := _IOC _IOC_READ t nr size.
Definition _IOWR (t : ascii) (nr size : Z) : Z :=
  _IOC (Z.lor _IOC_READ _IOC_WRITE) t nr size.

Definition KBUS_IOC_MAGIC : ascii := "k".

(** The commands, over [ctypes.sizeof(ctypes.c_char_p)], which is the size
    of a pointer on the machine at hand. *)
Definition KBUS_IOC_RESET : Z := _IO KBUS_IOC_MAGIC 1.
Definition KBUS_IOC_BIND (sizeof_char_p : Z) : Z := _IOW KBUS_IOC_MAGIC 2 sizeof_char_p.
Definition KBUS_IOC_UNBIND (sizeof_char_p : Z) : Z := _IOW KBUS_IOC_MAGIC 3 sizeof_char_p.
Definition KBUS_IOC_BOUNDAS (sizeof_char_p : Z) : Z := _IOR KBUS_IOC_MAGIC 4 sizeof_char_p.
Definition KBUS_IOC_REPLIER (sizeof_char_p : Z) : Z := _IOWR KBUS_IOC_MAGIC 5 sizeof_char_p.
Definition KBUS_IOC_NEXTLEN : Z := _IO KBUS_IOC_MAGIC 6.

End Ioctl.

(** ** The bookkeeping of the tests

    [TestKernelModule.bindings] maps every open file to the Bindings the
    tests believe it has, and [_check_bindings] compares that belief with
    [/proc/kbus/bindings]. *)

Module Tracking.
Import Kbus.

(** An entry of a list in [TestKernelModule.bindings]:
    [(replier, guaranteed, name)]. *)
Definition entry : Type := bool * bool * string.

(** A tuple as [bindings_match] is given them:
    [(file_descriptor, rep, all, name)]. *)
Definition line : Type := endpoint * bool * bool * string.

(** A tuple as [read_bindings] returns them and as [bindings_match] compares
    them: [(id, rep, all, name)], the id an integer. *)
Definition row : Type := Z * bool * bool * string.

(** The loop of [TestKernelModule.unbind] over [enumerate(l)]: the first
    entry whose last element is the name is deleted, and the loop left. *)
Fixpoint forget (name : string) (l : list entry) : list entry :=
  match l with
  | [] => []
  | thing :: l' =>
      if decide (thing.2 = name) then l' else thing :: forget name l'
  end.

(** [str_rep(rep)] *)
Definition str_rep (rep : bool) : string := if rep then "R" else "L".

(** [str_all(all)] *)
Definition str_all (all : bool) : string := if all then "T" else "F".

(** *** The text of [/proc/kbus/bindings] *)

(** [str(n)] of a number that is not negative: its decimal digits. *)
Definition decimal (n : N) : string :=
  DecimalString.NilZero.string_of_uint (N.to_uint n).

(** Modelled from the spec: the file is written by the kernel module, which
    is not in [kbus.py]; the docstring of [read_bindings] shows its lines,
    "0: 10 R T $.Fred": the number of the device, the id of the endpoint,
    R for a replier or L for a listener, T for all messages or F, and the
    name.  The device is [/dev/kbus0]. *)
Definition proc_line (x : Binding) : string :=
  "  0: " ++ decimal (bound_to x) ++ " " ++ str_rep (is_replier x) ++ " "
  ++ str_all (is_guaranteed x) ++ " " ++ name x ++ String "010" "".

(** Modelled from the spec: one line for each Binding of the table
    ([list_bindings], section 4.2), in the order of the table. *)
Definition proc_bindings (b : Bus) : string :=
  foldr (fun x text => (proc_line x ++ text)%string) ""%string (Kbus.bindings b).

(** *** What [read_bindings] uses of Python *)

(** [f.readlines()] on the text of a file: the lines, each with the newline
    that ends it; [cur] is the line being read. *)
Fixpoint readlines_from (cur : string) (s : string) : list string :=
  match s with
  | EmptyString => if decide (cur = "") then [] else [cur]
  | String c s' =>
      if Ascii.eqb c "010"
      then (cur ++ String c "")%string :: readlines_from "" s'
      else readlines_from (cur ++ String c "")%string s'
  end.

Definition readlines (s : string) : list string := readlines_from "" s.

(** White space for [str.split]: space, and the characters from tab to
    carriage return. *)
Definition isspace (c : ascii) : bool :=
  (ord c =? 32) || ((9 <=? ord c) && (ord c <=? 13)).

(** [s.split()]: the fields between runs of white space; [cur] is the field
    being read. *)
Fixpoint split_from (cur : string) (s : string) : list string :=
  match s with
  | EmptyString => if decide (cur = "") then [] else [cur]
  | String c s' =>
      if isspace c
      then (if decide (cur = "") then split_from "" s' else cur :: split_from "" s')
      else split_from (cur ++ String c "")%string s'
  end.

Definition split (s : string) : list string := split_from "" s.

(** [int(s)] on a string with no white space: decimal digits, at least one,
    after a sign or none. *)
Definition int (s : string) : result Z :=
  let digits body :=
    N.of_uint <$> DecimalString.NilZero.uint_of_string body in
  let value :=
    match s with
    | String c body =>
        if Ascii.eqb c "+" then Z.of_N <$> digits body
        else if Ascii.eqb c "-" then (fun n => - Z.of_N n) <$> digits body
        else Z.of_N <$> digits s
    | EmptyString => None
    end in
  match value with
  | Some z => Ok z
  | None => Raise (ValueError (IntLiteral s))
  end.

(** A key of the dictionary [names]: [bindings_match] puts files there,
    [read_bindings] looks up integers; a file is never equal to one. *)
Inductive key : Type :=
| KFile (f : endpoint)
| KInt (z : Z).

#[global] Instance key_eq_dec : EqDecision key.
Proof. solve_decision. Defined.

(** [names[k]], if [k in names]. *)
Fixpoint get (names : list (key * Z)) (k : key) : option Z :=
  match names with
  | [] => None
  | (k', v) :: names' => if decide (k' = k) then Some v else get names' k
  end.

(** A string with no white space in it, a string with no newline in it,
    and a name that makes one field of a line of the file: not empty, and
    with no white space. *)
Definition no_space (s : string) : Prop :=
  Forall (fun c => isspace c = false) (list_ascii_of_string s).

Definition no_newline (s : string) : Prop :=
  Forall (fun c => Ascii.eqb c "010" = false) (list_ascii_of_string s).

Definition plain (s : string) : Prop := s ≠ "" ∧ no_space s.

(** *** [read_bindings] *)

(** The two tests of a letter in [read_bindings]: [yes] gives [True], [no]
    gives [False], anything else raises ValueError with the letter in the
    message, or TypeError when ['%c'] has no single character to format. *)
Definition letter (s yes no : string) (why : string -> value_error) : result bool :=
  if String.eqb s yes then Ok true
  else if String.eqb s no then Ok false
  else if (String.length s =? 1)%nat then Raise (ValueError (why s))
       else Raise TypeError.

(** The loop of [read_bindings] over the lines, [bindings] being the list
    built so far. *)
Fixpoint read_loop (names : list (key * Z)) (l : list string) (bindings : list row)
  : result (list row) :=
  match l with
  | [] => Ok bindings
  | line :: l' =>
      match split line with
      | [dev; id; rep; all; name] =>
          id ← int id;
          let id := match get names (KInt id) with
                    | Some v => v
                    | None => id
                    end in
          rep ← letter rep "R" "L" GotReplier;
          all ← letter all "T" "F" GotAll;
          read_loop names l' (bindings ++ [(id, rep, all, name)])
      | fields => Raise (ValueError (Unpack (List.length fields)))
      end
  end.

(** [read_bindings(names)], for a dictionary with integers as values. *)
Definition read_bindings (names : list (key * Z)) : io (list row) := fun b =>
  py (read_loop names (readlines (proc_bindings b)) []) b.

(** *** [bindings_match] *)

(** The order of Python on tuples of an integer, two booleans and a string:
    the first place where two tuples differ decides, integers by value,
    [False] before [True], strings byte by byte. *)
Definition sort_key (x : row) : Z * bool * bool * list N :=
  (x.1.1.1, x.1.1.2, x.1.2, N_of_ascii <$> list_ascii_of_string x.2).

Definition row_le (x y : row) : Prop := x = y ∨ lexico (sort_key x) (sort_key y).

#[global] Instance row_le_dec : RelDecision row_le.
Proof. intros x y. unfold row_le. apply _. Defined.

(** [l.sort()] *)
Definition sort (l : list row) : list row := merge_sort row_le l.

(** The first loop of [bindings_match], [testwith] and [names] being what
    is built so far: the id of every file is asked of the device. *)
Fixpoint testwith_of (bindings : list line) (testwith : list row)
    (names : list (key * Z)) : io (list row * list (key * Z)) :=
  match bindings with
  | [] => mret (testwith, names)
  | (fd, rep, all, name) :: rest =>
      names ← match get names (KFile fd) with
              | None => id ← bound_as fd; mret (names ++ [(KFile fd, Z.of_N id)])
              | Some _ => mret names
              end;
      id ← bound_as fd;
      testwith_of rest (testwith ++ [(Z.of_N id, rep, all, name)]) names
  end.

(** [bindings_match(bindings)].  What is printed when the lists differ is
    left out: the formats of the print statements are given integers and
    single letters. *)
Definition bindings_match (bindings : list line) : io bool :=
  built ← testwith_of bindings [] [];
  let testwith := built.1 in
  let names := built.2 in
  actual ← read_bindings names;
  mret (bool_decide (sort actual = sort testwith)).

(** The state of a test run: [TestKernelModule.bindings] and the Bus. *)
Record state : Type := mkState {
  bindings : gmap endpoint (list entry);
  bus : Bus
}.

(** How a method of the test class ends: it returns, a dictionary lookup
    raises [KeyError], or a call on the device fails. *)
Inductive answer (A : Type) : Type :=
| Returned (a : A)
| KeyError
| Raised (f : failure).
Arguments Returned {A} a.
Arguments KeyError {A}.
Arguments Raised {A} f.

Definition test (A : Type) : Type := state -> answer A * state.

(** [TestKernelModule.bind] *)
Definition bind (f : endpoint) (name : string) (replier guaranteed : bool) : test unit :=
  fun s =>
    match Kbus.bind f name replier guaranteed (bus s) with
    | (Failed x, b') => (Raised x, mkState (bindings s) b')
    | (Done _, b') =>
        match bindings s !! f with
        | None => (KeyError, mkState (bindings s) b')
        | Some l =>
            (Returned tt,
             mkState (<[f := l ++ [(replier, guaranteed, name)]]> (bindings s)) b')
        end
    end.

(** [TestKernelModule.unbind] *)
Definition unbind (f : endpoint) (name : string) (replier guaranteed : bool) : test unit :=
  fun s =>
    match Kbus.unbind f name replier guaranteed (bus s) with
    | (Failed x, b') => (Raised x, mkState (bindings s) b')
    | (Done _, b') =>
        match bindings s !! f with
        | None => (KeyError, mkState (bindings s) b')
        | Some l => (Returned tt, mkState (<[f := forget name l]> (bindings s)) b')
        end
    end.

(** [TestKernelModule.attach] *)
Definition attach : test endpoint := fun s =>
  match Kbus.attach (bus s) with
  | (Failed x, b') => (Raised x, mkState (bindings s) b')
  | (Done f, b') => (Returned f, mkState (<[f := []]> (bindings s)) b')
  end.

(** [TestKernelModule.detach] *)
Definition detach (f : endpoint) : test unit := fun s =>
  match bindings s !! f with
  | None => (KeyError, s)
  | Some _ =>
      match Kbus.detach f (bus s) with
      | (Failed x, b') => (Raised x, mkState (delete f (bindings s)) b')
      | (Done _, b') => (Returned tt, mkState (delete f (bindings s)) b')
      end
  end.

(** The list [expected] that [_check_bindings] builds from the items of the
    dictionary, in the order the dictionary gives them. *)
Definition expected_of (d : gmap endpoint (list entry)) : list line :=
  map_to_list d ≫= (fun item => (fun e : entry => (item.1, e.1.1, e.1.2, e.2)) <$> item.2).


(** The tests' belief and the table of the Bus hold the same Bindings, and
    only files that were opened are believed to have any. *)
Definition in_step (s : state) : Prop :=
  expected_of (bindings s) ≡ₚ list_bindings (bus s)
  ∧ forall f, is_Some (bindings s !! f) -> (f <= last_endpoint (bus s))%N.

End Tracking.

(** ** The codec of the specification, in terms of [Message]

    [encode] is [Message(name, payload, to, from_, flags)], whose frame is
    the array of the object; [decode] is [Message(bytes).extract()], as the
    tests do on what they read from the device. *)

Module MessageCodec.

Definition encode (name payload : string) (to from_ flags : Z) : result Message.t :=
  Message.__init__ (Message.OfAtom (AStr name)) (AStr payload)
                   (AInt to) (AInt from_) (AInt flags).

(** [Message(bytes)]: the other arguments keep their defaults. *)
Definition of_bytes (buffer : string) : result Message.t :=
  Message.__init__ (Message.OfAtom (AStr buffer)) ANone (AInt 0) (AInt 0) (AInt 0).

Definition decode (buffer : string) : result (Z * Z * Z * Z * string * list Z) :=
  m ← of_bytes buffer; Message.extract m.

(** The three failures the specification names, as the exceptions raised by
    [Message]: the [ValueError] of [_check] on a short name, the
    [ValueError] of the array module on a string that is not whole items,
    and a failed [assert] of [_check]. *)
Definition InvalidName (e : exn) : Prop := ∃ n, e = ValueError (NameTooShort n).
Definition InvalidPayload (e : exn) : Prop := e = ValueError ItemSize.
Definition CorruptMessage (e : exn) : Prop := e = AssertionError.

(** A frame as a list of words: what [array.array('L', buffer)] holds. *)
Definition words (buffer : string) : list Z :=
  fromstring (list_ascii_of_string buffer).

(** Number of words taken by a name of [n] bytes. *)
Definition name_words (n : Z) : Z := (n + 3) / 4.

(** The NUL bytes that fill a name of [n] bytes up to a word boundary. *)
Definition padding (n : nat) : string :=
  match (n mod 4)%nat with
  | 0%nat => ""
  | 1%nat => String zero (String zero (String zero ""))
  | 2%nat => String zero (String zero "")
  | _ => String zero ""
  end.

(** The seven words ahead of the name. *)
Definition header (to from_ flags name_len payload_len : Z) : list Z :=
  [Message.START_GUARD; 0; to; from_; flags; name_len; payload_len].

(** The frame of the wire format: header, padded name, payload, end
    guard.  Used to state what [_from_data] builds. *)
Definition layout (name : string) (payload : list Z) (to from_ flags : Z) : list Z :=
  header to from_ flags (Z.of_nat (String.length name)) (Z.of_nat (List.length payload))
  ++ words (name ++ padding (String.length name))
  ++ payload ++ [Message.END_GUARD].

(** A [Message] object as [__init__] leaves it: its array has passed
    [_check] and its length is that of the array. *)
Definition constructed (m : Message.t) : Prop :=
  Message._check (Message.array m) = Ok tt
  ∧ Message.length m = List.length (Message.array m).

(** Two extracted messages agree on to, flags, name and payload. *)
Definition same_content (p q : Z * Z * Z * Z * string * list Z) : Prop :=
  let '(_, to1, _, flags1, name1, data1) := p in
  let '(_, to2, _, flags2, name2, data2) := q in
  to1 = to2 ∧ flags1 = flags2 ∧ name1 = name2 ∧ data1 = data2.

(** Both length fields of the frame fit their word: the name and the
    payload are shorter than an [array('L')] item can count. *)
Definition fits (name payload : string) : Prop :=
  is_word (Z.of_nat (String.length name))
  ∧ is_word (Z.of_nat (List.length (words payload))).

(** The payload words a [data] argument stands for, when it is one that
    [_from_data] accepts. *)
Definition payload_of (data : atom) : option (list Z) :=
  match data with
  | ANone => Some []
  | AStr s => if (String.length s mod 4 =? 0)%nat then Some (words s) else None
  | AArr a => Some a
  | AInt _ => None
  end.

End MessageCodec.

(** ** Sentences of the specification that the code departs from

    Each is written down as it is worded, to be tested on concrete inputs
    below. *)

Module Stated.
Import MessageCodec.

(** The frame of the doctest, [Message('$.Fred', data='1234').array]. *)
Definition fred : list Z :=
  [1937072747; 0; 0; 0; 0; 6; 1; 1917201956; 25701; 875770417; 1801614707].

(** "encode fails with InvalidName if the name is shorter than 3 bytes or
    lacks the prefix, fails with InvalidPayload if the payload is not whole
    words, and succeeds otherwise." *)
Definition encode_rejects (name payload : string) (to from_ flags : Z) : Prop :=
  (((String.length name < 3)%nat ∨ String.prefix "$." name = false) ->
   ∃ e, encode name payload to from_ flags = Raise e ∧ InvalidName e)
  ∧ ((String.length payload mod 4 ≠ 0)%nat ->
     ∃ e, encode name payload to from_ flags = Raise e ∧ InvalidPayload e)
  ∧ ((3 <= String.length name)%nat -> String.prefix "$." name = true ->
     (String.length payload mod 4 = 0)%nat ->
     ∃ m, encode name payload to from_ flags = Ok m).

(** "decode fails with CorruptMessage if a guard is wrong or the declared
    lengths do not add up to the word count, and with InvalidName if the
    declared name length is below 3." *)
Definition decode_rejects (buffer : string) : Prop :=
  let a := words buffer in
  ((a !! 0%nat ≠ Some Message.START_GUARD ∨ last a ≠ Some Message.END_GUARD
    ∨ ∃ n d, a !! 5%nat = Some n ∧ a !! 6%nat = Some d
             ∧ 8 + name_words n + d ≠ Z.of_nat (List.length a)) ->
   ∃ e, decode buffer = Raise e ∧ CorruptMessage e)
  ∧ (forall n, a !! 5%nat = Some n -> n < 3 ->
     ∃ e, decode buffer = Raise e ∧ InvalidName e).

(** "Every non-empty sequence argument is interpreted as an already encoded
    frame and only validated", here for a tuple or list of integers. *)
Definition sequence_taken_as_frame (l : list Z) : Prop :=
  forall data to from_ flags,
    Message.__init__ (Message.OfSeq (AInt <$> l)) data to from_ flags
    = (Message._check l;; Ok (Message.mk l (List.length l))).

(** The Bus of test_read_write_2files once its four binds are made: the
    first endpoint is bound three times to "$.Fred", the second once to
    "$.Jim". *)
Definition two_files : Kbus.Bus :=
  ((f1 ← Kbus.attach;
    f2 ← Kbus.attach;
    Kbus.bind f1 "$.Fred" true false;;
    Kbus.bind f1 "$.Fred" false false;;
    Kbus.bind f1 "$.Fred" false false;;
    Kbus.bind f2 "$.Jim" true false) Kbus.initial).2.




End Stated.

(** * Properties *)

(** The doctest of [Message]: [Message('$.Fred', data='1234').array]. *)
Example doctest_msg1 :
  Message.__init__ (Message.OfAtom (AStr "$.Fred")) (AStr "1234") (AInt 0) (AInt 0) (AInt 0)
  = Ok (Message.mk [1937072747; 0; 0; 0; 0; 6; 1; 1917201956; 25701; 875770417; 1801614707] 11).
Proof. vm_compute. reflexivity. Qed.

(** ** Bytes and words *)

Section bytes_words.

Lemma ord_range c : 0 <= ord c < 256.
Proof. unfold ord. pose proof (N_ascii_bounded c). lia. Qed.

Lemma chr_ord c : chr (ord c) = c.
Proof. unfold chr, ord. rewrite N2Z.id. apply ascii_N_embedding. Qed.

Lemma ord_chr z : 0 <= z < 256 -> ord (chr z) = z.
Proof.
  intros Hz. unfold chr, ord.
  rewrite N_ascii_embedding by lia. lia.
Qed.

Lemma word_of_bytes_is_word b0 b1 b2 b3 : is_word (word_of_bytes b0 b1 b2 b3).
Proof.
  unfold is_word, word_of_bytes.
  pose proof (ord_range b0). pose proof (ord_range b1).
  pose proof (ord_range b2). pose proof (ord_range b3).
  change (2 ^ 32) with 4294967296. lia.
Qed.

Lemma bytes_of_word_of_bytes b0 b1 b2 b3 :
  bytes_of_word (word_of_bytes b0 b1 b2 b3) = [b0; b1; b2; b3].
Proof.
  unfold bytes_of_word, word_of_bytes.
  pose proof (ord_range b0). pose proof (ord_range b1).
  pose proof (ord_range b2). pose proof (ord_range b3).
  set (w := ord b0 + 256 * ord b1 + 65536 * ord b2 + 16777216 * ord b3).
  assert (w mod 256 = ord b0) as -> by (subst w; Z.to_euclidean_division_equations; lia).
  assert (w / 256 mod 256 = ord b1) as -> by (subst w; Z.to_euclidean_division_equations; lia).
  assert (w / 65536 mod 256 = ord b2) as -> by (subst w; Z.to_euclidean_division_equations; lia).
  assert (w / 16777216 mod 256 = ord b3) as -> by (subst w; Z.to_euclidean_division_equations; lia).
  by rewrite !chr_ord.
Qed.

Lemma word_of_bytes_of_word w :
  is_word w ->
  word_of_bytes (chr (w mod 256)) (chr (w / 256 mod 256))
                (chr (w / 65536 mod 256)) (chr (w / 16777216 mod 256)) = w.
Proof.
  unfold is_word. change (2 ^ 32) with 4294967296. intros Hw.
  unfold word_of_bytes.
  rewrite !ord_chr by (apply Z.mod_pos_bound; lia).
  Z.to_euclidean_division_equations; lia.
Qed.

(** Lists taken four elements at a time. *)
Lemma list_ind4 {A} (P : list A -> Prop) :
  P [] -> (forall a, P [a]) -> (forall a b, P [a; b]) -> (forall a b c, P [a; b; c]) ->
  (forall a b c d l, P l -> P (a :: b :: c :: d :: l)) ->
  forall l, P l.
Proof.
  intros H0 H1 H2 H3 H4. fix IH 1.
  intros [|a [|b [|c [|d l]]]]; [done..|].
  apply H4, IH.
Qed.

Lemma mod4_tail {A} (a b c d : A) l :
  (List.length (a :: b :: c :: d :: l) mod 4 = 0)%nat -> (List.length l mod 4 = 0)%nat.
Proof.
  intros Hlen.
  replace (List.length (a :: b :: c :: d :: l))
    with (List.length l + 1 * 4)%nat in Hlen by (simpl; lia).
  by rewrite Nat.Div0.mod_add in Hlen.
Qed.

Lemma fromstring_is_word l : Forall is_word (fromstring l).
Proof.
  induction l as [| | | |b0 b1 b2 b3 rest IH] using list_ind4; simpl; try constructor.
  - apply word_of_bytes_is_word.
  - apply IH.
Qed.

Lemma fromstring_app l1 l2 :
  (List.length l1 mod 4 = 0)%nat ->
  fromstring (l1 ++ l2) = fromstring l1 ++ fromstring l2.
Proof.
  induction l1 as [| | | |b0 b1 b2 b3 rest IH] using list_ind4;
    intros Hlen; try discriminate; [done|].
  simpl. f_equal. apply IH. eapply mod4_tail, Hlen.
Qed.

Lemma fromstring_flat_map a :
  Forall is_word a -> fromstring (flat_map bytes_of_word a) = a.
Proof.
  induction 1 as [|w a Hw _ IH]; [done|].
  simpl. rewrite IH. f_equal. by apply word_of_bytes_of_word.
Qed.

Lemma flat_map_fromstring l :
  (List.length l mod 4 = 0)%nat -> flat_map bytes_of_word (fromstring l) = l.
Proof.
  induction l as [| | | |b0 b1 b2 b3 rest IH] using list_ind4;
    intros Hlen; try discriminate; [done|].
  cbn [fromstring flat_map]. rewrite bytes_of_word_of_bytes. simpl. do 4 f_equal.
  apply IH. eapply mod4_tail, Hlen.
Qed.

Lemma length_flat_map_bytes a :
  List.length (flat_map bytes_of_word a) = (4 * List.length a)%nat.
Proof. induction a as [|w a IH]; simpl; lia. Qed.

Lemma length_fromstring l :
  (List.length l mod 4 = 0)%nat ->
  (4 * List.length (fromstring l))%nat = List.length l.
Proof.
  intros Hlen. rewrite <- (flat_map_fromstring l Hlen) at 2.
  by rewrite length_flat_map_bytes.
Qed.

Lemma length_list_ascii s : List.length (list_ascii_of_string s) = String.length s.
Proof. induction s; simpl; congruence. Qed.

Lemma length_string_of_list l : String.length (string_of_list_ascii l) = List.length l.
Proof. induction l; simpl; congruence. Qed.

Lemma list_ascii_app s1 s2 :
  list_ascii_of_string (s1 ++ s2) = list_ascii_of_string s1 ++ list_ascii_of_string s2.
Proof. induction s1 as [|c s1 IH]; simpl; [done|]. by rewrite IH. Qed.

Lemma length_string_app s1 s2 :
  String.length (s1 ++ s2) = (String.length s1 + String.length s2)%nat.
Proof. induction s1 as [|c s1 IH]; simpl; [done|]. by rewrite IH. Qed.

Lemma length_tostring a : String.length (tostring a) = (4 * List.length a)%nat.
Proof. unfold tostring. by rewrite length_string_of_list, length_flat_map_bytes. Qed.

(** What [tofile] writes is read back by [array.array('L', ...)] as the
    same items. *)
Lemma array_L_tostring a :
  Forall is_word a -> array_L (AStr (tostring a)) = Ok a.
Proof.
  intros Ha. unfold array_L. rewrite length_tostring.
  replace (4 * List.length a)%nat with (List.length a * 4)%nat by lia.
  rewrite Nat.Div0.mod_mul. simpl.
  unfold tostring. rewrite list_ascii_of_string_of_list_ascii.
  by rewrite fromstring_flat_map.
Qed.

End bytes_words.

(** ** Python sequences *)

Section sequences.

Lemma bind_Ok {A B} (a : A) (k : A -> result B) : (Ok a ≫= k) = k a.
Proof. reflexivity. Qed.

Lemma bind_Raise {A B} e (k : A -> result B) : (Raise e ≫= k) = Raise e.
Proof. reflexivity. Qed.

Lemma is_wordb_true z : is_wordb z = true <-> is_word z.
Proof. unfold is_wordb, is_word. rewrite andb_true_iff. lia. Qed.

Lemma append_word msg z : is_word z -> append msg (AInt z) = Ok (msg ++ [z]).
Proof.
  intros Hz. unfold append, item.
  by apply is_wordb_true in Hz as ->.
Qed.

Lemma append_overflow msg z : ¬ is_word z -> append msg (AInt z) = Raise OverflowError.
Proof.
  intros Hz. unfold append, item.
  destruct (is_wordb z) eqn:E; [|done].
  by apply is_wordb_true in E.
Qed.

Lemma getitem_lookup (a : list Z) (i : nat) x :
  a !! i = Some x -> getitem a (Z.of_nat i) = Ok x.
Proof.
  intros Hi. unfold getitem.
  pose proof (lookup_lt_Some _ _ _ Hi) as Hlt.
  destruct (Z.of_nat i <? 0) eqn:E; [lia|].
  replace ((0 <=? Z.of_nat i) && (Z.of_nat i <? Z.of_nat (List.length a))) with true
    by lia.
  rewrite Nat2Z.id. by rewrite Hi.
Qed.

Lemma getitem_short (a : list Z) (i : nat) :
  a !! i = None -> getitem a (Z.of_nat i) = Raise IndexError.
Proof.
  intros Hi. unfold getitem.
  apply lookup_ge_None in Hi.
  destruct (Z.of_nat i <? 0) eqn:E; [lia|].
  replace ((0 <=? Z.of_nat i) && (Z.of_nat i <? Z.of_nat (List.length a))) with false; [done|].
  lia.
Qed.

Lemma getitem_at (a : list Z) (i : Z) x :
  0 <= i -> a !! Z.to_nat i = Some x -> getitem a i = Ok x.
Proof.
  intros Hi Hx. rewrite <- (Z2Nat.id i Hi). by apply getitem_lookup.
Qed.

Lemma getitem_beyond (a : list Z) (i : Z) :
  0 <= i -> a !! Z.to_nat i = None -> getitem a i = Raise IndexError.
Proof.
  intros Hi Hx. rewrite <- (Z2Nat.id i Hi). by apply getitem_short.
Qed.

Lemma getitem_last (a : list Z) x : getitem (a ++ [x]) (-1) = Ok x.
Proof.
  unfold getitem. rewrite length_app. simpl List.length.
  change (-1 <? 0) with true. cbv iota.
  replace (-1 + Z.of_nat (List.length a + 1)) with (Z.of_nat (List.length a)) by lia.
  replace ((0 <=? Z.of_nat (List.length a))
           && (Z.of_nat (List.length a) <? Z.of_nat (List.length a + 1)))
    with true by lia.
  rewrite Nat2Z.id.
  by rewrite lookup_app_r, Nat.sub_diag.
Qed.

Lemma getitem_last_Some (a : list Z) x : last a = Some x -> getitem a (-1) = Ok x.
Proof. intros (a' & ->)%last_Some. apply getitem_last. Qed.

(** [a[i:j]] for [0 <= i <= j]: drop [i] items, keep [j - i]. *)
Lemma slice_nat {A} (a : list A) (i j : nat) :
  (i <= j)%nat ->
  slice a (Z.of_nat i) (Z.of_nat j) = take (j - i) (drop i a).
Proof.
  intros Hij. unfold slice, clamp.
  destruct (Z.of_nat i <? 0) eqn:Ei; [lia|].
  destruct (Z.of_nat j <? 0) eqn:Ej; [lia|].
  change (@firstn A) with (@take A). change (@skipn A) with (@drop A).
  destruct (decide (i <= List.length a)%nat) as [Hi|Hi].
  - rewrite (Z.min_l (Z.of_nat i)) by lia.
    rewrite Nat2Z.id.
    destruct (decide (j <= List.length a)%nat) as [Hj|Hj].
    + rewrite Z.min_l by lia. f_equal. lia.
    + rewrite Z.min_r by lia.
      rewrite !take_ge; [done|rewrite length_drop; lia..].
  - rewrite !Z.min_r by lia. rewrite Nat2Z.id.
    rewrite (drop_ge a i) by lia. rewrite drop_all. by rewrite !take_nil.
Qed.

Lemma slice_middle {A} (l1 l2 l3 : list A) :
  slice (l1 ++ l2 ++ l3) (Z.of_nat (List.length l1))
        (Z.of_nat (List.length l1) + Z.of_nat (List.length l2)) = l2.
Proof.
  rewrite <- Nat2Z.inj_add. rewrite slice_nat by lia.
  rewrite drop_app_length.
  replace (List.length l1 + List.length l2 - List.length l1)%nat
    with (List.length l2) by lia.
  by rewrite take_app_length.
Qed.

End sequences.

(** ** Building a frame: [_from_data] *)

Section from_data.
Import MessageCodec.

Lemma string_app_cons c (s1 s2 : string) :
  (String c s1 ++ s2 = String c (s1 ++ s2))%string.
Proof. reflexivity. Qed.

Lemma string_app_assoc (s1 s2 s3 : string) : ((s1 ++ s2) ++ s3 = s1 ++ (s2 ++ s3))%string.
Proof.
  induction s1 as [|c s1 IH]; [done|].
  by rewrite !string_app_cons, IH.
Qed.

Lemma string_app_empty (s : string) : (s ++ "" = s)%string.
Proof.
  induction s as [|c s IH]; [done|].
  by rewrite string_app_cons, IH.
Qed.

Lemma pad_loop_done n s :
  (String.length s mod 4 = 0)%nat -> Message.pad_loop n (AStr s) = Ok (AStr s).
Proof. intros E. destruct n; cbn [Message.pad_loop]; by rewrite E. Qed.

Lemma pad_loop_turn n s r :
  (String.length s mod 4 = S r)%nat ->
  Message.pad_loop (S n) (AStr s) = Message.pad_loop n (AStr (s ++ String zero "")).
Proof. intros E. cbn [Message.pad_loop]. by rewrite E. Qed.

(** The padding loop stops within its three turns, on the name filled up
    with NULs. *)
Lemma pad_loop_str s :
  Message.pad_loop 3 (AStr s) = Ok (AStr (s ++ padding (String.length s))).
Proof.
  unfold padding.
  pose proof (Nat.mod_upper_bound (String.length s) 4) as Hlt.
  assert (forall t : string, String.length (t ++ String zero "") mod 4
                    = (String.length t mod 4 + 1) mod 4)%nat as Hstep.
  { intros t. rewrite length_string_app. simpl String.length.
    by rewrite Nat.Div0.add_mod_idemp_l. }
  destruct (String.length s mod 4)%nat as [|[|[|[|r]]]] eqn:E; [| | | |lia].
  - rewrite pad_loop_done by done. by rewrite string_app_empty.
  - rewrite (pad_loop_turn _ _ _ E).
    rewrite (pad_loop_turn _ _ 1) by (by rewrite Hstep, E).
    rewrite (pad_loop_turn _ _ 2) by (by rewrite !Hstep, E).
    rewrite pad_loop_done by (by rewrite !Hstep, E).
    by rewrite !string_app_assoc.
  - rewrite (pad_loop_turn _ _ _ E).
    rewrite (pad_loop_turn _ _ 2) by (by rewrite Hstep, E).
    rewrite pad_loop_done by (by rewrite !Hstep, E).
    by rewrite !string_app_assoc.
  - rewrite (pad_loop_turn _ _ _ E).
    by rewrite pad_loop_done by (by rewrite !Hstep, E).
Qed.

Lemma length_padded s :
  (String.length (s ++ padding (String.length s)) mod 4 = 0)%nat.
Proof.
  rewrite length_string_app. unfold padding.
  pose proof (Nat.mod_upper_bound (String.length s) 4) as Hlt.
  rewrite <- Nat.Div0.add_mod_idemp_l.
  destruct (String.length s mod 4)%nat as [|[|[|[|r]]]] eqn:E; simpl; try done. lia.
Qed.

(** A name of [n] bytes takes [(n + 3) / 4] words. *)
Lemma length_words_padded s :
  Z.of_nat (List.length (words (s ++ padding (String.length s))))
  = name_words (Z.of_nat (String.length s)).
Proof.
  unfold words, name_words.
  pose proof (length_padded s) as Hmod.
  pose proof (length_fromstring (list_ascii_of_string (s ++ padding (String.length s)))) as Hlen.
  rewrite length_list_ascii in Hlen. specialize (Hlen Hmod).
  rewrite length_string_app in Hlen.
  assert (String.length (padding (String.length s)) < 4
          ∧ (String.length s + String.length (padding (String.length s))) mod 4 = 0)%nat
    as [Hp Hq].
  { split; [|by rewrite <- length_string_app].
    unfold padding. destruct (String.length s mod 4)%nat as [|[|[|?]]]; simpl; lia. }
  apply Nat.Div0.div_exact in Hq.
  Z.to_euclidean_division_equations; lia.
Qed.

Lemma is_word_guards : is_word Message.START_GUARD ∧ is_word Message.END_GUARD ∧ is_word 0.
Proof. unfold is_word, Message.START_GUARD, Message.END_GUARD. lia. Qed.

(** What the [data] argument becomes, and its truth value. *)
Lemma payload_of_array data ws :
  payload_of data = Some ws ->
  match data with
  | ANone => ws = []
  | _ => array_L data = Ok ws
  end.
Proof.
  destruct data as [|z|s|a]; cbn [payload_of array_L]; intros H; try by simplify_eq.
  destruct (String.length s mod 4 =? 0)%nat; by simplify_eq.
Qed.

(** On a string name and an acceptable payload, [_from_data] builds the
    frame of the wire format. *)
Lemma from_data_layout name data ws to from_ flags :
  payload_of data = Some ws ->
  is_word to -> is_word from_ -> is_word flags ->
  is_word (Z.of_nat (String.length name)) ->
  is_word (Z.of_nat (List.length ws)) ->
  Message._from_data (AStr name) data (AInt to) (AInt from_) (AInt flags)
  = Ok (layout name ws to from_ flags).
Proof.
  intros Hdata Hto Hfrom Hflags Hname Hws.
  destruct is_word_guards as (Hsg & Heg & H0).
  unfold Message._from_data.
  repeat (rewrite append_word by done; rewrite bind_Ok).
  cbn [len]. rewrite bind_Ok, append_word, bind_Ok by done.
  rewrite pad_loop_str, bind_Ok.
  assert (array_L (AStr (name ++ padding (String.length name)))
          = Ok (words (name ++ padding (String.length name)))) as Hna.
  { unfold array_L. by rewrite length_padded. }
  apply payload_of_array in Hdata.
  assert (exists d, match data with
               | ANone => Ok ANone
               | AArr a => Ok (AArr a)
               | _ => a ← array_L data; Ok (AArr a)
               end = Ok d
               ∧ (if truthy d then len d = Ok (List.length ws) ∧ array_L d = Ok ws
                  else ws = [])) as (d & -> & Hd).
  { destruct data as [|z|s|a].
    - by exists ANone.
    - done.
    - rewrite Hdata. exists (AArr ws). split; [done|].
      destruct ws; simpl; done.
    - simpl in Hdata. simplify_eq. exists (AArr ws). split; [done|].
      destruct ws; simpl; done. }
  rewrite bind_Ok.
  destruct (truthy d).
  - destruct Hd as [-> ->]. rewrite !bind_Ok.
    rewrite append_word, bind_Ok by done.
    rewrite Hna, !bind_Ok.
    rewrite append_word by done.
    unfold layout, header. by rewrite <- !app_assoc.
  - subst ws. rewrite append_word, bind_Ok by done.
    rewrite Hna, !bind_Ok.
    rewrite append_word by done.
    unfold layout, header. by rewrite <- !app_assoc.
Qed.

End from_data.

(** ** Checking a frame: [_check] *)

Section check.
Import MessageCodec.

(** [_check] on an array long enough to hold its two length fields. *)
Lemma check_unfold a x0 xl n d :
  a !! 0%nat = Some x0 -> last a = Some xl ->
  a !! 5%nat = Some n -> a !! 6%nat = Some d ->
  Message._check a =
    (assert (x0 =? Message.START_GUARD);;
     assert (xl =? Message.END_GUARD);;
     (if n <? 3 then Raise (ValueError (NameTooShort n)) else Ok tt);;
     assert (0 <=? d);;
     assert (8 + name_words n + d =? Z.of_nat (List.length a))).
Proof.
  intros H0 Hl H5 H6. unfold Message._check.
  rewrite (getitem_at a 0 x0 ltac:(done) H0), ?bind_Ok.
  rewrite (getitem_last_Some a xl Hl).
  rewrite (getitem_at a 5 n ltac:(done) H5).
  by rewrite (getitem_at a 6 d ltac:(done) H6).
Qed.

Lemma check_bad_start a x0 :
  a !! 0%nat = Some x0 -> x0 ≠ Message.START_GUARD ->
  Message._check a = Raise AssertionError.
Proof.
  intros H0 Hne. unfold Message._check.
  rewrite (getitem_at a 0 x0 ltac:(done) H0), ?bind_Ok.
  by replace (x0 =? Message.START_GUARD) with false by lia.
Qed.

Lemma check_bad_end a xl :
  a !! 0%nat = Some Message.START_GUARD -> last a = Some xl ->
  xl ≠ Message.END_GUARD ->
  Message._check a = Raise AssertionError.
Proof.
  intros H0 Hl Hne. unfold Message._check.
  rewrite (getitem_at a 0 _ ltac:(done) H0), ?bind_Ok.
  rewrite Z.eqb_refl. cbn [assert]. rewrite ?bind_Ok.
  rewrite (getitem_last_Some a xl Hl), ?bind_Ok.
  by replace (xl =? Message.END_GUARD) with false by lia.
Qed.

(** With the guards in place, the name length is looked at before the
    total length. *)
Lemma check_guarded a n d :
  a !! 0%nat = Some Message.START_GUARD -> last a = Some Message.END_GUARD ->
  a !! 5%nat = Some n -> a !! 6%nat = Some d ->
  Message._check a =
    if n <? 3 then Raise (ValueError (NameTooShort n))
    else if (0 <=? d) && (8 + name_words n + d =? Z.of_nat (List.length a))
         then Ok tt else Raise AssertionError.
Proof.
  intros H0 Hl H5 H6.
  rewrite (check_unfold a _ _ n d H0 Hl H5 H6).
  rewrite !Z.eqb_refl. cbn [assert]. rewrite ?bind_Ok.
  destruct (n <? 3); [done|]. rewrite ?bind_Ok.
  destruct (0 <=? d); [|done]. rewrite ?bind_Ok.
  by destruct (8 + name_words n + d =? Z.of_nat (List.length a)).
Qed.

(** What a checked array looks like. *)
Lemma check_Ok a :
  Message._check a = Ok tt <->
  a !! 0%nat = Some Message.START_GUARD ∧ last a = Some Message.END_GUARD ∧
  ∃ n d, a !! 5%nat = Some n ∧ a !! 6%nat = Some d ∧
         3 <= n ∧ 0 <= d ∧ 8 + name_words n + d = Z.of_nat (List.length a).
Proof.
  split.
  - intros Hc.
    destruct (a !! 0%nat) as [x0|] eqn:H0;
      [|unfold Message._check in Hc; by rewrite (getitem_beyond a 0 ltac:(done) H0) in Hc].
    destruct (decide (x0 = Message.START_GUARD)) as [->|Hne];
      [|by rewrite (check_bad_start a x0 H0 Hne) in Hc].
    destruct (last a) as [xl|] eqn:Hl;
      [|apply last_None in Hl; by subst a].
    destruct (decide (xl = Message.END_GUARD)) as [->|Hne];
      [|by rewrite (check_bad_end a xl H0 Hl Hne) in Hc].
    assert (∃ n d, a !! 5%nat = Some n ∧ a !! 6%nat = Some d) as (n & d & H5 & H6).
    { unfold Message._check in Hc.
      rewrite (getitem_at a 0 _ ltac:(done) H0), ?bind_Ok in Hc.
      rewrite Z.eqb_refl in Hc. cbn [assert] in Hc. rewrite ?bind_Ok in Hc.
      rewrite (getitem_last_Some a _ Hl), ?bind_Ok in Hc.
      rewrite Z.eqb_refl in Hc. cbn [assert] in Hc. rewrite ?bind_Ok in Hc.
      destruct (a !! 5%nat) as [n|] eqn:H5;
        [|by rewrite (getitem_beyond a 5 ltac:(done) H5) in Hc].
      destruct (a !! 6%nat) as [d|] eqn:H6;
        [|by rewrite (getitem_at a 5 n ltac:(done) H5), ?bind_Ok,
               (getitem_beyond a 6 ltac:(done) H6) in Hc].
      by exists n, d. }
    rewrite (check_guarded a n d H0 Hl H5 H6) in Hc.
    do 2 (split; [done|]). exists n, d.
    destruct (n <? 3) eqn:E1; [done|].
    destruct ((0 <=? d) && (8 + name_words n + d =? Z.of_nat (List.length a))) eqn:E2; [|done].
    repeat split; try done; lia.
  - intros (H0 & Hl & n & d & H5 & H6 & Hn & Hd & Hlen).
    rewrite (check_guarded a n d H0 Hl H5 H6).
    replace (n <? 3) with false by lia.
    by replace ((0 <=? d) && (8 + name_words n + d =? Z.of_nat (List.length a)))
      with true by lia.
Qed.

End check.

(** ** Frames of the wire format *)

Section layout.
Import MessageCodec.

Lemma length_layout name ws to from_ flags :
  Z.of_nat (List.length (layout name ws to from_ flags))
  = 8 + name_words (Z.of_nat (String.length name)) + Z.of_nat (List.length ws).
Proof.
  unfold layout, header. rewrite !length_app. simpl List.length.
  rewrite <- length_words_padded. lia.
Qed.

Lemma last_layout name ws to from_ flags :
  last (layout name ws to from_ flags) = Some Message.END_GUARD.
Proof. unfold layout. by rewrite !app_assoc, last_snoc. Qed.

Lemma tostring_words s :
  (String.length s mod 4 = 0)%nat -> tostring (words s) = s.
Proof.
  intros Hs. unfold tostring, words.
  rewrite flat_map_fromstring by (by rewrite length_list_ascii).
  apply string_of_list_ascii_of_string.
Qed.

Lemma str_upto_app s p : str_upto (s ++ p) (Z.of_nat (String.length s)) = s.
Proof.
  unfold str_upto. rewrite list_ascii_app.
  rewrite (slice_nat _ 0 (String.length s)) by lia.
  rewrite drop_0, Nat.sub_0_r, <- length_list_ascii, take_app_length.
  apply string_of_list_ascii_of_string.
Qed.

(** A frame of the wire format passes [_check] once its name has three
    bytes. *)
Lemma check_layout name ws to from_ flags :
  (3 <= String.length name)%nat ->
  Message._check (layout name ws to from_ flags) = Ok tt.
Proof.
  intros Hname. apply check_Ok.
  split; [done|]. split; [apply last_layout|].
  exists (Z.of_nat (String.length name)), (Z.of_nat (List.length ws)).
  rewrite length_layout. repeat split; try done; lia.
Qed.

(** [extract] reads the parts of a frame back. *)
Lemma extract_layout name ws to from_ flags len :
  Message.extract (Message.mk (layout name ws to from_ flags) len)
  = Ok (0, to, from_, flags, name, ws).
Proof.
  unfold Message.extract. cbn [Message.array].
  set (a := layout name ws to from_ flags).
  rewrite (getitem_at a 0 Message.START_GUARD) by done.
  rewrite bind_Ok, Z.eqb_refl. cbn [assert]. rewrite bind_Ok.
  rewrite (getitem_last_Some a _ (last_layout _ _ _ _ _)).
  rewrite bind_Ok, Z.eqb_refl. cbn [assert]. rewrite bind_Ok.
  rewrite (getitem_at a 1 0), bind_Ok by done.
  rewrite (getitem_at a 2 to), bind_Ok by done.
  rewrite (getitem_at a 3 from_), bind_Ok by done.
  rewrite (getitem_at a 4 flags), bind_Ok by done.
  rewrite (getitem_at a 5 (Z.of_nat (String.length name))), bind_Ok by done.
  rewrite (getitem_at a 6 (Z.of_nat (List.length ws))), bind_Ok by done.
  fold (name_words (Z.of_nat (String.length name))).
  rewrite <- length_words_padded.
  set (W := words (name ++ padding (String.length name))).
  set (h := header to from_ flags (Z.of_nat (String.length name))
                   (Z.of_nat (List.length ws))).
  assert (a = h ++ W ++ (ws ++ [Message.END_GUARD])) as Ha1 by done.
  assert (a = (h ++ W) ++ ws ++ [Message.END_GUARD]) as Ha2
      by (by rewrite Ha1, <- app_assoc).
  do 5 f_equal.
  - f_equal.
    + rewrite Ha1. change 7 with (Z.of_nat (List.length h)).
      rewrite slice_middle. subst W.
      rewrite tostring_words by apply length_padded.
      apply str_upto_app.
  - rewrite Ha2.
    replace (7 + Z.of_nat (List.length W)) with (Z.of_nat (List.length (h ++ W)))
      by (rewrite length_app; simpl; lia).
    apply slice_middle.
Qed.

End layout.

(** ** Constructing a message: [__init__] *)

Section init.
Import MessageCodec.

(** Every constructed [Message] has passed [_check] and knows its
    length. *)
Lemma init_checked arg data to from_ flags m :
  Message.__init__ arg data to from_ flags = Ok m ->
  Message._check (Message.array m) = Ok tt
  ∧ Message.length m = List.length (Message.array m).
Proof.
  unfold Message.__init__.
  match goal with |- (?e ≫= _) = _ -> _ => destruct e as [a|e'] end; [|done].
  rewrite bind_Ok. destruct (Message._check a) as [[]|e'] eqn:Hc; [|done].
  rewrite bind_Ok. by intros [= <-].
Qed.

(** A name that looks like one goes to [_from_data]. *)
Lemma init_name s data to from_ flags :
  String.prefix "$." s = true ->
  Message.__init__ (Message.OfAtom (AStr s)) data to from_ flags
  = (a ← Message._from_data (AStr s) data to from_ flags;
     Message._check a;; Ok (Message.mk a (List.length a))).
Proof. intros Hp. unfold Message.__init__. by rewrite Hp. Qed.

(** Any other string is taken as the bytes of a frame. *)
Lemma init_bytes s data to from_ flags :
  String.prefix "$." s = false ->
  Message.__init__ (Message.OfAtom (AStr s)) data to from_ flags
  = if truthy (AStr s)
    then a ← array_L (AStr s); Message._check a;; Ok (Message.mk a (List.length a))
    else Raise (ValueError NoSense).
Proof.
  intros Hp. unfold Message.__init__. rewrite Hp.
  by destruct (truthy (AStr s)).
Qed.

(** What [encode] does on a name with the prefix, case by case. *)
Lemma encode_cases name payload to from_ flags :
  String.prefix "$." name = true ->
  is_word to -> is_word from_ -> is_word flags -> fits name payload ->
  encode name payload to from_ flags =
    if negb (String.length payload mod 4 =? 0)%nat then Raise (ValueError ItemSize)
    else if (String.length name <? 3)%nat
         then Raise (ValueError (NameTooShort (Z.of_nat (String.length name))))
         else let a := layout name (words payload) to from_ flags in
              Ok (Message.mk a (List.length a)).
Proof.
  intros Hp Hto Hfrom Hflags [Hn Hw]. unfold encode.
  rewrite init_name by done.
  destruct (String.length payload mod 4 =? 0)%nat eqn:Hmod; cbn [negb].
  - rewrite (from_data_layout name (AStr payload) (words payload)); try done.
    2:{ cbn [payload_of]. by rewrite Hmod. }
    rewrite bind_Ok.
    destruct (String.length name <? 3)%nat eqn:Hlen.
    + rewrite (check_guarded _ (Z.of_nat (String.length name))
                             (Z.of_nat (List.length (words payload))));
        [|done|apply last_layout|done|done].
      by replace (Z.of_nat (String.length name) <? 3) with true by lia.
    + rewrite check_layout by lia. by rewrite bind_Ok.
  - destruct is_word_guards as (Hsg & Heg & H0).
    unfold Message._from_data.
    repeat (rewrite append_word by done; rewrite bind_Ok).
    cbn [len]. rewrite bind_Ok, append_word, bind_Ok by done.
    rewrite pad_loop_str, bind_Ok.
    cbn [array_L]. by rewrite Hmod.
Qed.

(** [_from_data] only succeeds on fields and lengths that fit a word and
    on a payload of whole words. *)
Lemma from_data_Ok_inv name payload to from_ flags a :
  Message._from_data (AStr name) (AStr payload) (AInt to) (AInt from_) (AInt flags) = Ok a ->
  is_word to ∧ is_word from_ ∧ is_word flags ∧ fits name payload
  ∧ (String.length payload mod 4 = 0)%nat.
Proof.
  destruct is_word_guards as (Hsg & Heg & H0).
  unfold Message._from_data.
  do 2 (rewrite append_word by done; rewrite bind_Ok).
  destruct (decide (is_word to)) as [Hto|Hto];
    [|by rewrite append_overflow].
  rewrite append_word, bind_Ok by done.
  destruct (decide (is_word from_)) as [Hfrom|Hfrom];
    [|by rewrite append_overflow].
  rewrite append_word, bind_Ok by done.
  destruct (decide (is_word flags)) as [Hflags|Hflags];
    [|by rewrite append_overflow].
  rewrite append_word, bind_Ok by done.
  cbn [len]. rewrite bind_Ok.
  destruct (decide (is_word (Z.of_nat (String.length name)))) as [Hn|Hn];
    [|by rewrite append_overflow].
  rewrite append_word, bind_Ok by done.
  rewrite pad_loop_str, bind_Ok.
  cbn [array_L].
  destruct (String.length payload mod 4 =? 0)%nat eqn:Hmod; [|done].
  rewrite !bind_Ok.
  fold (words payload).
  destruct (decide (is_word (Z.of_nat (List.length (words payload))))) as [Hw|Hw].
  - intros _. repeat split; try done; try apply Hto; try apply Hfrom;
      try apply Hflags; try apply Hn; try apply Hw. lia.
  - destruct (truthy (AArr (words payload))) eqn:Ht.
    + cbn [len]. rewrite bind_Ok. by rewrite append_overflow.
    + destruct (words payload); [|done]. by destruct Hw.
Qed.

Lemma layout_words name ws to from_ flags :
  is_word to -> is_word from_ -> is_word flags ->
  is_word (Z.of_nat (String.length name)) -> is_word (Z.of_nat (List.length ws)) ->
  Forall is_word ws ->
  Forall is_word (layout name ws to from_ flags).
Proof.
  intros Hto Hfrom Hflags Hn Hl Hws. destruct is_word_guards as (Hsg & Heg & Hz).
  unfold layout, header. rewrite !Forall_app.
  split; [|split; [|split]].
  - by repeat apply Forall_cons_2.
  - apply fromstring_is_word.
  - done.
  - by repeat apply Forall_cons_2.
Qed.

(** The bytes of a checked array of words never look like a name: they
    open with the start guard. *)
Lemma tostring_checked a :
  Message._check a = Ok tt ->
  String.prefix "$." (tostring a) = false ∧ truthy (AStr (tostring a)) = true.
Proof.
  intros (H0 & _)%check_Ok.
  destruct a as [|x a]; [done|]. simpl in H0. simplify_eq.
  split; [by vm_compute|]. unfold truthy. by rewrite length_tostring.
Qed.

(** Reading back what [to_file] wrote gives the same message. *)
Lemma of_bytes_to_bytes m :
  Message._check (Message.array m) = Ok tt ->
  Message.length m = List.length (Message.array m) ->
  Forall is_word (Message.array m) ->
  of_bytes (Message.to_bytes m) = Ok m.
Proof.
  intros Hc Hlen Hw. unfold of_bytes, Message.to_bytes.
  destruct (tostring_checked _ Hc) as [Hp Ht].
  rewrite init_bytes, Ht by done.
  rewrite array_L_tostring, bind_Ok, Hc, bind_Ok by done.
  destruct m as [a l]. simpl in *. by subst l.
Qed.

End init.

(** ** The codec *)

Section codec.
Import MessageCodec.

(** C2: for every name of at least 3 bytes that starts with "$.", every
    payload of whole words and every to, from and flags (32-bit words, as
    every field of the frame), [encode] succeeds and decoding the bytes of
    its frame gives back the name, the payload, to, from and flags; the id
    is the placeholder 0. *)
Theorem decode_encode name payload to from_ flags :
  (3 <= String.length name)%nat -> String.prefix "$." name = true ->
  (String.length payload mod 4 = 0)%nat ->
  is_word to -> is_word from_ -> is_word flags -> fits name payload ->
  ∃ m, encode name payload to from_ flags = Ok m
       ∧ decode (Message.to_bytes m) = Ok (0, to, from_, flags, name, words payload)
       ∧ Message.extract m = Ok (0, to, from_, flags, name, words payload)
       ∧ tostring (words payload) = payload.
Proof.
  intros Hlen Hp Hmod Hto Hfrom Hflags Hfits.
  pose proof (encode_cases name payload to from_ flags Hp Hto Hfrom Hflags Hfits) as He.
  rewrite Hmod in He. cbn [Nat.eqb negb] in He.
  replace (String.length name <? 3)%nat with false in He by lia.
  cbv zeta in He.
  eexists. split; [exact He|].
  destruct Hfits as [Hn Hw].
  split; [|split].
  - unfold decode. rewrite of_bytes_to_bytes; cbn [Message.array Message.length].
    + rewrite bind_Ok. apply extract_layout.
    + by apply check_layout.
    + done.
    + apply layout_words; try done. apply fromstring_is_word.
  - apply extract_layout.
  - by apply tostring_words.
Qed.

Lemma decode_encode_witness :
  ∃ m, encode "$.Fred" "1234" 0 7 0 = Ok m
       ∧ decode (Message.to_bytes m) = Ok (0, 0, 7, 0, "$.Fred", words "1234")
       ∧ Message.extract m = Ok (0, 0, 7, 0, "$.Fred", words "1234")
       ∧ tostring (words "1234") = "1234".
Proof.
  apply (decode_encode "$.Fred" "1234" 0 7 0).
  - simpl. lia.
  - reflexivity.
  - reflexivity.
  - unfold is_word. lia.
  - unfold is_word. lia.
  - unfold is_word. lia.
  - unfold fits, is_word. simpl. lia.
Defined.

(** C6: the frame of every successfully encoded message opens with the
    start guard, closes with the end guard and counts
    8 + ceil(name_len_bytes/4) + payload_len_words words; when the first
    argument is a name, the frame is the header, the name filled up with
    NULs to a word boundary, the payload and the end guard. *)
Theorem encoded_frame name payload to from_ flags m :
  encode name payload to from_ flags = Ok m ->
  let a := Message.array m in
  (a !! 0%nat = Some Message.START_GUARD
   ∧ last a = Some Message.END_GUARD
   ∧ ∃ name_len_bytes payload_len_words,
       a !! 5%nat = Some name_len_bytes ∧ a !! 6%nat = Some payload_len_words
       ∧ Z.of_nat (List.length a) = 8 + (name_len_bytes + 3) / 4 + payload_len_words
       ∧ Message.length m = List.length a)
  ∧ (String.prefix "$." name = true ->
     a = header to from_ flags (Z.of_nat (String.length name))
                (Z.of_nat (List.length (words payload)))
         ++ words (name ++ padding (String.length name))
         ++ words payload ++ [Message.END_GUARD]
     ∧ (String.length (name ++ padding (String.length name)) mod 4 = 0)%nat
     ∧ Z.of_nat (List.length (words (name ++ padding (String.length name))))
       = (Z.of_nat (String.length name) + 3) / 4
     ∧ tostring (words payload) = payload).
Proof.
  intros He a. split.
  - unfold encode in He.
    destruct (init_checked _ _ _ _ _ _ He) as [Hc Hl].
    apply check_Ok in Hc as (H0 & Hlast & n & d & H5 & H6 & Hn & Hd & Hlen).
    do 2 (split; [done|]). exists n, d. unfold name_words in Hlen. by repeat split.
  - intros Hp.
    assert (is_word to ∧ is_word from_ ∧ is_word flags ∧ fits name payload)
      as (Hto & Hfrom & Hflags & Hfits).
    { unfold encode in He. rewrite init_name in He by done.
      destruct (Message._from_data (AStr name) (AStr payload) (AInt to)
                                   (AInt from_) (AInt flags)) as [a'|] eqn:Hfd; [|done].
      apply from_data_Ok_inv in Hfd. tauto. }
    rewrite (encode_cases name payload to from_ flags Hp Hto Hfrom Hflags Hfits) in He.
    destruct (String.length payload mod 4 =? 0)%nat eqn:Hmod; [|done].
    cbn [negb] in He.
    destruct (String.length name <? 3)%nat; [done|].
    cbv zeta in He. injection He as <-. subst a. cbn [Message.array].
    split; [done|]. split; [apply length_padded|].
    split; [apply length_words_padded|].
    apply tostring_words. lia.
Qed.

Lemma encoded_frame_witness :
  ∃ m, encode "$.Fred" "1234" 0 0 0 = Ok m
       ∧ Message.array m !! 0%nat = Some Message.START_GUARD
       ∧ last (Message.array m) = Some Message.END_GUARD
       ∧ List.length (Message.array m) = 11%nat.
Proof.
  exists (Message.mk [1937072747; 0; 0; 0; 0; 6; 1; 1917201956; 25701; 875770417; 1801614707] 11).
  assert (encode "$.Fred" "1234" 0 0 0
          = Ok (Message.mk [1937072747; 0; 0; 0; 0; 6; 1; 1917201956; 25701;
                            875770417; 1801614707] 11)) as He
      by (vm_compute; reflexivity).
  pose proof (encoded_frame "$.Fred" "1234" 0 0 0 _ He) as [(H0 & Hl & _) _].
  split; [exact He|]. split; [exact H0|]. split; [exact Hl|]. reflexivity.
Defined.

End codec.

(** ** Failures of the codec and the dispatch of [Message] *)

Section failures.
Import MessageCodec.

(** C7, as stated, fails: the bytes of a well-formed frame do not begin
    with "$." and yet are accepted as the first argument, and "abcd" is
    refused by a failed assertion of [_check], not as an invalid name. *)
Lemma encode_rejects_counterexample :
  ¬ Stated.encode_rejects (tostring Stated.fred) "1234" 0 0 0
  ∧ ¬ Stated.encode_rejects "abcd" "" 0 0 0.
Proof.
  split.
  - intros (H & _). destruct H as (e & He & _); [right; by vm_compute|].
    vm_compute in He. discriminate.
  - intros (H & _). destruct H as (e & He & n & Hn); [right; by vm_compute|].
    vm_compute in He. by simplify_eq.
Qed.

(** C7, amended: for a name that begins with "$." (and to, from, flags and
    the two lengths fitting a word) [encode] fails with InvalidPayload
    whenever the payload is not whole words, otherwise with InvalidName
    when the name is shorter than 3 bytes, and otherwise succeeds; a name
    that does not begin with "$." is not looked at as a name at all: it is
    read as the bytes of a frame, whatever the other arguments are. *)
Theorem encode_outcomes name payload to from_ flags :
  is_word to -> is_word from_ -> is_word flags -> fits name payload ->
  (String.prefix "$." name = true ->
   ((String.length payload mod 4 ≠ 0)%nat ->
    ∃ e, encode name payload to from_ flags = Raise e ∧ InvalidPayload e)
   ∧ ((String.length payload mod 4 = 0)%nat -> (String.length name < 3)%nat ->
      ∃ e, encode name payload to from_ flags = Raise e ∧ InvalidName e)
   ∧ ((String.length payload mod 4 = 0)%nat -> (3 <= String.length name)%nat ->
      ∃ m, encode name payload to from_ flags = Ok m))
  ∧ (String.prefix "$." name = false ->
     encode name payload to from_ flags = of_bytes name).
Proof.
  intros Hto Hfrom Hflags Hfits. split.
  - intros Hp.
    rewrite (encode_cases name payload to from_ flags Hp Hto Hfrom Hflags Hfits).
    split; [|split].
    + intros Hmod. replace (String.length payload mod 4 =? 0)%nat with false by lia.
      by eexists.
    + intros Hmod Hlen. rewrite Hmod. cbn [Nat.eqb negb].
      replace (String.length name <? 3)%nat with true by lia.
      eexists. split; [done|]. by eexists.
    + intros Hmod Hlen. rewrite Hmod. cbn [Nat.eqb negb].
      replace (String.length name <? 3)%nat with false by lia.
      by eexists.
  - intros Hp. unfold encode, of_bytes. by rewrite !init_bytes.
Qed.

Lemma encode_outcomes_witness :
  (∃ e, encode "$.Fred" "123" 0 0 0 = Raise e ∧ InvalidPayload e)
  ∧ (∃ e, encode "$." "1234" 0 0 0 = Raise e ∧ InvalidName e)
  ∧ (∃ m, encode "$.Fred" "1234" 0 0 0 = Ok m)
  ∧ encode "abcd" "1234" 0 0 0 = of_bytes "abcd".
Proof.
  assert (is_word 0) as H0 by (unfold is_word; lia).
  assert (forall name payload,
             is_word (Z.of_nat (String.length name)) ->
             is_word (Z.of_nat (List.length (words payload))) ->
             fits name payload) as Hfits by (by split).
  split; [|split; [|split]].
  - destruct (encode_outcomes "$.Fred" "123" 0 0 0 H0 H0 H0) as [H _].
    { apply Hfits; unfold is_word; simpl; lia. }
    destruct (H eq_refl) as (H1 & _ & _). apply H1. simpl. lia.
  - destruct (encode_outcomes "$." "1234" 0 0 0 H0 H0 H0) as [H _].
    { apply Hfits; unfold is_word; simpl; lia. }
    destruct (H eq_refl) as (_ & H2 & _). apply H2; [reflexivity|simpl; lia].
  - destruct (encode_outcomes "$.Fred" "1234" 0 0 0 H0 H0 H0) as [H _].
    { apply Hfits; unfold is_word; simpl; lia. }
    destruct (H eq_refl) as (_ & _ & H3). apply H3; [reflexivity|simpl; lia].
  - destruct (encode_outcomes "abcd" "1234" 0 0 0 H0 H0 H0) as [_ H].
    { apply Hfits; unfold is_word; simpl; lia. }
    apply H. reflexivity.
Defined.

Lemma words_nonempty buffer :
  buffer ≠ "" -> (String.length buffer mod 4 = 0)%nat -> words buffer ≠ [].
Proof.
  intros Hne Hmod Hw.
  pose proof (length_fromstring (list_ascii_of_string buffer)) as Hlen.
  rewrite length_list_ascii in Hlen. specialize (Hlen Hmod).
  fold (words buffer) in Hlen. rewrite Hw in Hlen.
  destruct buffer; [done|]. simpl in Hlen. lia.
Qed.

(** Decoding a buffer of whole words that does not look like a name is
    checking its words. *)
Lemma decode_words buffer :
  buffer ≠ "" -> String.prefix "$." buffer = false ->
  (String.length buffer mod 4 = 0)%nat ->
  decode buffer = (Message._check (words buffer);;
                   Message.extract (Message.mk (words buffer)
                                               (List.length (words buffer)))).
Proof.
  intros Hne Hp Hmod. unfold decode, of_bytes.
  rewrite init_bytes by done.
  replace (truthy (AStr buffer)) with true
    by (destruct buffer; done).
  cbn [array_L]. rewrite Hmod. cbn [Nat.eqb]. rewrite bind_Ok.
  fold (words buffer).
  by destruct (Message._check (words buffer)) as [[]|].
Qed.

(** C8, as stated, fails twice: "$.ab" does not open with the start guard
    and is decoded all the same, as a message of that name; and a buffer
    with both guards, a declared name length of 2 and a wrong word count is
    refused for its name, not as corrupt. *)
Lemma decode_rejects_counterexample :
  ¬ Stated.decode_rejects "$.ab"
  ∧ ¬ Stated.decode_rejects
      (tostring [Message.START_GUARD; 0; 0; 0; 0; 2; 0; Message.END_GUARD]).
Proof.
  split.
  - intros (H & _). destruct H as (e & He & _); [left; by vm_compute|].
    vm_compute in He. discriminate.
  - intros (H & _). destruct H as (e & He & Hc).
    + right. right. exists 2, 0. by vm_compute.
    + vm_compute in He. unfold CorruptMessage in Hc. by simplify_eq.
Qed.

(** C8, amended: for every non-empty buffer of whole words that does not
    begin with "$.", decoding fails with CorruptMessage if the first word
    is not the start guard or the last word is not the end guard; with both
    guards in place it fails with InvalidName if the declared name length
    is below 3, and otherwise with CorruptMessage if
    8 + ceil(declared_name_len/4) + declared_payload_len_words is not the
    word count. *)
Theorem decode_outcomes buffer :
  buffer ≠ "" -> String.prefix "$." buffer = false ->
  (String.length buffer mod 4 = 0)%nat ->
  let a := words buffer in
  ((a !! 0%nat ≠ Some Message.START_GUARD ∨ last a ≠ Some Message.END_GUARD) ->
   ∃ e, decode buffer = Raise e ∧ CorruptMessage e)
  ∧ (a !! 0%nat = Some Message.START_GUARD -> last a = Some Message.END_GUARD ->
     forall n d, a !! 5%nat = Some n -> a !! 6%nat = Some d ->
     (n < 3 -> ∃ e, decode buffer = Raise e ∧ InvalidName e)
     ∧ (3 <= n -> 8 + name_words n + d ≠ Z.of_nat (List.length a) ->
        ∃ e, decode buffer = Raise e ∧ CorruptMessage e)).
Proof.
  intros Hne Hp Hmod a.
  rewrite decode_words by done. fold a.
  pose proof (words_nonempty buffer Hne Hmod) as Ha. fold a in Ha.
  split.
  - intros Hbad. exists AssertionError. split; [|done].
    destruct a as [|x0 a'] eqn:Ea; [done|].
    destruct (decide (x0 = Message.START_GUARD)) as [->|Hx0].
    + destruct Hbad as [Hbad|Hbad]; [done|].
      destruct (last (Message.START_GUARD :: a')) as [xl|] eqn:Hl;
        [|by apply last_None in Hl].
      rewrite (check_bad_end _ xl); [done|done|done|congruence].
    + by rewrite (check_bad_start _ x0).
  - intros H0 Hl n d H5 H6.
    rewrite (check_guarded a n d H0 Hl H5 H6). split.
    + intros Hn. replace (n <? 3) with true by lia.
      eexists. split; [done|]. by eexists.
    + intros Hn Hlen. replace (n <? 3) with false by lia.
      replace ((0 <=? d) && (8 + name_words n + d =? Z.of_nat (List.length a)))
        with false by lia.
      by eexists.
Qed.

Lemma decode_outcomes_witness :
  (∃ e, decode "abcd" = Raise e ∧ CorruptMessage e)
  ∧ (∃ e, decode (tostring [Message.START_GUARD; 0; 0; 0; 0; 2; 0; Message.END_GUARD])
          = Raise e ∧ InvalidName e)
  ∧ (∃ e, decode (tostring [Message.START_GUARD; 0; 0; 0; 0; 3; 0; Message.END_GUARD])
          = Raise e ∧ CorruptMessage e).
Proof.
  split; [|split].
  - apply (decode_outcomes "abcd"); [done|reflexivity|reflexivity|].
    left. by vm_compute.
  - eapply (decode_outcomes
              (tostring [Message.START_GUARD; 0; 0; 0; 0; 2; 0; Message.END_GUARD])
              ltac:(by vm_compute) ltac:(by vm_compute) ltac:(by vm_compute)).
    + by vm_compute.
    + by vm_compute.
    + by vm_compute.
    + by vm_compute.
    + lia.
  - eapply (decode_outcomes
              (tostring [Message.START_GUARD; 0; 0; 0; 0; 3; 0; Message.END_GUARD])
              ltac:(by vm_compute) ltac:(by vm_compute) ltac:(by vm_compute)).
    + by vm_compute.
    + by vm_compute.
    + by vm_compute.
    + by vm_compute.
    + lia.
    + by vm_compute.
Defined.

End failures.

Section dispatch.
Import MessageCodec.

(** C10, as stated, fails on tuples and lists: the eleven words of the
    doctest frame, given as a list, are refused for not being 6 values,
    while the same words pass [_check]. *)
Lemma sequence_taken_as_frame_counterexample :
  ¬ Stated.sequence_taken_as_frame Stated.fred.
Proof.
  intros H. specialize (H ANone (AInt 0) (AInt 0) (AInt 0)).
  vm_compute in H. discriminate.
Qed.

(** C10, amended: [Message] dispatches on the shape of its first argument.
    A [Message] is copied.  A tuple or list must hold 6 values and is then
    encoded from its name, data, to, from and flags items, the separate
    arguments being ignored.  A string is treated as a message name, with
    the separate data, to, from and flags arguments, exactly when it begins
    with "$.".  Every other non-empty string or array is read as an
    already encoded frame and only checked against the frame invariant, so
    that the bytes or words of every checked frame are accepted.  An empty
    string or array is refused. *)
Theorem init_dispatch data to from_ flags :
  (forall m, Message.__init__ (Message.OfMessage m) data to from_ flags
        = (Message._check (Message.array m);;
           Ok (Message.mk (Message.array m) (List.length (Message.array m)))))
  ∧ (forall l, List.length l ≠ 6%nat ->
        Message.__init__ (Message.OfSeq l) data to from_ flags
        = Raise (ValueError (TupleArity (List.length l))))
  ∧ (forall id to' from' flags' name' data',
        Message.__init__ (Message.OfSeq [id; to'; from'; flags'; name'; data'])
                         data to from_ flags
        = (a ← Message._from_data name' data' to' from' flags';
           Message._check a;; Ok (Message.mk a (List.length a))))
  ∧ (forall s, String.prefix "$." s = true ->
        Message.__init__ (Message.OfAtom (AStr s)) data to from_ flags
        = (a ← Message._from_data (AStr s) data to from_ flags;
           Message._check a;; Ok (Message.mk a (List.length a))))
  ∧ (forall s, String.prefix "$." s = false -> s ≠ "" ->
        Message.__init__ (Message.OfAtom (AStr s)) data to from_ flags
        = (a ← array_L (AStr s);
           Message._check a;; Ok (Message.mk a (List.length a))))
  ∧ (forall a, a ≠ [] ->
        Message.__init__ (Message.OfAtom (AArr a)) data to from_ flags
        = (Message._check a;; Ok (Message.mk a (List.length a))))
  ∧ (forall a, Message._check a = Ok tt -> Forall is_word a ->
        Message.__init__ (Message.OfAtom (AStr (tostring a))) data to from_ flags
        = Ok (Message.mk a (List.length a))
        ∧ Message.__init__ (Message.OfAtom (AArr a)) data to from_ flags
          = Ok (Message.mk a (List.length a)))
  ∧ Message.__init__ (Message.OfAtom (AStr "")) data to from_ flags
    = Raise (ValueError NoSense)
  ∧ Message.__init__ (Message.OfAtom (AArr [])) data to from_ flags
    = Raise (ValueError NoSense).
Proof.
  repeat apply conj.
  - done.
  - intros l Hl. unfold Message.__init__.
    by replace (List.length l =? 6)%nat with false by lia.
  - done.
  - intros s Hp. by apply init_name.
  - intros s Hp Hne. rewrite init_bytes by done.
    by replace (truthy (AStr s)) with true by (by destruct s).
  - intros a Ha. unfold Message.__init__.
    by replace (truthy (AArr a)) with true by (by destruct a).
  - intros a Hc Hw. split.
    + destruct (tostring_checked a Hc) as [Hp Ht].
      rewrite init_bytes, Ht by done.
      by rewrite array_L_tostring, bind_Ok, Hc by done.
    + apply check_Ok in Hc as Hc'. destruct Hc' as (H0 & _).
      destruct a as [|x a]; [done|].
      unfold Message.__init__. cbn [truthy List.length Nat.eqb negb array_L].
      by rewrite bind_Ok, Hc.
  - done.
  - done.
Qed.

Lemma init_dispatch_witness :
  Message.__init__ (Message.OfSeq (AInt <$> Stated.fred)) ANone (AInt 0) (AInt 0) (AInt 0)
  = Raise (ValueError (TupleArity 11))
  ∧ Message.__init__ (Message.OfAtom (AStr (tostring Stated.fred)))
                     ANone (AInt 0) (AInt 0) (AInt 0)
    = Ok (Message.mk Stated.fred 11)
  ∧ Message.__init__ (Message.OfAtom (AArr Stated.fred)) ANone (AInt 0) (AInt 0) (AInt 0)
    = Ok (Message.mk Stated.fred 11).
Proof.
  destruct (init_dispatch ANone (AInt 0) (AInt 0) (AInt 0))
    as (_ & Hseq & _ & _ & _ & _ & Hframe & _).
  split.
  - refine (Hseq (AInt <$> Stated.fred) _). simpl. lia.
  - refine (Hframe Stated.fred _ _).
    + by vm_compute.
    + unfold Stated.fred, is_word. repeat (apply Forall_cons_2; [lia|]). apply Forall_nil_2.
Defined.

End dispatch.

(** ** Messages that differ in id and from only: [equivalent] *)

Section equivalent.
Import MessageCodec.

Lemma slice_insert_lt {A} (a : list A) (k : nat) x i j :
  Z.of_nat k < i -> slice (<[k:=x]> a) i j = slice a i j.
Proof.
  intros Hk. unfold slice. rewrite length_insert.
  destruct (decide (List.length a <= k)%nat) as [Hle|Hgt].
  - by rewrite list_insert_ge.
  - change (@skipn A) with (@drop A).
    rewrite drop_insert_lt; [done|].
    unfold clamp. replace (i <? 0) with false by lia. lia.
Qed.

(** [extract] on an array whose fixed fields are known. *)
Lemma extract_unfold m i t f fl n d :
  Message.array m !! 0%nat = Some Message.START_GUARD ->
  last (Message.array m) = Some Message.END_GUARD ->
  Message.array m !! 1%nat = Some i -> Message.array m !! 2%nat = Some t ->
  Message.array m !! 3%nat = Some f -> Message.array m !! 4%nat = Some fl ->
  Message.array m !! 5%nat = Some n -> Message.array m !! 6%nat = Some d ->
  Message.extract m
  = Ok (i, t, f, fl,
        str_upto (tostring (slice (Message.array m) 7 (7 + name_words n))) n,
        slice (Message.array m) (7 + name_words n) (7 + name_words n + d)).
Proof.
  intros H0 Hl H1 H2 H3 H4 H5 H6. unfold Message.extract.
  rewrite (getitem_at _ 0 _ ltac:(done) H0), bind_Ok, Z.eqb_refl.
  cbn [assert]. rewrite bind_Ok.
  rewrite (getitem_last_Some _ _ Hl), bind_Ok, Z.eqb_refl.
  cbn [assert]. rewrite bind_Ok.
  rewrite (getitem_at _ 1 _ ltac:(done) H1), bind_Ok.
  rewrite (getitem_at _ 2 _ ltac:(done) H2), bind_Ok.
  rewrite (getitem_at _ 3 _ ltac:(done) H3), bind_Ok.
  rewrite (getitem_at _ 4 _ ltac:(done) H4), bind_Ok.
  rewrite (getitem_at _ 5 _ ltac:(done) H5), bind_Ok.
  by rewrite (getitem_at _ 6 _ ltac:(done) H6), bind_Ok.
Qed.

(** The fixed fields of a constructed message. *)
Lemma constructed_fields m :
  constructed m ->
  Message.array m !! 0%nat = Some Message.START_GUARD
  ∧ last (Message.array m) = Some Message.END_GUARD
  ∧ (9 <= List.length (Message.array m))%nat
  ∧ ∃ i t f fl n d,
      Message.array m !! 1%nat = Some i ∧ Message.array m !! 2%nat = Some t
      ∧ Message.array m !! 3%nat = Some f ∧ Message.array m !! 4%nat = Some fl
      ∧ Message.array m !! 5%nat = Some n ∧ Message.array m !! 6%nat = Some d
      ∧ 3 <= n ∧ 0 <= d
      ∧ 8 + name_words n + d = Z.of_nat (List.length (Message.array m)).
Proof.
  intros [(H0 & Hl & n & d & H5 & H6 & Hn & Hd & Hlen)%check_Ok _].
  assert (1 <= name_words n) as Hnw
      by (unfold name_words; Z.to_euclidean_division_equations; lia).
  assert (9 <= List.length (Message.array m))%nat as Hlen9 by lia.
  do 3 (split; [done|]).
  destruct (lookup_lt_is_Some_2 (Message.array m) 1) as [i Hi]; [lia|].
  destruct (lookup_lt_is_Some_2 (Message.array m) 2) as [t Ht]; [lia|].
  destruct (lookup_lt_is_Some_2 (Message.array m) 3) as [f Hf]; [lia|].
  destruct (lookup_lt_is_Some_2 (Message.array m) 4) as [fl Hfl]; [lia|].
  by exists i, t, f, fl, n, d.
Qed.

Lemma parts_eqb_true i f t1 fl1 n1 d1 t2 fl2 (n2 : string) (d2 : list Z) :
  Message.parts_eqb (i, t1, f, fl1, n1, d1) (i, t2, f, fl2, n2, d2) = true
  <-> t1 = t2 ∧ fl1 = fl2 ∧ n1 = n2 ∧ d1 = d2.
Proof.
  unfold Message.parts_eqb.
  rewrite !andb_true_iff, !Z.eqb_eq, String.eqb_eq, bool_decide_eq_true.
  tauto.
Qed.

(** What the router does to a frame leaves a constructed message
    constructed, and changes its id and from only. *)
Lemma stamp_constructed m id from_ :
  constructed m ->
  constructed (Message.mk (Kbus.stamp (Message.array m) id from_) (Message.length m))
  ∧ forall i t f fl nm d,
      Message.extract m = Ok (i, t, f, fl, nm, d) ->
      Message.extract (Message.mk (Kbus.stamp (Message.array m) id from_)
                                  (Message.length m))
      = Ok (Kbus.word id, t, Kbus.word (Z.of_N from_), fl, nm, d).
Proof.
  intros Hm.
  destruct (constructed_fields m Hm)
    as (H0 & Hl & Hlen9 & i & t & f & fl & n & d & H1 & H2 & H3 & H4 & H5 & H6
        & Hn & Hd & Hlen).
  destruct Hm as [Hc Hml].
  set (a := Message.array m) in *.
  set (a' := Kbus.stamp a id from_).
  assert (List.length a' = List.length a) as Hlen'
      by (unfold a', Kbus.stamp; by rewrite !length_insert).
  assert (forall k, k ≠ 1%nat -> k ≠ 3%nat -> a' !! k = a !! k) as Hother.
  { intros k Hk1 Hk3. unfold a', Kbus.stamp.
    by rewrite !list_lookup_insert_ne. }
  assert (a' !! 1%nat = Some (Kbus.word id)) as H1'.
  { unfold a', Kbus.stamp. apply list_lookup_insert_eq. rewrite length_insert. lia. }
  assert (a' !! 3%nat = Some (Kbus.word (Z.of_N from_))) as H3'.
  { unfold a', Kbus.stamp. rewrite list_lookup_insert_ne by done.
    apply list_lookup_insert_eq. lia. }
  assert (last a' = Some Message.END_GUARD) as Hl'.
  { rewrite last_lookup, Hlen', Hother by lia. by rewrite <- last_lookup. }
  assert (forall lo hi, 7 <= lo -> slice a' lo hi = slice a lo hi) as Hslice.
  { intros lo hi Hlo. unfold a', Kbus.stamp.
    rewrite !slice_insert_lt; [done|lia..]. }
  split.
  - split; [|cbn [Message.array Message.length]; by rewrite Hlen'].
    cbn [Message.array]. apply check_Ok.
    rewrite Hother, Hl' by done. do 2 (split; [done|]).
    exists n, d. rewrite !Hother, Hlen' by done. by repeat split.
  - intros i0 t0 f0 fl0 nm d0 He.
    rewrite (extract_unfold m i t f fl n d) in He by done.
    rewrite (extract_unfold _ (Kbus.word id) t (Kbus.word (Z.of_N from_)) fl n d);
      cbn [Message.array];
      rewrite ?Hother by done; try done.
    assert (0 <= name_words n)
      by (unfold name_words; Z.to_euclidean_division_equations; lia).
    rewrite !Hslice by lia. fold a in He. by simplify_eq.
Qed.

Lemma extract_constructed m :
  constructed m -> ∃ i t f fl nm d, Message.extract m = Ok (i, t, f, fl, nm, d).
Proof.
  intros Hm.
  destruct (constructed_fields m Hm)
    as (H0 & Hl & _ & i & t & f & fl & n & d & H1 & H2 & H3 & H4 & H5 & H6 & _).
  do 6 eexists. by apply (extract_unfold m i t f fl n d).
Qed.

(** A message is equivalent to what the router makes of it. *)
Lemma equivalent_stamp m id from_ :
  constructed m ->
  Message.equivalent
    m (Message.mk (Kbus.stamp (Message.array m) id from_) (Message.length m))
  = Ok true.
Proof.
  intros Hm.
  destruct (extract_constructed m Hm) as (i1 & t1 & f1 & fl1 & n1 & d1 & He1).
  destruct (stamp_constructed m id from_ Hm) as [_ Hst].
  specialize (Hst _ _ _ _ _ _ He1).
  unfold Message.equivalent. cbn [Message.length].
  rewrite Nat.eqb_refl. cbn [negb]. rewrite He1, Hst, !bind_Ok.
  f_equal. by apply parts_eqb_true.
Qed.

(** What [encode] gives for a name with the prefix: a constructed message
    that holds the arguments, with the id 0. *)
Lemma encode_extract name payload to from_ flags m :
  String.prefix "$." name = true ->
  encode name payload to from_ flags = Ok m ->
  constructed m
  ∧ Message.extract m = Ok (0, to, from_, flags, name, words payload)
  ∧ tostring (words payload) = payload
  ∧ Z.of_nat (Message.length m)
    = 8 + name_words (Z.of_nat (String.length name))
      + Z.of_nat (List.length (words payload)).
Proof.
  intros Hp He. split.
  { apply (init_checked (Message.OfAtom (AStr name)) (AStr payload)
             (AInt to) (AInt from_) (AInt flags)). exact He. }
  assert (is_word to ∧ is_word from_ ∧ is_word flags ∧ fits name payload)
    as (Hto & Hfrom & Hflags & Hfits).
  { unfold encode in He. rewrite init_name in He by done.
    destruct (Message._from_data (AStr name) (AStr payload) (AInt to)
                                 (AInt from_) (AInt flags)) as [a'|] eqn:Hfd; [|done].
    apply from_data_Ok_inv in Hfd. tauto. }
  rewrite (encode_cases name payload to from_ flags Hp Hto Hfrom Hflags Hfits) in He.
  destruct (String.length payload mod 4 =? 0)%nat eqn:Hmod; [|done].
  cbn [negb] in He. destruct (String.length name <? 3)%nat; [done|].
  cbv zeta in He. injection He as <-.
  split; [apply extract_layout|]. split; [apply tostring_words; lia|].
  cbn [Message.length]. apply (length_layout name (words payload) to from_ flags).
Qed.

(** C9: for every pair of messages a, b, [equivalent] returns true if and
    only if a and b have the same length and agree on to, flags, name and
    payload, whatever their id and from fields are.  The four are read off
    the words of the two frames: to is word 2, flags word 4, the name the
    bytes of the words from word 7 on, as many as word 5 says, and the
    payload the words after the name, as many as word 6 says.  So a message
    is equivalent to what the router makes of it, which differs in id and
    from only; and two messages made by [encode], whatever the router has
    written to their id and from, are equivalent exactly when they were
    made from the same to, flags, name and payload. *)
Theorem equivalent_iff a b :
  constructed a -> constructed b ->
  (∃ ta fla na da tb flb nb db same,
      Message.array a !! 2%nat = Some ta ∧ Message.array a !! 4%nat = Some fla
      ∧ Message.array a !! 5%nat = Some na ∧ Message.array a !! 6%nat = Some da
      ∧ Message.array b !! 2%nat = Some tb ∧ Message.array b !! 4%nat = Some flb
      ∧ Message.array b !! 5%nat = Some nb ∧ Message.array b !! 6%nat = Some db
      ∧ Message.equivalent a b = Ok same
      ∧ (same = true <->
         List.length (Message.array a) = List.length (Message.array b)
         ∧ ta = tb ∧ fla = flb
         ∧ str_upto (tostring (slice (Message.array a) 7 (7 + name_words na))) na
           = str_upto (tostring (slice (Message.array b) 7 (7 + name_words nb))) nb
         ∧ slice (Message.array a) (7 + name_words na) (7 + name_words na + da)
           = slice (Message.array b) (7 + name_words nb) (7 + name_words nb + db)))
  ∧ (forall id from_,
        Message.equivalent
          a (Message.mk (Kbus.stamp (Message.array a) id from_) (Message.length a))
        = Ok true)
  ∧ (forall name1 payload1 to1 from1 flags1 name2 payload2 to2 from2 flags2
            id1 sender1 id2 sender2,
        String.prefix "$." name1 = true -> String.prefix "$." name2 = true ->
        encode name1 payload1 to1 from1 flags1 = Ok a ->
        encode name2 payload2 to2 from2 flags2 = Ok b ->
        Message.equivalent
          (Message.mk (Kbus.stamp (Message.array a) id1 sender1) (Message.length a))
          (Message.mk (Kbus.stamp (Message.array b) id2 sender2) (Message.length b))
        = Ok (bool_decide (to1 = to2 ∧ flags1 = flags2 ∧ name1 = name2
                           ∧ payload1 = payload2))).
Proof.
  intros Ha Hb. split; [|split].
  - destruct (constructed_fields a Ha)
      as (A0 & Al & _ & i1 & t1 & f1 & fl1 & n1 & d1 & A1 & A2 & A3 & A4 & A5 & A6 & _).
    destruct (constructed_fields b Hb)
      as (B0 & Bl & _ & i2 & t2 & f2 & fl2 & n2 & d2 & B1 & B2 & B3 & B4 & B5 & B6 & _).
    exists t1, fl1, n1, d1, t2, fl2, n2, d2.
    unfold Message.equivalent.
    rewrite (extract_unfold a i1 t1 f1 fl1 n1 d1), (extract_unfold b i2 t2 f2 fl2 n2 d2),
      !bind_Ok by done.
    destruct Ha as [_ <-], Hb as [_ <-].
    destruct (Message.length a =? Message.length b)%nat eqn:Hlen; cbn [negb].
    + eexists. do 9 (split; [done|]).
      rewrite parts_eqb_true. apply Nat.eqb_eq in Hlen. tauto.
    + exists false. do 9 (split; [done|]).
      apply Nat.eqb_neq in Hlen. split; [done|]. tauto.
  - intros id from_. by apply equivalent_stamp.
  - intros name1 payload1 to1 from1 flags1 name2 payload2 to2 from2 flags2
           id1 sender1 id2 sender2 Hp1 Hp2 He1 He2.
    destruct (encode_extract _ _ _ _ _ _ Hp1 He1) as (_ & Hx1 & Ht1 & Hl1).
    destruct (encode_extract _ _ _ _ _ _ Hp2 He2) as (_ & Hx2 & Ht2 & Hl2).
    destruct (stamp_constructed a id1 sender1 Ha) as [_ Hs1].
    destruct (stamp_constructed b id2 sender2 Hb) as [_ Hs2].
    unfold Message.equivalent. cbn [Message.length].
    rewrite (Hs1 _ _ _ _ _ _ Hx1), (Hs2 _ _ _ _ _ _ Hx2), !bind_Ok.
    destruct (Message.length a =? Message.length b)%nat eqn:Hlen; cbn [negb].
    + f_equal.
      destruct (Message.parts_eqb _ _) eqn:Hparts; symmetry.
      * apply parts_eqb_true in Hparts as (-> & -> & -> & Hw).
        apply bool_decide_eq_true. do 3 (split; [done|]).
        by rewrite <- Ht1, <- Ht2, Hw.
      * apply bool_decide_eq_false. intros (-> & -> & -> & ->).
        assert (Message.parts_eqb
                  (Kbus.word id2, to2, Kbus.word (Z.of_N sender2), flags2, name2,
                   words payload2)
                  (Kbus.word id2, to2, Kbus.word (Z.of_N sender2), flags2, name2,
                   words payload2) = true) as Hrefl by (by apply parts_eqb_true).
        congruence.
    + f_equal. symmetry. apply bool_decide_eq_false. intros (_ & _ & -> & ->).
      apply Nat.eqb_neq in Hlen. lia.
Qed.

Lemma equivalent_iff_witness :
  Message.equivalent (Message.mk Stated.fred 11)
                     (Message.mk (Kbus.stamp Stated.fred 42 7%N) 11)
  = Ok true
  ∧ Message.equivalent
      (Message.mk (Kbus.stamp Stated.fred 1 1%N) 11)
      (Message.mk (Kbus.stamp (layout "$.Fred" (words "1234") 5 0 0) 2 1%N) 11)
    = Ok false.
Proof.
  assert (constructed (Message.mk Stated.fred 11)) as Ha by (by vm_compute).
  assert (constructed (Message.mk (layout "$.Fred" (words "1234") 5 0 0) 11)) as Hb
      by (by vm_compute).
  destruct (equivalent_iff _ _ Ha Hb) as (_ & Hstamp & Henc).
  split; [exact (Hstamp 42 7%N)|].
  exact (Henc "$.Fred" "1234" 0 0 0 "$.Fred" "1234" 5 0 0 1 1%N 2 1%N
              eq_refl eq_refl eq_refl eq_refl).
Defined.

End equivalent.

(** ** The router *)

Section router.
Import MessageCodec Kbus.























End router.

Section routing.
Import MessageCodec Kbus.

(** A constructed message has a name for the router to look up. *)
Lemma name_of_constructed m :
  constructed m ->
  ∃ n, name_of (Message.array m) = Ok n
       ∧ ∃ i t f fl d, Message.extract m = Ok (i, t, f, fl, n, d).
Proof.
  intros Hm.
  destruct (constructed_fields m Hm)
    as (H0 & Hl & _ & i & t & f & fl & n & d & H1 & H2 & H3 & H4 & H5 & H6 & _).
  eexists. split.
  - unfold name_of.
    rewrite (extract_unfold (Message.mk (Message.array m) _) i t f fl n d) by done.
    by rewrite bind_Ok.
  - do 5 eexists. cbn [fst snd Message.array].
    by rewrite (extract_unfold m i t f fl n d).
Qed.

Lemma write_unfold b sender frame n :
  Message._check frame = Ok tt -> name_of frame = Ok n ->
  write sender frame b
  = match matching n (bindings b) with
    | [] => (Failed (IOError EADDRNOTAVAIL), b)
    | dests => (Done tt, deliver sender frame dests b)
    end.
Proof. intros Hc Hn. unfold write. by rewrite Hc, Hn. Qed.

(** The Bindings are never touched by a write. *)
Lemma write_bindings b sender frame :
  bindings (write sender frame b).2 = bindings b.
Proof.
  unfold write.
  destruct (Message._check frame) as [[]|]; [|done].
  destruct (name_of frame) as [n|]; [|done].
  by destruct (matching n (bindings b)) as [|x dests] eqn:E.
Qed.

(** C4: for every Bus state, sending a message whose name has no matching
    Binding fails with AddressNotAvailable (EADDRNOTAVAIL) and leaves the Bus
    as it was: the id counter is not advanced, so that the next send gets
    the id this one would have got, and no queue is modified. *)
Theorem write_no_listener b sender m :
  constructed m ->
  ∃ n, name_of (Message.array m) = Ok n
       ∧ (matching n (bindings b) = [] ->
          write sender (Message.array m) b = (Failed (IOError EADDRNOTAVAIL), b)
          ∧ last_msg_id (write sender (Message.array m) b).2 = last_msg_id b
          ∧ (forall e, pending (write sender (Message.array m) b).2 e = pending b e)
          ∧ forall sender' frame',
              write sender' frame' (write sender (Message.array m) b).2
              = write sender' frame' b).
Proof.
  intros Hm. destruct (name_of_constructed m Hm) as (n & Hn & _).
  exists n. split; [done|]. intros Hnone.
  rewrite (write_unfold b sender _ n) by (done || apply Hm).
  by rewrite Hnone.
Qed.

Lemma write_no_listener_witness :
  write 1%N Stated.fred initial = (Failed (IOError EADDRNOTAVAIL), initial).
Proof.
  assert (constructed (Message.mk Stated.fred 11)) as Hc by (by vm_compute).
  destruct (write_no_listener initial 1%N _ Hc) as (n & Hn & H).
  by destruct (H eq_refl) as [-> _].
Defined.


End routing.

(** ** The tests of [kbus.py] on the Bus *)

Section tests.
Import MessageCodec Kbus.

(** The tests pass on the Bus as modelled. *)
Lemma tests_pass :
  (TestKernelModule.test_readwrite_kbus0 write initial).1 = Done tt
  ∧ (TestKernelModule.test_two_opens_kbus0 write initial).1 = Done tt
  ∧ (TestKernelModule.test_many_bind_3 initial).1 = Done tt
  ∧ (TestKernelModule.test_bind_more initial).1 = Done tt
  ∧ (TestKernelModule.test_rw_single_file write initial).1 = Done tt
  ∧ (TestKernelModule.test_read_write_2files write initial).1 = Done tt.
Proof. repeat split; by vm_compute. Qed.

(** With one id for all the copies of a write, test_read_write_2files fails
    on one of its assertions. *)
Lemma shared_id_fails_test :
  (TestKernelModule.test_read_write_2files write_shared_id initial).1
  = Failed (PyError AssertionError).
Proof. by vm_compute. Qed.



End tests.

(** ** The binding table *)

Section binding_table.
Import Kbus.

Lemma has_replier_true n t :
  has_replier n t = true <-> ∃ x, x ∈ t ∧ is_replier x = true ∧ name x = n.
Proof. unfold has_replier. by rewrite bool_decide_eq_true, Exists_exists. Qed.

Lemma elem_of_repliers n t :
  n ∈ repliers t <-> ∃ x, x ∈ t ∧ is_replier x = true ∧ name x = n.
Proof.
  unfold repliers. rewrite list_elem_of_fmap. split.
  - intros (x & -> & [Hr Hx]%list_elem_of_filter). by exists x.
  - intros (x & Hx & Hr & <-). exists x. split; [done|].
    by apply list_elem_of_filter.
Qed.

Lemma filter_sublist_mono {A} (P : A -> Prop) `{forall x, Decision (P x)} (l1 l2 : list A) :
  l1 `sublist_of` l2 -> filter P l1 `sublist_of` filter P l2.
Proof.
  induction 1 as [|x l1 l2 Hs IH|x l1 l2 Hs IH]; [done| |].
  - rewrite !filter_cons. destruct (decide (P x)); [by constructor|done].
  - rewrite filter_cons. destruct (decide (P x)); [by constructor|done].
Qed.

Lemma table_ok_sublist t' t : t' `sublist_of` t -> table_ok t -> table_ok t'.
Proof.
  intros Hs [Hne Hnd]. split.
  - apply Forall_forall. intros x Hx.
    apply (proj1 (Forall_forall _ _) Hne). by eapply elem_of_sublist.
  - eapply sublist_NoDup; [exact Hnd|].
    unfold repliers. by apply fmap_sublist, filter_sublist_mono.
Qed.

Lemma remove_first_sublist x t : remove_first x t `sublist_of` t.
Proof.
  induction t as [|y t IH]; [done|]. simpl.
  destruct (decide (y = x)); by constructor.
Qed.

(** Removing the first copy of [x]: what is ahead of it stays, what follows
    it stays. *)
Lemma remove_first_split x t :
  x ∈ t -> ∃ l1 l2, t = l1 ++ x :: l2 ∧ (x ∉ l1) ∧ remove_first x t = l1 ++ l2.
Proof.
  induction t as [|y t IH]; [by intros ?%elem_of_nil|].
  intros Hx. simpl. destruct (decide (y = x)) as [->|Hne].
  - exists [], t. split; [done|]. split; [apply not_elem_of_nil|done].
  - apply elem_of_cons in Hx as [->|Hx]; [done|].
    destruct (IH Hx) as (l1 & l2 & -> & Hl1 & ->).
    exists (y :: l1), l2. split; [done|]. split; [|done].
    rewrite not_elem_of_cons. by split.
Qed.

Lemma bind_table_ok e n r g b :
  table_ok (bindings b) -> table_ok (bindings (bind e n r g b).2).
Proof.
  intros [Hne Hnd]. unfold bind.
  destruct (bool_decide (n = "")) eqn:En; [done|].
  apply bool_decide_eq_false in En.
  destruct (r && has_replier n (bindings b)) eqn:Er; [done|].
  cbn [snd bindings]. split.
  - apply Forall_app. split; [done|]. by repeat constructor.
  - unfold repliers. rewrite filter_app, fmap_app.
    apply NoDup_app. split; [done|].
    rewrite filter_cons, filter_nil. cbn [is_replier].
    destruct (decide (r = true)) as [->|Hr]; cbn [fmap list_fmap name].
    + split; [|apply NoDup_singleton].
      intros n' Hn' ->%list_elem_of_singleton.
      apply elem_of_repliers, has_replier_true in Hn'.
      by rewrite Hn' in Er.
    + split; [|apply NoDup_nil_2]. by intros n' _ ?%elem_of_nil.
Qed.

(** Every Bus that can be reached has a table with no empty name and no
    name with two repliers. *)
Lemma reachable_table_ok b : reachable b -> table_ok (bindings b).
Proof.
  induction 1 as [|r b Hb IH].
  - split; [constructor|apply NoDup_nil_2].
  - destruct r as [|e|e n r g|e n r g|e frame|e n|]; cbn [perform].
    + done.
    + eapply table_ok_sublist; [|exact IH]. apply sublist_filter.
    + by apply bind_table_ok.
    + unfold unbind. destruct (bool_decide _); [|done].
      eapply table_ok_sublist; [|exact IH]. apply remove_first_sublist.
    + by rewrite write_bindings.
    + unfold read. destruct (pending b e); [done|].
      by destruct (n =? _).
    + split; [constructor|apply NoDup_nil_2].
Qed.

(** C3: for every state of the binding table and every name N, binding as
    replier to N fails with AddressInUse (EADDRINUSE) if and only if a
    replier Binding to exactly N is there already, and then leaves the table
    as it was; so no name ever has two replier Bindings across the whole
    Bus, while a listener Binding to a name is always accepted, also when it
    duplicates one that is there. *)
Theorem bind_replier b e n g :
  reachable b ->
  ((bind e n true g b).1 = Failed (IOError EADDRINUSE)
   <-> ∃ x, x ∈ bindings b ∧ is_replier x = true ∧ name x = n)
  ∧ ((bind e n true g b).1 = Failed (IOError EADDRINUSE) -> (bind e n true g b).2 = b)
  ∧ NoDup (repliers (bindings b))
  ∧ NoDup (repliers (bindings (bind e n true g b).2))
  ∧ (forall e' g', n ≠ "" ->
        bind e' n false g' b
        = (Done tt, mkBus (bindings b ++ [mkBinding e' false g' n])
                          (last_msg_id b) (last_endpoint b) (queues b)))
  ∧ (forall x, x ∈ bindings b ->
          bind (bound_to x) (name x) false (is_guaranteed x) b
          = (Done tt,
             mkBus (bindings b
                    ++ [mkBinding (bound_to x) false (is_guaranteed x) (name x)])
                   (last_msg_id b) (last_endpoint b) (queues b))).
Proof.
  intros Hb. pose proof (reachable_table_ok b Hb) as [Hne Hnd].
  split; [|split; [|split; [|split; [|split]]]].
  - rewrite <- has_replier_true. unfold bind.
    destruct (bool_decide (n = "")) eqn:En.
    + apply bool_decide_eq_true in En as ->. cbn [fst]. split; [done|].
      intros (x & Hx & _ & Hn)%has_replier_true.
      by destruct (proj1 (Forall_forall _ _) Hne x Hx).
    + cbn [andb]. by destruct (has_replier n (bindings b)).
  - unfold bind. destruct (bool_decide (n = "")); [done|].
    cbn [andb]. by destruct (has_replier n (bindings b)).
  - done.
  - apply (bind_table_ok e n true g b). by split.
  - intros e' g' Hn. unfold bind.
    by rewrite bool_decide_eq_false_2.
  - intros x Hx. unfold bind.
    rewrite bool_decide_eq_false_2; [done|].
    by apply (proj1 (Forall_forall _ _) Hne x Hx).
Qed.

Lemma bind_replier_witness :
  (bind 2%N "$.Fred" true false Stated.two_files).1 = Failed (IOError EADDRINUSE)
  ∧ (bind 2%N "$.Fred" false false Stated.two_files).1 = Done tt.
Proof.
  assert (reachable Stated.two_files) as Hr.
  { assert (Stated.two_files
            = perform (Bind 2%N "$.Jim" true false)
                (perform (Bind 1%N "$.Fred" false false)
                   (perform (Bind 1%N "$.Fred" false false)
                      (perform (Bind 1%N "$.Fred" true false)
                         (perform Attach (perform Attach initial)))))) as ->
        by (by vm_compute).
    repeat apply reachable_perform. apply reachable_initial. }
  destruct (bind_replier Stated.two_files 2%N "$.Fred" false Hr)
    as (Hiff & _ & _ & _ & Hl & _).
  split.
  - apply Hiff. exists (mkBinding 1%N true false "$.Fred").
    split; [|done].
    change (bindings Stated.two_files)
      with (mkBinding 1%N true false "$.Fred" :: tail (bindings Stated.two_files)).
    apply list_elem_of_here.
  - by rewrite Hl.
Defined.

End binding_table.

Section unbinding.
Import Kbus.

Lemma remove_first_app x t l : x ∉ t -> remove_first x (t ++ x :: l) = t ++ l.
Proof.
  induction t as [|y t IH]; intros Hx; simpl.
  - by rewrite decide_True.
  - apply not_elem_of_cons in Hx as [Hne Hx].
    rewrite decide_False by done. by rewrite IH.
Qed.

Lemma times_S k (call : io unit) b :
  times (S k) call b
  = match call b with
    | (Done _, b') => times k call b'
    | (Failed f, b') => (Failed f, b')
    end.
Proof. reflexivity. Qed.

(** [k] binds that all succeed add [k] copies of the Binding at the end of
    the table. *)
Lemma times_bind k e n r g b b1 :
  times k (bind e n r g) b = (Done tt, b1) ->
  b1 = mkBus (bindings b ++ replicate k (mkBinding e r g n))
             (last_msg_id b) (last_endpoint b) (queues b).
Proof.
  revert b. induction k as [|k IH]; intros b.
  - intros [= <-]. destruct b. cbn. by rewrite app_nil_r.
  - rewrite times_S. unfold bind at 1.
    destruct (bool_decide (n = "")); [done|].
    destruct (r && has_replier n (bindings b)); [done|].
    intros ->%IH. cbn [bindings last_msg_id last_endpoint queues].
    by rewrite <- app_assoc.
Qed.

(** [k] unbinds take [k] copies away again. *)
Lemma times_unbind k e n r g t i le q :
  mkBinding e r g n ∉ t ->
  times k (unbind e n r g) (mkBus (t ++ replicate k (mkBinding e r g n)) i le q)
  = (Done tt, mkBus t i le q).
Proof.
  intros Hx. induction k as [|k IH].
  - cbn. by rewrite app_nil_r.
  - rewrite times_S. unfold unbind at 1. cbn [bindings last_msg_id last_endpoint queues].
    rewrite bool_decide_eq_true_2
      by (apply elem_of_app; right; apply list_elem_of_here).
    cbn [replicate]. by rewrite remove_first_app.
Qed.

(** C5: for every state of the binding table, unbind removes exactly one
    Binding equal to its arguments in all four fields, the first in
    insertion order when there are several, and leaves the others in place;
    when no Binding is equal in all four fields it fails with
    InvalidArgument (EINVAL) and leaves the table as it was.  So after k
    identical binds that succeeded, k identical unbinds succeed, giving back
    the table from before, and one more fails. *)
Theorem unbind_exact b e n r g :
  let x := mkBinding e r g n in
  (x ∉ bindings b -> unbind e n r g b = (Failed (IOError EINVAL), b))
  ∧ (x ∈ bindings b ->
     ∃ l1 l2, bindings b = l1 ++ x :: l2 ∧ (x ∉ l1)
              ∧ unbind e n r g b
                = (Done tt, mkBus (l1 ++ l2) (last_msg_id b) (last_endpoint b) (queues b)))
  ∧ (forall k b1, x ∉ bindings b ->
        times k (bind e n r g) b = (Done tt, b1) ->
        bindings b1 = bindings b ++ replicate k x
        ∧ times k (unbind e n r g) b1 = (Done tt, b)
        ∧ unbind e n r g b = (Failed (IOError EINVAL), b))
  ∧ (forall k, n ≠ "" -> r = false -> ∃ b1, times k (bind e n r g) b = (Done tt, b1)).
Proof.
  intros x.
  assert (x ∉ bindings b -> unbind e n r g b = (Failed (IOError EINVAL), b)) as Hnone.
  { intros Hx. unfold unbind. by rewrite bool_decide_eq_false_2. }
  split; [done|]. split; [|split].
  - intros Hx. destruct (remove_first_split x (bindings b) Hx) as (l1 & l2 & Ht & Hl1 & Hr).
    exists l1, l2. do 2 (split; [done|]).
    unfold unbind. rewrite bool_decide_eq_true_2 by done.
    fold x. by rewrite Hr.
  - intros k b1 Hx Hb. apply times_bind in Hb as ->.
    cbn [bindings]. split; [done|]. split; [|by apply Hnone].
    rewrite times_unbind by done. by destruct b.
  - intros k Hn ->. clear Hnone x. revert b. induction k as [|k IH]; intros b.
    + by eexists.
    + rewrite times_S. unfold bind at 1.
      rewrite bool_decide_eq_false_2 by done. cbn [andb]. apply IH.
Qed.

Lemma unbind_exact_witness :
  ∃ b1, times 3 (bind 1%N "$.Fred" false false) initial = (Done tt, b1)
        ∧ times 3 (unbind 1%N "$.Fred" false false) b1 = (Done tt, initial)
        ∧ unbind 1%N "$.Fred" false false initial = (Failed (IOError EINVAL), initial).
Proof.
  destruct (unbind_exact initial 1%N "$.Fred" false false) as (_ & _ & H3 & H4).
  destruct (H4 3%nat) as [b1 Hb1]; [done|done|].
  exists b1. split; [done|].
  apply (H3 3%nat b1); [|done]. apply not_elem_of_nil.
Defined.

End unbinding.

(** * Further properties of [kbus.py] *)

(** ** What [extract] returns *)

Section parts.
Import MessageCodec.

Lemma length_slice_nat {A} (a : list A) (i j : nat) :
  (i <= j <= List.length a)%nat ->
  List.length (slice a (Z.of_nat i) (Z.of_nat j)) = (j - i)%nat.
Proof.
  intros Hij. rewrite slice_nat by lia.
  rewrite length_take, length_drop. lia.
Qed.

Lemma length_slice {A} (a : list A) (i j : Z) :
  0 <= i <= j -> j <= Z.of_nat (List.length a) ->
  List.length (slice a i j) = Z.to_nat (j - i).
Proof.
  intros Hij Hj.
  rewrite <- (Z2Nat.id i), <- (Z2Nat.id j) at 1 by lia.
  rewrite length_slice_nat by lia. lia.
Qed.

Lemma length_str_upto s (n : nat) :
  (n <= String.length s)%nat -> String.length (str_upto s (Z.of_nat n)) = n.
Proof.
  intros Hn. unfold str_upto. rewrite length_string_of_list.
  rewrite (length_slice_nat _ 0 n) by (rewrite length_list_ascii; lia). lia.
Qed.

(** The two outcomes of [equivalent] on messages whose parts are known. *)
Lemma equivalent_parts a b i1 t1 f1 fl1 n1 d1 i2 t2 f2 fl2 n2 d2 :
  Message.extract a = Ok (i1, t1, f1, fl1, n1, d1) ->
  Message.extract b = Ok (i2, t2, f2, fl2, n2, d2) ->
  Message.equivalent a b
  = Ok (bool_decide (Message.length a = Message.length b
                     ∧ t1 = t2 ∧ fl1 = fl2 ∧ n1 = n2 ∧ d1 = d2)).
Proof.
  intros Ha Hb. unfold Message.equivalent. rewrite Ha, Hb, !bind_Ok.
  destruct (Message.length a =? Message.length b)%nat eqn:Hlen; cbn [negb].
  - apply Nat.eqb_eq in Hlen. f_equal.
    destruct (Message.parts_eqb _ _) eqn:Hp.
    + apply parts_eqb_true in Hp. symmetry. apply bool_decide_eq_true. tauto.
    + symmetry. apply bool_decide_eq_false. intros (_ & H).
      apply (parts_eqb_true i2 f2) in H. congruence.
  - apply Nat.eqb_neq in Hlen. f_equal. symmetry.
    apply bool_decide_eq_false. tauto.
Qed.

(** The parts of a constructed message and the fields they come from. *)
Lemma constructed_parts m :
  constructed m ->
  ∃ i t f fl nm d,
    Message.extract m = Ok (i, t, f, fl, nm, d)
    ∧ Message.array m !! 1%nat = Some i ∧ Message.array m !! 2%nat = Some t
    ∧ Message.array m !! 3%nat = Some f ∧ Message.array m !! 4%nat = Some fl
    ∧ Message.array m !! 5%nat = Some (Z.of_nat (String.length nm))
    ∧ Message.array m !! 6%nat = Some (Z.of_nat (List.length d))
    ∧ (3 <= String.length nm)%nat
    ∧ Z.of_nat (Message.length m)
      = 8 + (Z.of_nat (String.length nm) + 3) / 4 + Z.of_nat (List.length d).
Proof.
  intros Hm.
  destruct (constructed_fields m Hm)
    as (H0 & Hl & Hlen9 & i & t & f & fl & n & d & H1 & H2 & H3 & H4 & H5 & H6
        & Hn & Hd & Hlen).
  destruct Hm as [_ Hml].
  assert (1 <= name_words n) as Hnw1
      by (unfold name_words; Z.to_euclidean_division_equations; lia).
  assert (n <= 4 * name_words n) as Hn4
      by (unfold name_words; Z.to_euclidean_division_equations; lia).
  remember (Message.array m) as a eqn:Ea.
  assert (∃ nw : nat, name_words n = Z.of_nat nw) as [nw Enw]
      by (exists (Z.to_nat (name_words n)); lia).
  assert (∃ dn : nat, d = Z.of_nat dn) as [dn ->] by (exists (Z.to_nat d); lia).
  assert (∃ nn : nat, n = Z.of_nat nn) as [nn ->] by (exists (Z.to_nat n); lia).
  exists i, t, f, fl,
    (str_upto (tostring (slice a 7 (7 + name_words (Z.of_nat nn)))) (Z.of_nat nn)),
    (slice a (7 + name_words (Z.of_nat nn)) (7 + name_words (Z.of_nat nn) + Z.of_nat dn)).
  split; [rewrite Ea in *; by apply (extract_unfold m i t f fl (Z.of_nat nn) (Z.of_nat dn))|].
  rewrite Enw in *.
  unfold name_words in Enw.
  assert (String.length
            (str_upto (tostring (slice a 7 (7 + Z.of_nat nw))) (Z.of_nat nn))
          = nn) as ->.
  { apply length_str_upto.
    rewrite length_tostring, length_slice by lia. lia. }
  rewrite length_slice by lia.
  replace (Z.to_nat (7 + Z.of_nat nw + Z.of_nat dn - (7 + Z.of_nat nw))) with dn by lia.
  rewrite Hml.
  do 6 (split; [done|]). split; lia.
Qed.

(** X1: [extract] never fails on a constructed message, and its parts have
    the sizes the frame declares: the name is exactly as long as word 5
    says, at least 3 bytes, the payload has as many words as word 6 says,
    and header, name, payload and end guard account for every word.  A
    message is never shorter than 9 words, and [to_file] writes 4 bytes for
    each word of [length]. *)
Theorem extract_sizes m :
  constructed m ->
  ∃ i t f fl nm d,
    Message.extract m = Ok (i, t, f, fl, nm, d)
    ∧ Message.array m !! 1%nat = Some i ∧ Message.array m !! 2%nat = Some t
    ∧ Message.array m !! 3%nat = Some f ∧ Message.array m !! 4%nat = Some fl
    ∧ Message.array m !! 5%nat = Some (Z.of_nat (String.length nm))
    ∧ Message.array m !! 6%nat = Some (Z.of_nat (List.length d))
    ∧ (3 <= String.length nm)%nat
    ∧ Z.of_nat (Message.length m)
      = 8 + (Z.of_nat (String.length nm) + 3) / 4 + Z.of_nat (List.length d)
    ∧ (9 <= Message.length m)%nat
    ∧ String.length (Message.to_bytes m) = (4 * Message.length m)%nat.
Proof.
  intros Hm.
  destruct (constructed_parts m Hm)
    as (i & t & f & fl & nm & d & He & H1 & H2 & H3 & H4 & H5 & H6 & Hn & Hlen).
  exists i, t, f, fl, nm, d. do 9 (split; [done|]).
  split.
  - assert (1 <= (Z.of_nat (String.length nm) + 3) / 4)
      by (Z.to_euclidean_division_equations; lia).
    lia.
  - unfold Message.to_bytes. rewrite length_tostring. by destruct Hm as [_ ->].
Qed.

Lemma extract_sizes_witness :
  ∃ i t f fl nm d,
    Message.extract (Message.mk Stated.fred 11) = Ok (i, t, f, fl, nm, d)
    ∧ String.length nm = 6%nat ∧ List.length d = 1%nat.
Proof.
  assert (constructed (Message.mk Stated.fred 11)) as Hc by (by vm_compute).
  destruct (extract_sizes _ Hc)
    as (i & t & f & fl & nm & d & He & _ & _ & _ & _ & H5 & H6 & _).
  exists i, t, f, fl, nm, d. split; [exact He|].
  change (Some 6 = Some (Z.of_nat (String.length nm))) in H5.
  change (Some 1 = Some (Z.of_nat (List.length d))) in H6.
  injection H5 as H5. injection H6 as H6.
  split; lia.
Defined.

(** A tuple or list of six values goes to [_from_data] with its last two
    and its three middle values. *)
Lemma init_seq id to' from' flags' name' data' data to from_ flags :
  Message.__init__ (Message.OfSeq [id; to'; from'; flags'; name'; data'])
                   data to from_ flags
  = (a ← Message._from_data name' data' to' from' flags';
     Message._check a;; Ok (Message.mk a (List.length a))).
Proof. reflexivity. Qed.

(** X2: the tuple (or list) form of [Message] never looks at the "$."
    prefix: any name of at least 3 bytes, with or without the prefix, is
    encoded into the frame of the wire format, whatever the first value of
    the tuple (the id) and whatever the separate data, to, from and flags
    arguments are; the id of the result is 0. *)
Theorem seq_name_unchecked id name data ws to from_ flags data0 to0 from0 flags0 :
  (3 <= String.length name)%nat -> payload_of data = Some ws ->
  is_word to -> is_word from_ -> is_word flags ->
  is_word (Z.of_nat (String.length name)) -> is_word (Z.of_nat (List.length ws)) ->
  ∃ m, Message.__init__
         (Message.OfSeq [id; AInt to; AInt from_; AInt flags; AStr name; data])
         data0 to0 from0 flags0 = Ok m
       ∧ Message.array m = layout name ws to from_ flags
       ∧ Message.extract m = Ok (0, to, from_, flags, name, ws).
Proof.
  intros Hlen Hdata Hto Hfrom Hflags Hn Hw.
  rewrite init_seq.
  rewrite (from_data_layout name data ws) by done.
  rewrite bind_Ok, check_layout, bind_Ok by done.
  eexists. split; [done|]. split; [done|]. apply extract_layout.
Qed.

Lemma seq_name_unchecked_witness :
  ∃ m, Message.__init__
         (Message.OfSeq [ANone; AInt 0; AInt 0; AInt 0; AStr "Fred"; AStr "1234"])
         ANone ANone ANone ANone = Ok m
       ∧ Message.array m = layout "Fred" (words "1234") 0 0 0
       ∧ Message.extract m = Ok (0, 0, 0, 0, "Fred", words "1234").
Proof.
  assert (is_word 0) as H0 by (unfold is_word; lia).
  apply (seq_name_unchecked ANone "Fred" (AStr "1234") (words "1234") 0 0 0);
    try exact H0; try reflexivity; try (simpl; lia); unfold is_word; simpl; lia.
Defined.

(** X3: a message rebuilt from the tuple that [extract] returns is
    equivalent to the message it came from: it has the same to, from, flags,
    name and payload, and the id 0 ("this ignores the zeroth element of that
    tuple, which is a message id"). *)
Theorem rebuild_from_extract m i t f fl nm d data0 to0 from0 flags0 :
  constructed m -> Forall is_word (Message.array m) ->
  Message.extract m = Ok (i, t, f, fl, nm, d) ->
  ∃ r, Message.__init__
         (Message.OfSeq [AInt i; AInt t; AInt f; AInt fl; AStr nm; AArr d])
         data0 to0 from0 flags0 = Ok r
       ∧ Message.extract r = Ok (0, t, f, fl, nm, d)
       ∧ Message.length r = Message.length m
       ∧ Message.equivalent m r = Ok true
       ∧ Message.equivalent r m = Ok true.
Proof.
  intros Hm Hw He.
  destruct (constructed_parts m Hm)
    as (i' & t' & f' & fl' & nm' & d' & He' & H1 & H2 & H3 & H4 & H5 & H6 & Hn & Hlen).
  rewrite He in He'. injection He' as <- <- <- <- <- <-.
  pose proof (Forall_lookup_1 _ _ _ _ Hw H2) as Wt.
  pose proof (Forall_lookup_1 _ _ _ _ Hw H3) as Wf.
  pose proof (Forall_lookup_1 _ _ _ _ Hw H4) as Wfl.
  pose proof (Forall_lookup_1 _ _ _ _ Hw H5) as Wn.
  pose proof (Forall_lookup_1 _ _ _ _ Hw H6) as Wd.
  rewrite init_seq.
  rewrite (from_data_layout nm (AArr d) d) by done.
  rewrite bind_Ok, check_layout, bind_Ok by done.
  eexists. split; [done|].
  assert (List.length (layout nm d t f fl) = Message.length m) as Hl.
  { apply Nat2Z.inj. rewrite length_layout. unfold name_words. lia. }
  split; [apply extract_layout|]. split; [done|]. split.
  - rewrite (equivalent_parts _ _ _ _ _ _ _ _ _ _ _ _ _ _ He (extract_layout _ _ _ _ _ _)).
    f_equal. apply bool_decide_eq_true. by cbn [Message.length].
  - rewrite (equivalent_parts _ _ _ _ _ _ _ _ _ _ _ _ _ _ (extract_layout _ _ _ _ _ _) He).
    f_equal. apply bool_decide_eq_true. by cbn [Message.length].
Qed.

Lemma rebuild_from_extract_witness :
  ∃ r, Message.__init__
         (Message.OfSeq [AInt 42; AInt 0; AInt 7; AInt 0; AStr "$.Fred"; AArr [875770417]])
         ANone (AInt 0) (AInt 0) (AInt 0) = Ok r
       ∧ Message.extract r = Ok (0, 0, 7, 0, "$.Fred", [875770417])
       ∧ Message.equivalent (Message.mk (Kbus.stamp Stated.fred 42 7%N) 11) r = Ok true.
Proof.
  destruct (rebuild_from_extract (Message.mk (Kbus.stamp Stated.fred 42 7%N) 11)
              42 0 7 0 "$.Fred" [875770417] ANone (AInt 0) (AInt 0) (AInt 0))
    as (r & Hr & He & _ & Heq & _).
  - by vm_compute.
  - unfold is_word. cbn. unfold Kbus.word.
    repeat (apply Forall_cons_2; [by vm_compute|]). apply Forall_nil_2.
  - by vm_compute.
  - by exists r.
Defined.

End parts.

(** ** Edges of [_from_data] and [_check] *)

Section edges.
Import MessageCodec.

(** X4: a to, from or flags value that does not fit an unsigned 32-bit word
    makes the construction of a message fail with OverflowError, before the
    payload or the length of the name is looked at. *)
Theorem encode_overflow name data to from_ flags :
  String.prefix "$." name = true ->
  ¬ (is_word to ∧ is_word from_ ∧ is_word flags) ->
  Message.__init__ (Message.OfAtom (AStr name)) data (AInt to) (AInt from_) (AInt flags)
  = Raise OverflowError.
Proof.
  intros Hp Hbad. rewrite init_name by done.
  destruct is_word_guards as (Hsg & Heg & H0).
  unfold Message._from_data.
  do 2 (rewrite append_word by done; rewrite bind_Ok).
  destruct (decide (is_word to)) as [Hto|Hto]; [|by rewrite append_overflow].
  rewrite append_word, bind_Ok by done.
  destruct (decide (is_word from_)) as [Hfrom|Hfrom]; [|by rewrite append_overflow].
  rewrite append_word, bind_Ok by done.
  destruct (decide (is_word flags)) as [Hflags|Hflags]; [|by rewrite append_overflow].
  tauto.
Qed.

Lemma encode_overflow_witness :
  encode "$.Fred" "123" (-1) 0 0 = Raise OverflowError
  ∧ encode "$." "1234" 0 0 (2 ^ 32) = Raise OverflowError.
Proof.
  split.
  - apply (encode_overflow "$.Fred" (AStr "123") (-1) 0 0); [reflexivity|].
    unfold is_word. lia.
  - apply (encode_overflow "$." (AStr "1234") 0 0 (2 ^ 32)); [reflexivity|].
    unfold is_word. lia.
Defined.

(** X5: no payload, an empty string and an empty array are the same
    payload: whatever the other arguments are, [Message] gives the same
    result (the same message or the same exception) for the three. *)
Theorem empty_payload arg to from_ flags :
  Message.__init__ arg (AStr "") to from_ flags
  = Message.__init__ arg ANone to from_ flags
  ∧ Message.__init__ arg (AArr []) to from_ flags
    = Message.__init__ arg ANone to from_ flags.
Proof.
  unfold Message.__init__.
  destruct arg as [m|l|[| |s|a]]; [done|done|done|done| |done].
  destruct (String.prefix "$." s); [|done].
  (* the two conversions of the payload end in the same empty array *)
  unfold Message._from_data.
  destruct (append [] (AInt Message.START_GUARD)) as [m0|]; [|done].
  rewrite !bind_Ok.
  destruct (append m0 (AInt 0)) as [m1|]; [|done]. rewrite !bind_Ok.
  destruct (append m1 to) as [m2|]; [|done]. rewrite !bind_Ok.
  destruct (append m2 from_) as [m3|]; [|done]. rewrite !bind_Ok.
  destruct (append m3 flags) as [m4|]; [|done]. rewrite !bind_Ok.
  destruct (len (AStr s)) as [n|]; [|done]. rewrite !bind_Ok.
  destruct (append m4 (AInt (Z.of_nat n))) as [m5|]; [|done]. rewrite !bind_Ok.
  destruct (Message.pad_loop 3 (AStr s)) as [name'|]; [|done].
  done.
Qed.

(** X6: an array that has both guards but fewer than the 7 words of a
    header fails [_check] with IndexError, neither as corrupt nor for its
    name; so does the construction of a message from it or from its bytes. *)
Theorem check_short a :
  a !! 0%nat = Some Message.START_GUARD -> last a = Some Message.END_GUARD ->
  (List.length a < 7)%nat ->
  Message._check a = Raise IndexError
  ∧ (forall data to from_ flags,
        Message.__init__ (Message.OfAtom (AArr a)) data to from_ flags = Raise IndexError)
  ∧ (Forall is_word a -> decode (tostring a) = Raise IndexError).
Proof.
  intros H0 Hl Hlen.
  assert (Message._check a = Raise IndexError) as Hc.
  { unfold Message._check.
    rewrite (getitem_at a 0 _ ltac:(done) H0), bind_Ok, Z.eqb_refl.
    cbn [assert]. rewrite bind_Ok.
    rewrite (getitem_last_Some a _ Hl), bind_Ok, Z.eqb_refl.
    cbn [assert]. rewrite bind_Ok.
    destruct (a !! 5%nat) as [n|] eqn:H5;
      [|by rewrite (getitem_beyond a 5 ltac:(done) H5)].
    rewrite (getitem_at a 5 n ltac:(done) H5), bind_Ok.
    rewrite (getitem_beyond a 6); [done|done|].
    apply lookup_ge_None. simpl. lia. }
  split; [done|]. split.
  - intros data to from_ flags. unfold Message.__init__.
    destruct a as [|x a]; [done|].
    cbn [truthy List.length Nat.eqb negb array_L]. by rewrite bind_Ok, Hc.
  - intros Hw. unfold decode, of_bytes.
    assert (String.prefix "$." (tostring a) = false) as Hp.
    { destruct a as [|x a]; [done|]. simpl in H0. simplify_eq. by vm_compute. }
    rewrite init_bytes by done.
    replace (truthy (AStr (tostring a))) with true.
    2:{ unfold truthy. rewrite length_tostring. by destruct a. }
    by rewrite array_L_tostring, bind_Ok, Hc.
Qed.

Lemma check_short_witness :
  Message._check [Message.START_GUARD; Message.END_GUARD] = Raise IndexError
  ∧ decode (tostring [Message.START_GUARD; Message.END_GUARD]) = Raise IndexError.
Proof.
  destruct (check_short [Message.START_GUARD; Message.END_GUARD]) as (Hc & _ & Hd).
  - reflexivity.
  - reflexivity.
  - simpl. lia.
  - split; [exact Hc|]. apply Hd.
    destruct is_word_guards as (Hsg & Heg & _).
    by repeat apply Forall_cons_2.
Defined.

(** The padding loop with turns to spare. *)
Lemma pad_loop_spare n s :
  Message.pad_loop (3 + n) (AStr s) = Ok (AStr (s ++ padding (String.length s))).
Proof.
  unfold padding.
  pose proof (Nat.mod_upper_bound (String.length s) 4) as Hlt.
  assert (forall t : string, String.length (t ++ String zero "") mod 4
                    = (String.length t mod 4 + 1) mod 4)%nat as Hstep.
  { intros t. rewrite length_string_app. simpl String.length.
    by rewrite Nat.Div0.add_mod_idemp_l. }
  change (3 + n)%nat with (S (S (S n))).
  destruct (String.length s mod 4)%nat as [|[|[|[|r]]]] eqn:E; [| | | |lia].
  - rewrite pad_loop_done by done. by rewrite string_app_empty.
  - rewrite (pad_loop_turn _ _ _ E).
    rewrite (pad_loop_turn _ _ 1) by (by rewrite Hstep, E).
    rewrite (pad_loop_turn _ _ 2) by (by rewrite !Hstep, E).
    rewrite pad_loop_done by (by rewrite !Hstep, E).
    by rewrite !string_app_assoc.
  - rewrite (pad_loop_turn _ _ _ E).
    rewrite (pad_loop_turn _ _ 2) by (by rewrite Hstep, E).
    rewrite pad_loop_done by (by rewrite !Hstep, E).
    by rewrite !string_app_assoc.
  - rewrite (pad_loop_turn _ _ _ E).
    by rewrite pad_loop_done by (by rewrite !Hstep, E).
Qed.

(** X7: the loop [while len(name)%4: name += '\0'] stops within three turns
    (more turns change nothing), on the name followed by fewer than four
    NUL bytes, as many as bring its length to the next multiple of 4; a name
    of whole words is left as it is. *)
Theorem pad_loop_stops n s :
  ∃ p, Message.pad_loop (3 + n) (AStr s) = Ok (AStr (s ++ p))
       ∧ Message.pad_loop 3 (AStr s) = Ok (AStr (s ++ p))
       ∧ (String.length p < 4)%nat
       ∧ (String.length (s ++ p) mod 4 = 0)%nat
       ∧ Forall (fun c => c = zero) (list_ascii_of_string p)
       ∧ ((String.length s mod 4 = 0)%nat -> p = "").
Proof.
  exists (padding (String.length s)).
  split; [apply pad_loop_spare|]. split; [apply pad_loop_str|].
  split; [|split; [apply length_padded|]].
  - unfold padding. destruct (String.length s mod 4)%nat as [|[|[|?]]]; simpl; lia.
  - unfold padding. split.
    + destruct (String.length s mod 4)%nat as [|[|[|?]]]; simpl;
        by repeat constructor.
    + by intros ->.
Qed.

End edges.

(** ** Comparing and rebuilding messages *)

Section comparing.
Import MessageCodec.

(** X8: on constructed messages [equivalent] is an equivalence relation,
    and it is coarser than [==]: messages with equal arrays are equivalent. *)
Theorem equivalent_equivalence a b c :
  constructed a -> constructed b -> constructed c ->
  Message.equivalent a a = Ok true
  ∧ (Message.equivalent a b = Ok true -> Message.equivalent b a = Ok true)
  ∧ (Message.equivalent a b = Ok true -> Message.equivalent b c = Ok true ->
     Message.equivalent a c = Ok true)
  ∧ (Message.__eq__ a b = true -> Message.equivalent a b = Ok true).
Proof.
  intros Ha Hb Hc.
  destruct (extract_constructed a Ha) as (i1 & t1 & f1 & fl1 & n1 & d1 & He1).
  destruct (extract_constructed b Hb) as (i2 & t2 & f2 & fl2 & n2 & d2 & He2).
  destruct (extract_constructed c Hc) as (i3 & t3 & f3 & fl3 & n3 & d3 & He3).
  rewrite (equivalent_parts a a _ _ _ _ _ _ _ _ _ _ _ _ He1 He1).
  rewrite (equivalent_parts a b _ _ _ _ _ _ _ _ _ _ _ _ He1 He2).
  rewrite (equivalent_parts b a _ _ _ _ _ _ _ _ _ _ _ _ He2 He1).
  rewrite (equivalent_parts b c _ _ _ _ _ _ _ _ _ _ _ _ He2 He3).
  rewrite (equivalent_parts a c _ _ _ _ _ _ _ _ _ _ _ _ He1 He3).
  split; [|split; [|split]].
  - f_equal. by apply bool_decide_eq_true.
  - intros [= H%bool_decide_eq_true]. f_equal. apply bool_decide_eq_true.
    destruct H as (? & ? & ? & ? & ?). by repeat split.
  - intros [= H1%bool_decide_eq_true] [= H2%bool_decide_eq_true].
    f_equal. apply bool_decide_eq_true.
    destruct H1 as (? & ? & ? & ? & ?), H2 as (? & ? & ? & ? & ?).
    repeat split; congruence.
  - intros Heq%bool_decide_eq_true. f_equal. apply bool_decide_eq_true.
    destruct Ha as [_ Hla], Hb as [_ Hlb].
    unfold Message.extract in He1, He2. rewrite Heq in He1.
    rewrite He1 in He2. injection He2 as <- <- <- <- <- <-.
    repeat split. by rewrite Hla, Hlb, Heq.
Qed.

Lemma equivalent_equivalence_witness :
  Message.equivalent (Message.mk (Kbus.stamp Stated.fred 42 7%N) 11)
                     (Message.mk Stated.fred 11) = Ok true.
Proof.
  assert (constructed (Message.mk Stated.fred 11)) as Hc by (by vm_compute).
  assert (constructed (Message.mk (Kbus.stamp Stated.fred 42 7%N) 11)) as Hs
      by (by vm_compute).
  destruct (equivalent_equivalence _ _ _ Hc Hs Hc) as (_ & Hsym & _).
  apply Hsym. by vm_compute.
Defined.

(** X9: encoding is injective on names with the prefix: two encodings that
    give the same frame were made from the same name, payload, to, from and
    flags. *)
Theorem encode_injective name1 payload1 to1 from1 flags1
        name2 payload2 to2 from2 flags2 m :
  String.prefix "$." name1 = true -> String.prefix "$." name2 = true ->
  encode name1 payload1 to1 from1 flags1 = Ok m ->
  encode name2 payload2 to2 from2 flags2 = Ok m ->
  name1 = name2 ∧ payload1 = payload2 ∧ to1 = to2 ∧ from1 = from2 ∧ flags1 = flags2.
Proof.
  intros Hp1 Hp2 He1 He2.
  assert (forall name payload to from_ flags,
             String.prefix "$." name = true ->
             encode name payload to from_ flags = Ok m ->
             Message.extract m = Ok (0, to, from_, flags, name, words payload)
             ∧ tostring (words payload) = payload) as Hparts.
  { intros name payload to from_ flags Hp He.
    assert (is_word to ∧ is_word from_ ∧ is_word flags ∧ fits name payload)
      as (Hto & Hfrom & Hflags & Hfits).
    { unfold encode in He. rewrite init_name in He by done.
      destruct (Message._from_data (AStr name) (AStr payload) (AInt to)
                                   (AInt from_) (AInt flags)) as [a'|] eqn:Hfd; [|done].
      apply from_data_Ok_inv in Hfd. tauto. }
    rewrite (encode_cases name payload to from_ flags Hp Hto Hfrom Hflags Hfits) in He.
    destruct (String.length payload mod 4 =? 0)%nat eqn:Hmod; [|done].
    cbn [negb] in He. destruct (String.length name <? 3)%nat; [done|].
    cbv zeta in He. injection He as <-.
    split; [apply extract_layout|]. apply tostring_words. lia. }
  destruct (Hparts _ _ _ _ _ Hp1 He1) as [Hx1 Ht1].
  destruct (Hparts _ _ _ _ _ Hp2 He2) as [Hx2 Ht2].
  rewrite Hx1 in Hx2. injection Hx2 as -> -> -> -> Hw.
  repeat split. by rewrite <- Ht1, <- Ht2, Hw.
Qed.

Lemma encode_injective_witness :
  "$.Fred" = "$.Fred" ∧ "1234" = "1234" ∧ 0 = 0 ∧ 0 = 0 ∧ 0 = 0.
Proof.
  apply (encode_injective "$.Fred" "1234" 0 0 0 "$.Fred" "1234" 0 0 0
                          (Message.mk Stated.fred 11)); by vm_compute.
Defined.

(** X10: the ways of the docstring of [Message] to make a message from
    another all give the message back: from the message itself, from its
    array, from the bytes of its array and, for a message that was encoded
    from a name, from its [extract()] tuple; and the copy is [==] to it. *)
Theorem rebuilt_equal name payload to from_ flags m data0 to0 from0 flags0 :
  String.prefix "$." name = true ->
  encode name payload to from_ flags = Ok m ->
  Message.__init__ (Message.OfMessage m) data0 to0 from0 flags0 = Ok m
  ∧ Message.__init__ (Message.OfAtom (AArr (Message.array m))) data0 to0 from0 flags0
    = Ok m
  ∧ Message.__init__ (Message.OfAtom (AStr (Message.to_bytes m))) data0 to0 from0 flags0
    = Ok m
  ∧ (∃ i t f fl nm d,
        Message.extract m = Ok (i, t, f, fl, nm, d)
        ∧ Message.__init__
            (Message.OfSeq [AInt i; AInt t; AInt f; AInt fl; AStr nm; AArr d])
            data0 to0 from0 flags0 = Ok m)
  ∧ Message.__eq__ m m = true.
Proof.
  intros Hp He.
  assert (is_word to ∧ is_word from_ ∧ is_word flags ∧ fits name payload)
    as (Hto & Hfrom & Hflags & Hfits).
  { unfold encode in He. rewrite init_name in He by done.
    destruct (Message._from_data (AStr name) (AStr payload) (AInt to)
                                 (AInt from_) (AInt flags)) as [a'|] eqn:Hfd; [|done].
    apply from_data_Ok_inv in Hfd. tauto. }
  pose proof He as He'.
  rewrite (encode_cases name payload to from_ flags Hp Hto Hfrom Hflags Hfits) in He'.
  destruct (String.length payload mod 4 =? 0)%nat eqn:Hmod; [|done].
  cbn [negb] in He'. destruct (String.length name <? 3)%nat eqn:Hlen; [done|].
  cbv zeta in He'. injection He' as <-.
  destruct Hfits as [Hn Hw].
  set (a := layout name (words payload) to from_ flags).
  assert (Message._check a = Ok tt) as Hc by (apply check_layout; lia).
  assert (Forall is_word a) as Hwa
      by (apply layout_words; try done; apply fromstring_is_word).
  split; [|split; [|split; [|split]]].
  - unfold Message.__init__. cbn [Message.array array_L]. by rewrite bind_Ok, Hc.
  - unfold Message.__init__. cbn [Message.array].
    assert (truthy (AArr a) = true) as -> by done.
    cbn [array_L]. by rewrite bind_Ok, Hc.
  - unfold Message.to_bytes. cbn [Message.array].
    destruct (tostring_checked a Hc) as [Hpa Hta].
    rewrite init_bytes, Hta by done.
    by rewrite array_L_tostring, bind_Ok, Hc.
  - exists 0, to, from_, flags, name, (words payload).
    split; [apply extract_layout|].
    rewrite init_seq.
    rewrite (from_data_layout name (AArr (words payload)) (words payload)) by done.
    fold a. by rewrite bind_Ok, Hc.
  - unfold Message.__eq__. by apply bool_decide_eq_true.
Qed.

Lemma rebuilt_equal_witness :
  Message.__init__ (Message.OfMessage (Message.mk Stated.fred 11))
                   ANone (AInt 0) (AInt 0) (AInt 0)
  = Ok (Message.mk Stated.fred 11).
Proof.
  apply (rebuilt_equal "$.Fred" "1234" 0 0 0 (Message.mk Stated.fred 11)
                       ANone (AInt 0) (AInt 0) (AInt 0)); by vm_compute.
Defined.

End comparing.

(** ** The ioctl commands *)

Section ioctl.
Import Ioctl.

(** A value below [2^k] and a value shifted up by [k] bits share no bit. *)
Lemma lor_shiftl_add hi lo k :
  0 <= k -> 0 <= lo < 2 ^ k -> Z.lor (Z.shiftl hi k) lo = hi * 2 ^ k + lo.
Proof.
  intros Hk Hlo. rewrite Z.shiftl_mul_pow2 by done.
  symmetry. apply Z.add_nocarry_lor.
  apply Z.bits_inj'. intros n Hn. rewrite Z.land_spec, Z.bits_0.
  destruct (Z.lt_ge_cases n k) as [Hnk|Hnk].
  - by rewrite Z.mul_pow2_bits_low.
  - rewrite andb_false_iff. right.
    destruct (decide (lo = 0)) as [->|Hne]; [apply Z.bits_0|].
    apply Z.bits_above_log2; [lia|].
    assert (Z.log2 lo < k) by (apply Z.log2_lt_pow2; lia). lia.
Qed.

(** The number [_IOC] packs, as a sum. *)
Lemma ioc_sum d t nr size :
  0 <= nr < 256 -> 0 <= size < 2 ^ 14 ->
  _IOC d t nr size = d * 2 ^ 30 + size * 2 ^ 16 + ord t * 2 ^ 8 + nr.
Proof.
  intros Hnr Hsize. pose proof (ord_range t) as Ht.
  unfold _IOC, _IOC_DIRSHIFT, _IOC_SIZESHIFT, _IOC_TYPESHIFT, _IOC_NRSHIFT,
    _IOC_NRBITS, _IOC_TYPEBITS, _IOC_SIZEBITS.
  change (0 + 8 + 8 + 14) with 30. change (0 + 8 + 8) with 16. change (0 + 8) with 8.
  rewrite Z.shiftl_0_r.
  rewrite <- (Z.lor_assoc (Z.shiftl d 30)), <- (Z.lor_assoc (Z.shiftl d 30)).
  rewrite (Z.lor_comm (Z.lor (Z.shiftl (ord t) 8) nr)).
  rewrite (lor_shiftl_add (ord t) nr 8) by lia.
  rewrite (lor_shiftl_add size (ord t * 2 ^ 8 + nr) 16) by lia.
  rewrite (lor_shiftl_add d _ 30) by lia.
  lia.
Qed.

(** X11: the four fields packed by [_IOC] can be read back from the command
    number: the number in its low 8 bits, the type character in the next 8,
    the size in the next 14 and the direction above them; the number fits 32
    bits.  So commands that differ in a field differ. *)
Theorem ioc_fields d t nr size :
  0 <= d < 4 -> 0 <= nr < 256 -> 0 <= size < 2 ^ 14 ->
  Z.land (_IOC d t nr size) 255 = nr
  ∧ Z.land (Z.shiftr (_IOC d t nr size) 8) 255 = ord t
  ∧ Z.land (Z.shiftr (_IOC d t nr size) 16) (2 ^ 14 - 1) = size
  ∧ Z.shiftr (_IOC d t nr size) 30 = d
  ∧ 0 <= _IOC d t nr size < 2 ^ 32.
Proof.
  intros Hd Hnr Hsize. pose proof (ord_range t) as Ht.
  rewrite ioc_sum by done.
  change 255 with (Z.ones 8). change (2 ^ 14 - 1) with (Z.ones 14).
  rewrite !Z.land_ones, !Z.shiftr_div_pow2 by lia.
  change (2 ^ 8) with 256. change (2 ^ 14) with 16384.
  change (2 ^ 16) with 65536. change (2 ^ 30) with 1073741824.
  change (2 ^ 32) with 4294967296.
  change (2 ^ 14) with 16384 in Hsize.
  repeat split; try (Z.to_euclidean_division_equations; lia); lia.
Qed.

Lemma ioc_fields_witness :
  Z.land (_IOC _IOC_WRITE KBUS_IOC_MAGIC 2 4) 255 = 2
  ∧ Z.land (Z.shiftr (_IOC _IOC_WRITE KBUS_IOC_MAGIC 2 4) 8) 255 = 107.
Proof.
  destruct (ioc_fields _IOC_WRITE KBUS_IOC_MAGIC 2 4) as (H1 & H2 & _);
    [unfold _IOC_WRITE; lia|lia|lia|].
  split; [exact H1|exact H2].
Defined.

(** X12: whatever the size of a pointer is, the six commands of KBUS are six
    different numbers of 32 bits, of type 'k' and numbered 1 to 6; RESET and
    NEXTLEN carry no direction and no size, BIND and UNBIND write, BOUNDAS
    reads, REPLIER does both. *)
Theorem kbus_commands sizeof_char_p :
  0 <= sizeof_char_p < 2 ^ 14 ->
  let cmds := [KBUS_IOC_RESET; KBUS_IOC_BIND sizeof_char_p;
               KBUS_IOC_UNBIND sizeof_char_p; KBUS_IOC_BOUNDAS sizeof_char_p;
               KBUS_IOC_REPLIER sizeof_char_p; KBUS_IOC_NEXTLEN] in
  NoDup cmds
  ∧ (fun x => Z.land x 255) <$> cmds = [1; 2; 3; 4; 5; 6]
  ∧ Forall (fun x => Z.land (Z.shiftr x 8) 255 = ord KBUS_IOC_MAGIC) cmds
  ∧ (fun x => Z.shiftr x 30) <$> cmds
    = [_IOC_NONE; _IOC_WRITE; _IOC_WRITE; _IOC_READ; 3; _IOC_NONE]
  ∧ (fun x => Z.land (Z.shiftr x 16) (2 ^ 14 - 1)) <$> cmds
    = [0; sizeof_char_p; sizeof_char_p; sizeof_char_p; sizeof_char_p; 0]
  ∧ Forall (fun x => 0 <= x < 2 ^ 32) cmds.
Proof.
  intros Hsz cmds.
  assert (forall d nr size, 0 <= d < 4 -> 0 <= nr < 256 -> 0 <= size < 2 ^ 14 ->
                       Z.land (_IOC d KBUS_IOC_MAGIC nr size) 255 = nr
                       ∧ Z.land (Z.shiftr (_IOC d KBUS_IOC_MAGIC nr size) 8) 255
                         = ord KBUS_IOC_MAGIC
                       ∧ Z.land (Z.shiftr (_IOC d KBUS_IOC_MAGIC nr size) 16) (2 ^ 14 - 1)
                         = size
                       ∧ Z.shiftr (_IOC d KBUS_IOC_MAGIC nr size) 30 = d
                       ∧ 0 <= _IOC d KBUS_IOC_MAGIC nr size < 2 ^ 32) as Hf.
  { intros d nr size Hd Hnr Hsize. pose proof (ord_range KBUS_IOC_MAGIC) as Ht.
    rewrite ioc_sum by done.
    change 255 with (Z.ones 8). change (2 ^ 14 - 1) with (Z.ones 14).
    rewrite !Z.land_ones, !Z.shiftr_div_pow2 by lia.
    change (2 ^ 8) with 256. change (2 ^ 14) with 16384.
    change (2 ^ 16) with 65536. change (2 ^ 30) with 1073741824.
    change (2 ^ 32) with 4294967296.
    change (2 ^ 14) with 16384 in Hsize.
    repeat split; try (Z.to_euclidean_division_equations; lia); lia. }
  assert (0 <= 0 < 2 ^ 14) as Hz by lia.
  destruct (Hf _IOC_NONE 1 0) as (A1 & A2 & A3 & A4 & A5); [done|lia|done|].
  destruct (Hf _IOC_WRITE 2 sizeof_char_p) as (B1 & B2 & B3 & B4 & B5);
    [unfold _IOC_WRITE; lia|lia|done|].
  destruct (Hf _IOC_WRITE 3 sizeof_char_p) as (C1 & C2 & C3 & C4 & C5);
    [unfold _IOC_WRITE; lia|lia|done|].
  destruct (Hf _IOC_READ 4 sizeof_char_p) as (D1 & D2 & D3 & D4 & D5);
    [unfold _IOC_READ; lia|lia|done|].
  destruct (Hf (Z.lor _IOC_READ _IOC_WRITE) 5 sizeof_char_p) as (E1 & E2 & E3 & E4 & E5);
    [by vm_compute|lia|done|].
  destruct (Hf _IOC_NONE 6 0) as (F1 & F2 & F3 & F4 & F5); [done|lia|done|].
  assert ((fun x => Z.land x 255) <$> cmds = [1; 2; 3; 4; 5; 6]) as Hnr.
  { subst cmds. cbn [fmap list_fmap].
    unfold KBUS_IOC_RESET, KBUS_IOC_BIND, KBUS_IOC_UNBIND, KBUS_IOC_BOUNDAS,
      KBUS_IOC_REPLIER, KBUS_IOC_NEXTLEN, _IO, _IOW, _IOR, _IOWR.
    by rewrite A1, B1, C1, D1, E1, F1. }
  split.
  - apply (NoDup_fmap_1 (fun x => Z.land x 255)). rewrite Hnr.
    by apply (bool_decide_unpack (NoDup [1; 2; 3; 4; 5; 6])).
  - split; [done|]. subst cmds.
    unfold KBUS_IOC_RESET, KBUS_IOC_BIND, KBUS_IOC_UNBIND, KBUS_IOC_BOUNDAS,
      KBUS_IOC_REPLIER, KBUS_IOC_NEXTLEN, _IO, _IOW, _IOR, _IOWR.
    split; [by repeat apply Forall_cons_2|].
    cbn [fmap list_fmap]. rewrite A3, B3, C3, D3, E3, F3, A4, B4, C4, D4, E4, F4.
    split; [done|]. split; [done|]. by repeat apply Forall_cons_2.
Qed.

Lemma kbus_commands_witness :
  NoDup [KBUS_IOC_RESET; KBUS_IOC_BIND 4; KBUS_IOC_UNBIND 4; KBUS_IOC_BOUNDAS 4;
         KBUS_IOC_REPLIER 4; KBUS_IOC_NEXTLEN].
Proof.
  destruct (kbus_commands 4) as [H _]; [lia|exact H].
Defined.

End ioctl.


(** ** Reading [/proc/kbus/bindings] *)

Section proc.
Import Kbus Tracking.

(** A string with no white space in it, and one with no newline. *)
Local Abbreviation solid t :=
  (Forall (fun c => isspace c = false) (list_ascii_of_string t)).
Local Abbreviation one_line t :=
  (Forall (fun c => Ascii.eqb c "010" = false) (list_ascii_of_string t)).

Lemma string_app_nil_l (s : string) : ("" ++ s = s)%string.
Proof. reflexivity. Qed.

Lemma split_from_token t cur s :
  solid t -> split_from cur (t ++ s) = split_from (cur ++ t) s.
Proof.
  revert cur. induction t as [|c t IH]; intros cur Ht.
  - by rewrite string_app_empty.
  - cbn [list_ascii_of_string] in Ht. apply Forall_cons in Ht as [Hc Ht].
    rewrite string_app_cons. cbn [split_from]. rewrite Hc, (IH _ Ht).
    by rewrite string_app_assoc, string_app_cons.
Qed.

Lemma split_from_space c s :
  isspace c = true -> split_from "" (String c s) = split_from "" s.
Proof. intros Hc. cbn [split_from]. by rewrite Hc. Qed.

(** A field, and the white space after it. *)
Lemma split_field t c s :
  t ≠ "" -> solid t -> isspace c = true ->
  split_from "" (t ++ String c s) = t :: split_from "" s.
Proof.
  intros Hne Ht Hc. rewrite split_from_token by done.
  rewrite string_app_nil_l. cbn [split_from]. by rewrite Hc, decide_False.
Qed.

(** White space at the end of a line adds no field. *)
Lemma split_from_end cur s c :
  isspace c = true -> split_from cur (s ++ String c "") = split_from cur s.
Proof.
  intros Hc. revert cur. induction s as [|a s IH]; intros cur.
  - rewrite string_app_nil_l. cbn [split_from]. rewrite Hc.
    by destruct (decide (cur = "")).
  - rewrite string_app_cons. cbn [split_from].
    destruct (isspace a); [destruct (decide (cur = ""))|]; by rewrite IH.
Qed.

Lemma solid_split t : t ≠ "" -> solid t -> split t = [t].
Proof.
  intros Hne Ht. unfold split. rewrite <- (string_app_empty t) at 1.
  rewrite split_from_token by done. rewrite string_app_nil_l.
  cbn [split_from]. by rewrite decide_False.
Qed.

Lemma readlines_from_token t cur s :
  one_line t -> readlines_from cur (t ++ s) = readlines_from (cur ++ t) s.
Proof.
  revert cur. induction t as [|c t IH]; intros cur Ht.
  - by rewrite string_app_empty.
  - cbn [list_ascii_of_string] in Ht. apply Forall_cons in Ht as [Hc Ht].
    rewrite string_app_cons. cbn [readlines_from]. rewrite Hc, (IH _ Ht).
    by rewrite string_app_assoc, string_app_cons.
Qed.

(** A line, its newline, and the rest of the text. *)
Lemma readlines_line t s :
  one_line t ->
  readlines_from "" (t ++ String "010" s) = (t ++ String "010" "")%string :: readlines s.
Proof.
  intros Ht. rewrite readlines_from_token by done.
  by rewrite string_app_nil_l.
Qed.

(** The digits of a number. *)
Lemma digits_parsed s d :
  DecimalString.NilEmpty.uint_of_string s = Some d ->
  Forall (fun c => 48 <= ord c <= 57) (list_ascii_of_string s).
Proof.
  revert d. induction s as [|c s IH]; intros d Hd; [constructor|].
  cbn [DecimalString.NilEmpty.uint_of_string] in Hd.
  destruct (DecimalString.NilEmpty.uint_of_string s) as [d'|] eqn:E; [|done].
  cbn [list_ascii_of_string]. constructor; [|by eapply IH].
  apply DecimalString.uint_of_char_spec in Hd.
  destruct Hd as [[-> _]|[[-> _]|[[-> _]|[[-> _]|[[-> _]|[[-> _]|[[-> _]|[[-> _]|
                  [[-> _]|[-> _]]]]]]]]]]; by vm_compute.
Qed.

Lemma decimal_parsed n :
  DecimalString.NilZero.uint_of_string (decimal n) = Some (N.to_uint n).
Proof.
  unfold decimal. apply DecimalString.NilZero.usu.
  destruct n as [|p]; [done|]. apply DecimalPos.Unsigned.to_uint_nonnil.
Qed.

Lemma decimal_digits n :
  decimal n ≠ "" ∧ Forall (fun c => 48 <= ord c <= 57) (list_ascii_of_string (decimal n)).
Proof.
  pose proof (decimal_parsed n) as H. split.
  - intros E. by rewrite E in H.
  - destruct (decimal n) as [|c s]; [done|].
    by apply (digits_parsed _ _ H).
Qed.

Lemma decimal_solid n : solid (decimal n) ∧ one_line (decimal n).
Proof.
  destruct (decimal_digits n) as [_ H]. split.
  - eapply Forall_impl; [exact H|]. intros c Hc. cbv beta in Hc.
    unfold isspace. lia.
  - eapply Forall_impl; [exact H|]. intros c Hc. cbv beta in Hc.
    apply Ascii.eqb_neq. intros ->. vm_compute in Hc. destruct Hc as [Hc _].
    by apply Hc.
Qed.

(** [int] reads the id back that the module has written. *)
Lemma int_decimal n : int (decimal n) = Ok (Z.of_N n).
Proof.
  pose proof (decimal_parsed n) as H.
  destruct (decimal_digits n) as [Hne Hd].
  unfold int. destruct (decimal n) as [|c s]; [done|].
  cbn [list_ascii_of_string] in Hd. apply Forall_cons in Hd as [Hc _].
  assert (Ascii.eqb c "+" = false) as ->.
  { apply Ascii.eqb_neq. intros ->. vm_compute in Hc. destruct Hc as [Hc _].
    by apply Hc. }
  assert (Ascii.eqb c "-" = false) as ->.
  { apply Ascii.eqb_neq. intros ->. vm_compute in Hc. destruct Hc as [Hc _].
    by apply Hc. }
  rewrite H. cbn [fmap option_fmap option_map].
  by rewrite DecimalN.Unsigned.of_to.
Qed.

Lemma str_rep_solid r : str_rep r ≠ "" ∧ solid (str_rep r) ∧ one_line (str_rep r).
Proof. destruct r; repeat split; try done; by repeat constructor. Qed.

Lemma str_all_solid a : str_all a ≠ "" ∧ solid (str_all a) ∧ one_line (str_all a).
Proof. destruct a; repeat split; try done; by repeat constructor. Qed.

Lemma letter_rep r : letter (str_rep r) "R" "L" GotReplier = Ok r.
Proof. by destruct r. Qed.

Lemma letter_all a : letter (str_all a) "T" "F" GotAll = Ok a.
Proof. by destruct a. Qed.

(** The fields of a line of the file: four, and those of the name. *)
Lemma split_proc_line x :
  split (proc_line x)
  = ["0:"; decimal (bound_to x); str_rep (is_replier x); str_all (is_guaranteed x)]
    ++ split (name x).
Proof.
  destruct (decimal_digits (bound_to x)) as [Hd _].
  destruct (decimal_solid (bound_to x)) as [Hds _].
  destruct (str_rep_solid (is_replier x)) as (Hr & Hrs & _).
  destruct (str_all_solid (is_guaranteed x)) as (Ha & Has & _).
  unfold split.
  change (proc_line x)
    with (String " " (String " "
            ("0:" ++ String " "
               (decimal (bound_to x) ++ String " "
                  (str_rep (is_replier x) ++ String " "
                     (str_all (is_guaranteed x) ++ String " "
                        (name x ++ String "010" ""))))))%string).
  rewrite !split_from_space by done.
  rewrite (split_field "0:") by (done || by repeat constructor).
  rewrite !split_field by done.
  by rewrite split_from_end.
Qed.

Lemma one_line_app s t : one_line s -> one_line t -> one_line (s ++ t).
Proof. intros Hs Ht. rewrite list_ascii_app. by apply Forall_app. Qed.

(** The lines of the file, as long as no name has a newline in it. *)
Lemma readlines_proc_line x text :
  one_line (name x) ->
  readlines (proc_line x ++ text) = proc_line x :: readlines text.
Proof.
  intros Hn.
  destruct (decimal_solid (bound_to x)) as [_ Hd].
  destruct (str_rep_solid (is_replier x)) as (_ & _ & Hr).
  destruct (str_all_solid (is_guaranteed x)) as (_ & _ & Ha).
  set (body := ("  0: " ++ decimal (bound_to x) ++ " " ++ str_rep (is_replier x) ++ " "
                ++ str_all (is_guaranteed x) ++ " " ++ name x)%string).
  assert (proc_line x = (body ++ String "010" "")%string) as ->.
  { unfold proc_line, body. by rewrite !string_app_assoc. }
  rewrite string_app_assoc, string_app_cons, string_app_nil_l.
  apply readlines_line. unfold body.
  repeat (apply one_line_app; [by repeat constructor || done|]). done.
Qed.

(** The tuple that [read_bindings] makes of the line of a Binding. *)
Local Abbreviation row_of x :=
  ((Z.of_N (bound_to x), is_replier x, is_guaranteed x, name x) : row).

(** A line with a name of one field is read as the Binding it stands
    for. *)
Lemma read_loop_line names x l acc :
  (forall z, get names (KInt z) = None) ->
  split (name x) = [name x] ->
  read_loop names (proc_line x :: l) acc = read_loop names l (acc ++ [row_of x]).
Proof.
  intros Hnames Hn. cbn [read_loop].
  rewrite split_proc_line, Hn. cbn [app].
  rewrite int_decimal, bind_Ok, Hnames, letter_rep, bind_Ok, letter_all.
  by rewrite bind_Ok.
Qed.

(** A line with a name of no field, or of several, cannot be unpacked. *)
Lemma read_loop_unpack names x l acc :
  List.length (split (name x)) ≠ 1%nat ->
  read_loop names (proc_line x :: l) acc
  = Raise (ValueError (Unpack (4 + List.length (split (name x))))).
Proof.
  intros Hn. cbn [read_loop]. rewrite split_proc_line.
  by destruct (split (name x)) as [|f1 [|f2 fs]].
Qed.

Lemma read_loop_lines names t l acc :
  (forall z, get names (KInt z) = None) ->
  Forall (fun x => split (name x) = [name x]) t ->
  read_loop names ((proc_line <$> t) ++ l) acc
  = read_loop names l (acc ++ ((fun x => row_of x) <$> t)).
Proof.
  intros Hnames Ht. revert acc. induction Ht as [|x t Hx _ IH]; intros acc.
  - by rewrite app_nil_r.
  - rewrite fmap_cons. cbn [app]. rewrite read_loop_line, IH by done.
    by rewrite <- app_assoc.
Qed.

Lemma readlines_proc t text :
  Forall (fun x => one_line (name x)) t ->
  readlines (foldr (fun x text => (proc_line x ++ text)%string) text t)
  = (proc_line <$> t) ++ readlines text.
Proof.
  induction 1 as [|x t Hx _ IH]; [done|].
  cbn [foldr]. by rewrite readlines_proc_line, IH.
Qed.

End proc.

(** ** The bookkeeping of the tests *)

Section tracking.
Import Kbus.

Lemma sort_key_inj (x y : Tracking.row) :
  Tracking.sort_key x = Tracking.sort_key y -> x = y.
Proof.
  destruct x as [[[i r] a] n], y as [[[i' r'] a'] n'].
  unfold Tracking.sort_key; cbn [fst snd].
  intros H. injection H as -> -> -> Hn. f_equal.
  revert n' Hn. induction n as [|c n IH]; intros [|c' n'] Hn; try done.
  cbn in Hn. injection Hn as Hc Hn. f_equal; [|by apply IH].
  by rewrite <- (ascii_N_embedding c), Hc, ascii_N_embedding.
Qed.

Lemma row_le_trans : Transitive Tracking.row_le.
Proof.
  intros x y z [->|Hxy] [->|Hyz]; unfold Tracking.row_le; auto.
  right. by etrans.
Qed.

Lemma row_le_total : Total Tracking.row_le.
Proof.
  intros x y. unfold Tracking.row_le.
  destruct (trichotomyT lexico (Tracking.sort_key x) (Tracking.sort_key y))
    as [[H|H]|H]; auto.
  apply sort_key_inj in H. auto.
Qed.

Lemma row_le_antisymm : AntiSymm (=) Tracking.row_le.
Proof.
  intros x y [->|Hxy] [E|Hyx]; try done.
  destruct (irreflexivity lexico (Tracking.sort_key x)). by etrans.
Qed.

(** Two lists are equal once sorted exactly when they hold the same tuples,
    each as often. *)
Lemma sort_permutation (l1 l2 : list Tracking.row) :
  Tracking.sort l1 = Tracking.sort l2 <-> l1 ≡ₚ l2.
Proof.
  pose proof row_le_trans. pose proof row_le_total.
  pose proof row_le_antisymm.
  unfold Tracking.sort. split.
  - intros E. rewrite <- (merge_sort_Permutation Tracking.row_le l1), E.
    apply merge_sort_Permutation.
  - intros P. apply (StronglySorted_unique Tracking.row_le);
      try apply StronglySorted_merge_sort; try apply _.
    by rewrite !merge_sort_Permutation.
Qed.

Lemma fmap_Permutation_inj {A B} (f : A -> B) (l1 l2 : list A) :
  (forall x y, f x = f y -> x = y) -> f <$> l1 ≡ₚ f <$> l2 -> l1 ≡ₚ l2.
Proof.
  intros Hf. revert l2. induction l1 as [|x l1 IH]; intros l2 Hp.
  - apply Permutation_nil_l in Hp. symmetry in Hp. apply fmap_nil_inv in Hp.
    by subst.
  - assert (f x ∈ f <$> l2) as Hx by (rewrite <- Hp; left).
    apply list_elem_of_fmap in Hx as (y & Hy & Hin). apply Hf in Hy as <-.
    apply elem_of_Permutation in Hin as [k Hk].
    rewrite Hk. constructor. apply IH.
    rewrite Hk, !fmap_cons in Hp. by apply (inj (cons (f x))) in Hp.
Qed.

(** The tuple with the id of the file in the place of the file. *)
Local Abbreviation with_id x :=
  ((Z.of_N x.1.1.1, x.1.1.2, x.1.2, x.2) : Tracking.row).

Lemma testwith_of_files (l : list Tracking.line) testwith names (b : Bus) :
  (forall z, Tracking.get names (Tracking.KInt z) = None) ->
  ∃ names',
    Tracking.testwith_of l testwith names b
    = (Done (testwith ++ ((fun x : Tracking.line => with_id x) <$> l), names'), b)
    ∧ forall z, Tracking.get names' (Tracking.KInt z) = None.
Proof.
  revert testwith names.
  induction l as [|[[[fd r] a] n] l IH]; intros testwith names Hnames.
  - exists names. by rewrite app_nil_r.
  - cbn [Tracking.testwith_of].
    assert (forall z, Tracking.get (names ++ [(Tracking.KFile fd, Z.of_N fd)])
                               (Tracking.KInt z) = None) as Hmore.
    { intros z. specialize (Hnames z). clear -Hnames.
      induction names as [|[k v] names IHn]; cbn [app Tracking.get] in *.
      - by rewrite decide_False.
      - destruct (decide (k = Tracking.KInt z)); [done|]. by apply IHn. }
    destruct (Tracking.get names (Tracking.KFile fd)) as [v|].
    + destruct (IH (testwith ++ [(Z.of_N fd, r, a, n)]) names Hnames)
        as (names' & Hrun & Hnames').
      exists names'. split; [|done].
      unfold bound_as, mbind, io_bind, mret, io_ret. cbv beta iota. rewrite Hrun.
      by rewrite <- app_assoc.
    + destruct (IH (testwith ++ [(Z.of_N fd, r, a, n)]) _ Hmore)
        as (names' & Hrun & Hnames').
      exists names'. split; [|done].
      unfold bound_as, mbind, io_bind, mret, io_ret. cbv beta iota. rewrite Hrun.
      by rewrite <- app_assoc.
Qed.

Lemma plain_one_field s :
  Tracking.plain s -> Tracking.split s = [s] ∧ Tracking.no_newline s.
Proof.
  intros [Hne Hs]. split; [by apply solid_split|].
  eapply Forall_impl; [exact Hs|]. intros c Hc. cbv beta in Hc.
  apply Ascii.eqb_neq. intros ->. done.
Qed.

(** What [read_bindings] returns when every name is one field of its
    line: the table. *)
Lemma read_bindings_plain names b :
  (forall z, Tracking.get names (Tracking.KInt z) = None) ->
  Forall (fun x => Tracking.plain (name x)) (bindings b) ->
  Tracking.read_bindings names b
  = (Done ((fun x => (Z.of_N (bound_to x), is_replier x, is_guaranteed x, name x))
             <$> bindings b), b).
Proof.
  intros Hnames Hplain. unfold Tracking.read_bindings, Tracking.proc_bindings.
  rewrite readlines_proc.
  2:{ eapply Forall_impl; [exact Hplain|]. intros x Hx. by apply plain_one_field. }
  rewrite read_loop_lines; [done|done|].
  eapply Forall_impl; [exact Hplain|]. intros x Hx. by apply plain_one_field.
Qed.

(** What [read_bindings] does at the first name that is not: the line
    cannot be unpacked. *)
Lemma read_bindings_unpack names b l1 x l2 :
  (forall z, Tracking.get names (Tracking.KInt z) = None) ->
  bindings b = l1 ++ x :: l2 ->
  Forall (fun x => Tracking.plain (name x)) l1 ->
  Tracking.no_newline (name x) ->
  List.length (Tracking.split (name x)) ≠ 1%nat ->
  Tracking.read_bindings names b
  = (Failed (PyError (ValueError
               (Unpack (4 + List.length (Tracking.split (name x)))))), b).
Proof.
  intros Hnames Hb Hplain Hline Hfields.
  unfold Tracking.read_bindings, Tracking.proc_bindings.
  rewrite Hb, foldr_app, readlines_proc.
  2:{ eapply Forall_impl; [exact Hplain|]. intros y Hy. by apply plain_one_field. }
  cbn [foldr]. rewrite readlines_proc_line by done.
  rewrite read_loop_lines; [|done|].
  2:{ eapply Forall_impl; [exact Hplain|]. intros y Hy. by apply plain_one_field. }
  by rewrite read_loop_unpack.
Qed.

Lemma bindings_match_plain (expected : list Tracking.line) (b : Bus) :
  Forall (fun x => Tracking.plain (name x)) (bindings b) ->
  Tracking.bindings_match expected b
  = (Done (bool_decide (expected ≡ₚ list_bindings b)), b).
Proof.
  intros Hplain. unfold Tracking.bindings_match.
  destruct (testwith_of_files expected [] [] b) as (names & Hrun & Hnames); [done|].
  unfold mbind at 1. unfold io_bind at 1. rewrite Hrun. cbn [fst snd app].
  unfold mbind, io_bind. rewrite read_bindings_plain by done.
  unfold mret, io_ret. do 2 f_equal. apply bool_decide_ext.
  rewrite sort_permutation.
  assert ((fun x => (Z.of_N (bound_to x), is_replier x, is_guaranteed x, name x))
            <$> bindings b
          = (fun y : Tracking.line => with_id y) <$> list_bindings b) as ->.
  { unfold list_bindings. by rewrite <- list_fmap_compose. }
  split.
  - intros Hp. symmetry. apply (fmap_Permutation_inj _ _ _) in Hp; [done|].
    intros [[[i r] a] n] [[[i' r'] a'] n'] [= Hi -> -> ->]. cbn in Hi.
    by apply N2Z.inj in Hi as ->.
  - intros Hp. by rewrite Hp.
Qed.

Lemma bindings_match_unpack (expected : list Tracking.line) (b : Bus) l1 x l2 :
  bindings b = l1 ++ x :: l2 ->
  Forall (fun x => Tracking.plain (name x)) l1 ->
  Tracking.no_newline (name x) ->
  List.length (Tracking.split (name x)) ≠ 1%nat ->
  Tracking.bindings_match expected b
  = (Failed (PyError (ValueError
               (Unpack (4 + List.length (Tracking.split (name x)))))), b).
Proof.
  intros Hb Hplain Hline Hfields. unfold Tracking.bindings_match.
  destruct (testwith_of_files expected [] [] b) as (names & Hrun & Hnames); [done|].
  unfold mbind at 1. unfold io_bind at 1. rewrite Hrun. cbn [fst snd app].
  unfold mbind, io_bind.
  by rewrite (read_bindings_unpack names b l1 x l2).
Qed.

Local Abbreviation rows f l :=
  ((fun e : Tracking.entry => (f, e.1.1, e.1.2, e.2)) <$> l).

Lemma filter_all {A} (P : A -> Prop) `{!forall x, Decision (P x)} (l : list A) :
  Forall P l -> filter P l = l.
Proof.
  induction 1 as [|x l Hx _ IH]; [done|].
  by rewrite filter_cons, decide_True, IH.
Qed.

Lemma filter_none {A} (P : A -> Prop) `{!forall x, Decision (P x)} (l : list A) :
  Forall (fun x => ¬ P x) l -> filter P l = [].
Proof.
  induction 1 as [|x l Hx _ IH]; [done|].
  by rewrite filter_cons, decide_False, IH.
Qed.

Lemma expected_of_insert (d : gmap endpoint (list Tracking.entry)) f l :
  d !! f = None ->
  Tracking.expected_of (<[f:=l]> d) ≡ₚ rows f l ++ Tracking.expected_of d.
Proof.
  intros H. unfold Tracking.expected_of.
  by rewrite (map_to_list_insert _ _ _ H).
Qed.

Lemma expected_of_delete (d : gmap endpoint (list Tracking.entry)) f l :
  d !! f = Some l ->
  Tracking.expected_of d ≡ₚ rows f l ++ Tracking.expected_of (delete f d).
Proof.
  intros H. unfold Tracking.expected_of.
  by rewrite <- (map_to_list_delete _ _ _ H).
Qed.

Lemma expected_of_update (d : gmap endpoint (list Tracking.entry)) f l' :
  Tracking.expected_of (<[f:=l']> d)
  ≡ₚ rows f l' ++ Tracking.expected_of (delete f d).
Proof. rewrite <- insert_delete_eq. apply expected_of_insert, lookup_delete_eq. Qed.

Lemma elem_of_expected_of (d : gmap endpoint (list Tracking.entry)) (x : Tracking.line) :
  x ∈ Tracking.expected_of d
  <-> exists l, d !! x.1.1.1 = Some l ∧ (x.1.1.2, x.1.2, x.2) ∈ l.
Proof.
  unfold Tracking.expected_of. rewrite list_elem_of_bind. split.
  - intros [[f l] [Hx Hfl]]. apply elem_of_map_to_list in Hfl.
    apply list_elem_of_fmap in Hx as [[[r a] n] [-> He]]. by exists l.
  - intros [l [Hl Hx]]. exists (x.1.1.1, l).
    split; [|by apply elem_of_map_to_list].
    apply list_elem_of_fmap. exists (x.1.1.2, x.1.2, x.2).
    split; [by destruct x as [[[??]?]?]|done].
Qed.

Lemma expected_of_delete_filter (d : gmap endpoint (list Tracking.entry)) f :
  Tracking.expected_of (delete f d)
  ≡ₚ filter (fun y : Tracking.line => y.1.1.1 ≠ f) (Tracking.expected_of d).
Proof.
  assert (forall d' : gmap endpoint (list Tracking.entry), d' !! f = None ->
    filter (fun y : Tracking.line => y.1.1.1 ≠ f) (Tracking.expected_of d')
    = Tracking.expected_of d') as Hall.
  { intros d' H. apply filter_all, Forall_forall. intros x Hx E.
    apply elem_of_expected_of in Hx as [l [Hl _]]. congruence. }
  destruct (d !! f) as [l|] eqn:E.
  - rewrite (expected_of_delete d f l E), filter_app.
    rewrite (filter_none _ (rows f l)), (Hall _ (lookup_delete_eq d f)); [done|].
    apply Forall_forall. intros x [e [-> _]]%list_elem_of_fmap. cbn. tauto.
  - by rewrite (delete_id _ _ E), (Hall _ E).
Qed.

Lemma list_bindings_filter (e : endpoint) (t : list Binding) :
  (fun x => (bound_to x, is_replier x, is_guaranteed x, name x))
    <$> filter (fun x => bound_to x ≠ e) t
  = filter (fun y : Tracking.line => y.1.1.1 ≠ e)
      ((fun x => (bound_to x, is_replier x, is_guaranteed x, name x)) <$> t).
Proof.
  induction t as [|x t IH]; [done|].
  rewrite fmap_cons, !filter_cons. cbn [fst].
  destruct (decide (bound_to x ≠ e)); [rewrite fmap_cons|]; by rewrite IH.
Qed.

Lemma in_step_same (d : gmap endpoint (list Tracking.entry)) (b : Bus) (s : Tracking.state) :
  d = Tracking.bindings s -> b = Tracking.bus s ->
  Tracking.in_step s -> Tracking.in_step (Tracking.mkState d b).
Proof. intros -> ->. by destruct s. Qed.

Lemma forget_cut (name : string) (l1 l2 : list Tracking.entry) (y : Tracking.entry) :
  Forall (fun z => z.2 ≠ name) l1 -> y.2 = name ->
  Tracking.forget name (l1 ++ y :: l2) = l1 ++ l2.
Proof.
  intros Hl1 Hy. induction Hl1 as [|z l1 Hz _ IH]; cbn [Tracking.forget app].
  - by rewrite decide_True.
  - by rewrite decide_False, IH.
Qed.

(** X13: the deletion loop of [TestKernelModule.unbind] takes out the first
    tracked entry that has the name, whatever its flags are, and nothing
    else; a list with no entry of that name is left as it is. *)
Theorem forget_first (name : string) (l1 l2 : list Tracking.entry) (x : Tracking.entry) :
  Forall (fun y => y.2 ≠ name) l1 -> x.2 = name ->
  Tracking.forget name l1 = l1
  ∧ Tracking.forget name (l1 ++ x :: l2) = l1 ++ l2
  ∧ Tracking.forget name (l1 ++ x :: l2)
    = Tracking.forget name (l1 ++ (negb x.1.1, negb x.1.2, x.2) :: l2).
Proof.
  intros Hl1 Hx. split; [|split].
  - induction Hl1 as [|z l1 Hz _ IH]; [done|].
    cbn [Tracking.forget]. by rewrite decide_False, IH.
  - by apply forget_cut.
  - by rewrite !forget_cut.
Qed.

Lemma forget_first_witness :
  Tracking.forget "$.Fred"
    [(true, false, "$.Jim"); (false, false, "$.Fred"); (true, false, "$.Fred")]
  = [(true, false, "$.Jim"); (true, false, "$.Fred")].
Proof.
  apply (forget_first "$.Fred" [(true, false, "$.Jim")] [(true, false, "$.Fred")]
           (false, false, "$.Fred")).
  - by repeat constructor.
  - reflexivity.
Defined.

(** X14: as long as every name in the table is one field of its line in
    [/proc/kbus/bindings] (it is not empty and has no white space),
    [bindings_match] returns, and returns [True] exactly when the tuples it
    is given are those of the table in some order, each as often as there.
    At the first name that is not, if it stays on its line and is not one
    field, the line has not the five fields that [read_bindings] unpacks,
    and [bindings_match] raises ValueError.  The Bus is left as it was. *)
Theorem bindings_match_permutation (expected : list Tracking.line) (b : Bus)
    (l1 l2 : list Binding) :
  bindings b = l1 ++ l2 ->
  Forall (fun x => Tracking.plain (name x)) l1 ->
  (l2 = [] ->
   ∃ r : bool, Tracking.bindings_match expected b = (Done r, b)
               ∧ (r = true <-> expected ≡ₚ list_bindings b))
  ∧ (forall x l2',
        l2 = x :: l2' ->
        Tracking.no_newline (name x) ->
        List.length (Tracking.split (name x)) ≠ 1%nat ->
        Tracking.bindings_match expected b
        = (Failed (PyError (ValueError
                     (Unpack (4 + List.length (Tracking.split (name x)))))), b)).
Proof.
  intros Hb Hplain. split.
  - intros ->. rewrite app_nil_r in Hb. rewrite <- Hb in Hplain.
    eexists. split; [by apply bindings_match_plain|].
    apply bool_decide_eq_true.
  - intros x l2' -> Hline Hfields. by apply (bindings_match_unpack _ _ l1 x l2').
Qed.

Lemma bindings_match_permutation_witness :
  (∃ r : bool,
      Tracking.bindings_match
        [(2%N, true, false, "$.Jim"); (1%N, false, false, "$.Fred");
         (1%N, true, false, "$.Fred"); (1%N, false, false, "$.Fred")]
        Stated.two_files = (Done r, Stated.two_files)
      ∧ (r = true <->
         [(2%N, true, false, "$.Jim"); (1%N, false, false, "$.Fred");
          (1%N, true, false, "$.Fred"); (1%N, false, false, "$.Fred")]
         ≡ₚ list_bindings Stated.two_files))
  ∧ Tracking.bindings_match []
      (mkBus [mkBinding 12%N true false "$.a b"] 0 12%N ∅)
    = (Failed (PyError (ValueError (Unpack 6))),
       mkBus [mkBinding 12%N true false "$.a b"] 0 12%N ∅).
Proof.
  split.
  - apply (bindings_match_permutation _ Stated.two_files
             (bindings Stated.two_files) []).
    + by rewrite app_nil_r.
    + repeat (constructor; [split; [done|by repeat constructor]|]). constructor.
    + reflexivity.
  - destruct (bindings_match_permutation []
                (mkBus [mkBinding 12%N true false "$.a b"] 0 12%N ∅)
                [] [mkBinding 12%N true false "$.a b"]
                eq_refl (Forall_nil_2 _)) as [_ H].
    apply (H (mkBinding 12%N true false "$.a b") []).
    + reflexivity.
    + by repeat constructor.
    + by vm_compute.
Defined.



(** X16: while the tracked Bindings and the table of the Bus agree, the
    wrappers of the tests keep them in agreement, unless [bind] is given a
    file that is not tracked.  [attach] returns a file that was not tracked,
    tracks it with no Binding and leaves the table alone.  [detach] raises
    KeyError, and does nothing, for a file that is not tracked; for one that
    is, it forgets the file and takes all its Bindings, and no others, out
    of the table.  [bind] does nothing when the Bus refuses the Binding;
    otherwise the Binding goes to the end of the table, and to the end of
    the tracked Bindings of the file, or, for a file that is not tracked,
    [bind] raises KeyError and the bookkeeping is wrong from then on.
    [unbind] never raises KeyError, and does nothing when the Bus refuses;
    when the Bus has unbound, the Binding was tracked for the file, and the
    wrapper takes the first tracked entry of that name from the list of the
    file. *)
Theorem in_step_kept (s : Tracking.state) (f : endpoint) (name : string)
    (replier guaranteed : bool) :
  Tracking.in_step s ->
  (∃ f' bus',
      Tracking.attach s
      = (Tracking.Returned f',
         Tracking.mkState (<[f' := []]> (Tracking.bindings s)) bus')
      ∧ Tracking.bindings s !! f' = None
      ∧ list_bindings bus' = list_bindings (Tracking.bus s))
  ∧ Tracking.in_step (Tracking.attach s).2
  ∧ (Tracking.bindings s !! f = None -> Tracking.detach f s = (Tracking.KeyError, s))
  ∧ (is_Some (Tracking.bindings s !! f) ->
     ∃ bus',
       Tracking.detach f s
       = (Tracking.Returned tt,
          Tracking.mkState (delete f (Tracking.bindings s)) bus')
       ∧ list_bindings bus'
         = filter (fun y : Tracking.line => y.1.1.1 ≠ f)
                  (list_bindings (Tracking.bus s)))
  ∧ Tracking.in_step (Tracking.detach f s).2
  ∧ (forall x,
        (bind f name replier guaranteed (Tracking.bus s)).1 = Failed x ->
        Tracking.bind f name replier guaranteed s = (Tracking.Raised x, s))
  ∧ (forall l,
        (bind f name replier guaranteed (Tracking.bus s)).1 = Done tt ->
        Tracking.bindings s !! f = Some l ->
        ∃ bus',
          Tracking.bind f name replier guaranteed s
          = (Tracking.Returned tt,
             Tracking.mkState
               (<[f := l ++ [(replier, guaranteed, name)]]> (Tracking.bindings s))
               bus')
          ∧ list_bindings bus'
            = list_bindings (Tracking.bus s) ++ [(f, replier, guaranteed, name)])
  ∧ ((Tracking.bind f name replier guaranteed s).1 = Tracking.KeyError
     <-> (bind f name replier guaranteed (Tracking.bus s)).1 = Done tt
         ∧ Tracking.bindings s !! f = None)
  ∧ (Tracking.in_step (Tracking.bind f name replier guaranteed s).2
     <-> (Tracking.bind f name replier guaranteed s).1 ≠ Tracking.KeyError)
  ∧ (Tracking.unbind f name replier guaranteed s).1 ≠ Tracking.KeyError
  ∧ (forall x,
        (unbind f name replier guaranteed (Tracking.bus s)).1 = Failed x ->
        Tracking.unbind f name replier guaranteed s = (Tracking.Raised x, s))
  ∧ ((unbind f name replier guaranteed (Tracking.bus s)).1 = Done tt ->
     ∃ l bus',
       Tracking.bindings s !! f = Some l
       ∧ (replier, guaranteed, name) ∈ l
       ∧ Tracking.unbind f name replier guaranteed s
         = (Tracking.Returned tt,
            Tracking.mkState (<[f := Tracking.forget name l]> (Tracking.bindings s))
                             bus')
       ∧ (f, replier, guaranteed, name) :: list_bindings bus'
         ≡ₚ list_bindings (Tracking.bus s)).
Proof.
  destruct s as [d b]. intros Hs. pose proof Hs as [Hp Hb].
  cbn [Tracking.bindings Tracking.bus] in *. unfold list_bindings in Hp.
  assert (d !! (last_endpoint b + 1)%N = None) as Hnew.
  { destruct (d !! (last_endpoint b + 1)%N) eqn:E; [|done].
    specialize (Hb _ (mk_is_Some _ _ E)). lia. }
  split; [|split; [|split; [|split; [|split; [|split; [|split; [|split;
    [|split; [|split; [|split]]]]]]]]]].
  - do 2 eexists. unfold Tracking.attach, attach.
    cbn [fst snd Tracking.bindings Tracking.bus]. by split.
  - unfold Tracking.attach, attach. cbn [fst snd Tracking.bindings Tracking.bus].
    split; cbn [Tracking.bindings Tracking.bus].
    + by rewrite expected_of_insert.
    + cbn [last_endpoint]. intros f' [<-|Hf']%lookup_insert_is_Some'; [lia|].
      specialize (Hb _ Hf'). lia.
  - intros E. unfold Tracking.detach. cbn [Tracking.bindings Tracking.bus].
    by rewrite E.
  - intros [l E]. unfold Tracking.detach. cbn [Tracking.bindings Tracking.bus].
    rewrite E. unfold detach. eexists. split; [done|].
    unfold list_bindings. cbn [bindings]. apply list_bindings_filter.
  - unfold Tracking.detach. cbn [Tracking.bindings Tracking.bus].
    destruct (d !! f) as [l|] eqn:E; [|done].
    unfold detach. cbn [fst snd]. split; cbn [Tracking.bindings Tracking.bus].
    + unfold list_bindings. cbn [bindings].
      by rewrite list_bindings_filter, expected_of_delete_filter, Hp.
    + cbn [last_endpoint]. intros f' [_ Hf']%lookup_delete_is_Some. auto.
  - intros x. unfold Tracking.bind, bind. cbn [Tracking.bindings Tracking.bus].
    case_bool_decide; [by intros [= <-]|].
    destruct (replier && has_replier name (bindings b)); [by intros [= <-]|done].
  - intros l. unfold Tracking.bind, bind. cbn [Tracking.bindings Tracking.bus].
    case_bool_decide; [done|].
    destruct (replier && has_replier name (bindings b)); [done|].
    intros _ E. cbv beta iota zeta.
    match goal with |- context [d !! f] => destruct (d !! f) eqn:E' end;
      [|congruence].
    assert (l0 = l) as -> by congruence.
    eexists. split; [done|]. unfold list_bindings. cbn [bindings].
    by rewrite fmap_app.
  - unfold Tracking.bind, bind. cbn [Tracking.bindings Tracking.bus].
    case_bool_decide; [cbn; split; [done|by intros [? _]]|].
    destruct (replier && has_replier name (bindings b));
      [cbn; split; [done|by intros [? _]]|].
    destruct (d !! f) as [l|] eqn:E; cbn [fst snd].
    + split; [done|by intros [_ ?]].
    + done.
  - unfold Tracking.bind, bind. cbn [Tracking.bindings Tracking.bus].
    case_bool_decide; [done|].
    destruct (replier && has_replier name (bindings b)); [done|].
    destruct (d !! f) as [l|] eqn:E; cbn [fst snd].
    + split; [done|]. intros _. split; cbn [Tracking.bindings Tracking.bus].
      * unfold list_bindings. cbn [bindings].
        rewrite expected_of_update, !fmap_app, <- Hp, (expected_of_delete d f l E).
        cbn [fmap list_fmap fst snd]. rewrite <- !app_assoc. f_equiv.
        apply Permutation_app_comm.
      * cbn [last_endpoint]. intros f' [<-|Hf']%lookup_insert_is_Some'; apply Hb;
          [by eexists|done].
    + split; [|done]. intros [Hp' _]. exfalso.
      cbn [Tracking.bindings Tracking.bus] in Hp'. unfold list_bindings in Hp'.
      cbn [bindings] in Hp'. rewrite fmap_app in Hp'.
      apply Permutation_length in Hp', Hp. rewrite length_app in Hp'.
      rewrite length_fmap in Hp, Hp'. cbn in Hp'. lia.
  - unfold Tracking.unbind, unbind. cbn [Tracking.bindings Tracking.bus].
    case_bool_decide as Hin; [|done].
    destruct (d !! f) as [l|] eqn:E; [done|]. exfalso.
    assert ((f, replier, guaranteed, name) ∈ Tracking.expected_of d) as Hx.
    { rewrite Hp. apply list_elem_of_fmap.
      by exists (mkBinding f replier guaranteed name). }
    apply elem_of_expected_of in Hx as [l [Hl _]]. cbn in Hl. congruence.
  - intros x. unfold Tracking.unbind, unbind. cbn [Tracking.bindings Tracking.bus].
    case_bool_decide as Hin; [done|]. by intros [= <-].
  - unfold Tracking.unbind, unbind. cbn [Tracking.bindings Tracking.bus].
    case_bool_decide as Hin; [|done]. intros _.
    assert ((f, replier, guaranteed, name) ∈ Tracking.expected_of d) as Hx.
    { rewrite Hp. apply list_elem_of_fmap.
      by exists (mkBinding f replier guaranteed name). }
    apply elem_of_expected_of in Hx as [l [Hl Hx]]. cbn [fst snd] in Hl, Hx.
    cbv beta iota zeta.
    match goal with |- context [d !! f] => destruct (d !! f) eqn:E' end;
      [|congruence].
    assert (l0 = l) as -> by congruence.
    do 2 eexists. do 3 (split; [done|]).
    unfold list_bindings. cbn [bindings].
    destruct (remove_first_split _ _ Hin) as (t1 & t2 & Ht & _ & Hrm).
    rewrite Hrm, Ht, !fmap_app, fmap_cons. cbn [bound_to is_replier is_guaranteed Kbus.name].
    apply Permutation_middle.
Qed.

Lemma in_step_kept_witness :
  Tracking.in_step (Tracking.attach (Tracking.mkState ∅ initial)).2
  ∧ Tracking.bind 1%N "$.Fred" true false (Tracking.mkState ∅ initial)
    = (Tracking.KeyError,
       Tracking.mkState ∅ (mkBus [mkBinding 1%N true false "$.Fred"] 0 0%N ∅)).
Proof.
  destruct (in_step_kept (Tracking.mkState ∅ initial) 1%N "$.Fred" true false)
    as (_ & Hattach & _).
  - split.
    + reflexivity.
    + intros f [x Hx]. cbn in Hx. by rewrite lookup_empty in Hx.
  - split; [exact Hattach|].
    by vm_compute.
Defined.

(** X17: [TestKernelModule.unbind] looks for the Binding to forget by name
    only.  When the Bus has unbound (name, replier, guaranteed) for a
    tracked file, the wrapper drops the first tracked entry of that name,
    and the tracked Bindings still agree with the table of the Bus exactly
    when that entry has the flags that were unbound. *)
Theorem unbind_by_name (s : Tracking.state) (f : endpoint) (name : string)
    (replier guaranteed : bool) (l1 l2 : list Tracking.entry) (r' g' : bool) :
  Tracking.in_step s ->
  Tracking.bindings s !! f = Some (l1 ++ (r', g', name) :: l2) ->
  Forall (fun y => y.2 ≠ name) l1 ->
  (unbind f name replier guaranteed (Tracking.bus s)).1 = Done tt ->
  (Tracking.unbind f name replier guaranteed s).1 = Tracking.Returned tt
  ∧ Tracking.bindings (Tracking.unbind f name replier guaranteed s).2
    = <[f := l1 ++ l2]> (Tracking.bindings s)
  ∧ (Tracking.in_step (Tracking.unbind f name replier guaranteed s).2
     <-> (r', g') = (replier, guaranteed)).
Proof.
  destruct s as [d b]. cbn [Tracking.bindings Tracking.bus].
  intros [Hp Hb] E Hl1 Hk. cbn [Tracking.bindings Tracking.bus] in Hp, Hb.
  unfold list_bindings in Hp.
  unfold Tracking.unbind. cbn [Tracking.bindings Tracking.bus].
  unfold unbind in *. case_bool_decide as Hin; [|done].
  cbv beta iota zeta.
  rewrite E. cbv beta iota zeta.
  match goal with
  | |- context [Tracking.forget ?n ?l] =>
      replace (Tracking.forget n l) with (l1 ++ l2)
        by (symmetry; by apply forget_cut)
  end.
  cbn [fst snd Tracking.bindings Tracking.bus].
  split; [done|]. split; [done|].
  destruct (remove_first_split _ _ Hin) as (t1 & t2 & Ht & _ & Hrm).
  assert (Tracking.expected_of d
          ≡ₚ [(f, r', g', name)]
             ++ (rows f (l1 ++ l2) ++ Tracking.expected_of (delete f d))) as Eold.
  { rewrite (expected_of_delete d f _ E), !fmap_app, fmap_cons.
    cbn [fst snd app]. rewrite <- !app_assoc. symmetry. apply Permutation_middle. }
  assert ((fun x => (bound_to x, is_replier x, is_guaranteed x, Kbus.name x))
            <$> bindings b
          ≡ₚ [(f, replier, guaranteed, name)]
             ++ ((fun x => (bound_to x, is_replier x, is_guaranteed x, Kbus.name x))
                   <$> (t1 ++ t2))) as Bold.
  { rewrite Ht, !fmap_app, fmap_cons. cbn [app]. symmetry.
    apply Permutation_middle. }
  split.
  - intros [Hp' _]. cbn [Tracking.bindings Tracking.bus] in Hp'.
    unfold list_bindings in Hp'. cbn [bindings] in Hp'.
    rewrite Hrm, expected_of_update in Hp'.
    rewrite <- Hp' in Bold. rewrite Hp, Bold in Eold.
    apply Permutation_app_inv_r, Permutation_length_1 in Eold. congruence.
  - intros [= -> ->]. split; cbn [Tracking.bindings Tracking.bus].
    + unfold list_bindings. cbn [bindings]. rewrite Hrm, expected_of_update.
      apply (Permutation_app_inv_l [(f, replier, guaranteed, name)]).
      by rewrite <- Eold, Hp, Bold.
    + cbn [last_endpoint]. intros f' [<-|Hf']%lookup_insert_is_Some'; apply Hb;
        [by eexists|done].
Qed.

Lemma unbind_by_name_witness :
  ¬ Tracking.in_step
      (Tracking.unbind 1%N "$.Fred" true false
         (Tracking.mkState
            {[1%N := [(false, false, "$.Fred"); (true, false, "$.Fred")]]}
            (mkBus [mkBinding 1%N false false "$.Fred";
                    mkBinding 1%N true false "$.Fred"] 0 1%N {[1%N := []]}))).2.
Proof.
  destruct (unbind_by_name
              (Tracking.mkState
                 {[1%N := [(false, false, "$.Fred"); (true, false, "$.Fred")]]}
                 (mkBus [mkBinding 1%N false false "$.Fred";
                         mkBinding 1%N true false "$.Fred"] 0 1%N {[1%N := []]}))
              1%N "$.Fred" true false [] [(true, false, "$.Fred")] false false)
    as (_ & _ & H).
  - split.
    + reflexivity.
    + intros f [x Hx]. cbn in Hx. apply lookup_singleton_Some in Hx as [<- _].
      cbn. lia.
  - reflexivity.
  - constructor.
  - reflexivity.
  - intros Hs. apply H in Hs. discriminate Hs.
Defined.

End tracking.

(** ** Writing to the device and reading back *)

Section device.
Import Py MessageCodec Kbus.




End device.
